(** * Bulk calendar-event clients and their mock backend

    A shallow embedding of the retry, rate-limit, batching and metrics code of
    the calendar demo scripts:

      - [Backend]   : demo_backend.py, the [demo_stats] counters and the
                      endpoint handlers that update them;
      - [Resilient] : demo_calendar_resilience.py,
                      [NetworkConditionSimulator.apply_conditions] and
                      [ResilientCalendarClient.make_resilient_request];
      - [Demo]      : demo_calendar_comprehensive.py,
                      [CalendarDemoClient.make_request];
      - [Perf]      : demo_calendar_performance.py,
                      [CalendarPerformanceTester.create_single_event] and
                      [run_performance_test];
      - [Limiter]   : the interleavings of the tasks of
                      [create_single_event] around [asyncio.Semaphore];
      - [BackendReport], [Suite], [DemoRuns], [PerfReport] : the statistics
                      endpoint, the resilience test suite, the three demos
                      with their [main], and the performance report.

    Modelling conventions.
      - Python integers are [Z]; durations, latencies and random draws are
        exact rationals [Q] (the source computes them in binary floating
        point; rounding is not modelled, and bounds on durations are stated
        as they hold of the rounded values too).
      - A parsed response body is a dictionary: responses whose body is
        JSON but no JSON object are not covered.
      - The network, the clock and the random generator are oracles: the
        outcome of the k-th attempt of a call is [env k].
      - [asyncio.sleep] calls are recorded in a log, tagged by call site.
      - Exceptions are values of [exn]; only subclasses of [Exception] are
        modelled (task cancellation and interpreter exit are not). *)

From Stdlib Require Import ZArith QArith List Ascii String Bool Arith Lia Lqa.
From Stdlib Require Import DecimalString Permutation.
Import ListNotations.

Local Open Scope Z_scope.

(** ** Python values shared by the scripts *)

Module Py.

(** The exception classes the [except] clauses of the scripts tell apart.
    [OtherException] stands for every other subclass of [Exception]. An
    exception that is an instance of several of them (aiohttp's
    ServerTimeoutError is both a timeout and a client error) has the class
    that comes first in this list, which is the order of the clauses. *)
Inductive exn_class : Type :=
  | TimeoutError        (* asyncio.TimeoutError *)
  | ClientError         (* aiohttp.ClientError and its subclasses *)
  | ConnectionError     (* the builtin ConnectionError *)
  | ValueError          (* raised by int() on a string that is no integer *)
  | OtherException.

Record exn : Type := Exn { exn_cls : exn_class; exn_msg : string }.

(** A Python dictionary with string keys, in insertion order. *)
#[local] Unset Elimination Schemes.
Inductive pyval : Type :=
  | PStr (s : string)
  | PInt (z : Z)
  | PFloat (q : Q)
  | PDict (d : list (string * pyval)).
#[local] Set Elimination Schemes.

Definition dict : Type := list (string * pyval).

(** [key in d] *)
Fixpoint has_key (key : string) (d : dict) : bool :=
  match d with
  | [] => false
  | (k, _) :: d' => if String.eqb k key then true else has_key key d'
  end.

(** [str(n)] for an integer. *)
Definition str_of_Z (n : Z) : string := NilZero.string_of_int (Z.to_int n).

(** What evaluating an expression or awaiting a coroutine gives: a value, or
    a raised exception. *)
Inductive result (A : Type) : Type :=
  | Returned (a : A)
  | Raised (e : exn).
Arguments Returned {A} a.
Arguments Raised {A} e.

(** [int(x)] for a number [x]: truncation towards zero. *)
Definition int_of_Q (x : Q) : Z := Z.quot (Qnum x) (Zpos (Qden x)).

(** [a < b] on exact rationals, as a boolean. *)
Definition Qlt_bool (a b : Q) : bool := negb (Qle_bool b a).

(** One HTTP response as the clients read it: the status code, the raw
    [Retry-After] header when there is one, and what awaiting
    [response.text()] and [response.json()] gives. The parsed body is a
    dictionary: the responses covered are those whose body, when it is
    JSON, is a JSON object, as the bodies of the backend are; a body that
    parses to a list, a string or a number is not among them. *)
Record response : Type := Response {
  status : Z;
  retry_after_header : option string;
  text : result string;
  json : result dict
}.

(** [int(response.headers.get('Retry-After', 1))], given the builtin [int]
    on strings ([None] when it raises ValueError): the default [1] is
    already an integer. *)
Definition retry_after_of (py_int : string -> option Z) (r : response) : result Z :=
  match retry_after_header r with
  | None => Returned 1
  | Some v =>
      match py_int v with
      | Some n => Returned n
      | None =>
          Raised (Exn ValueError ("invalid literal for int() with base 10: '" ++ v ++ "'"))
      end
  end.

(** An instance of [int] on strings, used to run the clients on examples: it
    reads an optional sign followed by ASCII decimal digits, and agrees with
    the builtin on such strings and on strings with no digit at all. *)
Definition digit_of (c : Ascii.ascii) : option Z :=
  let n := Z.of_nat (Ascii.nat_of_ascii c) in
  if (48 <=? n) && (n <=? 57) then Some (n - 48) else None.

Fixpoint digits_value (acc : Z) (s : string) : option Z :=
  match s with
  | EmptyString => Some acc
  | String c s' =>
      match digit_of c with
      | Some d => digits_value (10 * acc + d) s'
      | None => None
      end
  end.

Definition decimal_int (s : string) : option Z :=
  match s with
  | EmptyString => None
  | String c s' =>
      if Ascii.eqb c "-"%char then
        match s' with
        | EmptyString => None
        | _ => option_map Z.opp (digits_value 0 s')
        end
      else if Ascii.eqb c "+"%char then
        match s' with
        | EmptyString => None
        | _ => digits_value 0 s'
        end
      else digits_value 0 s
  end.

End Py.
Import Py.

(** ** demo_backend.py *)

Module Backend.

(** The module-level [demo_stats] dictionary. *)
Record demo_stats : Type := Stats {
  total_requests : Z;
  successful_requests : Z;
  failed_requests : Z;
  events_created : Z
}.

Definition initial_stats : demo_stats := Stats 0 0 0 0.

(** What a handler hands back to the framework: a JSON body (of which only
    the numeric fields that read [demo_stats] are kept), an [HTTPException]
    with its status code, or another exception raised while the body was
    being built. *)
Inductive reply : Type :=
  | Ok (fields : list (string * Z))
  | HTTPException (status_code : Z)
  | Unhandled (cls : exn_class).

(** What the environment supplies to one call of [create_calendar_event]:
    the two random draws, and whether the expression that computes the
    default [end_time] from the event's [start_time]
    ([datetime.fromisoformat(...) + timedelta(hours=1)]) evaluates. *)
Record create_input : Type := CreateInput {
  processing_delay : Q;      (* random.uniform(0.05, 0.3) *)
  failure_draw : Q;          (* random.random() *)
  start_time_parses : bool
}.

Definition with_total (s : demo_stats) : demo_stats :=
  Stats (total_requests s + 1) (successful_requests s) (failed_requests s) (events_created s).

Definition with_success (s : demo_stats) : demo_stats :=
  Stats (total_requests s) (successful_requests s + 1) (failed_requests s) (events_created s).

Definition with_failure (s : demo_stats) : demo_stats :=
  Stats (total_requests s) (successful_requests s) (failed_requests s + 1) (events_created s).

Definition with_event (s : demo_stats) : demo_stats :=
  Stats (total_requests s) (successful_requests s) (failed_requests s) (events_created s + 1).

Definition health_check (s : demo_stats) : demo_stats * reply := (s, Ok []).

Definition initiate_google_auth (s : demo_stats) : demo_stats * reply :=
  (with_success (with_total s), Ok []).

Definition get_calendar_status (s : demo_stats) : demo_stats * reply :=
  let s := with_success (with_total s) in
  (s, Ok [("events_created"%string, events_created s)]).

Definition create_calendar_event (i : create_input) (s : demo_stats) : demo_stats * reply :=
  let s := with_total s in
  if Qlt_bool (failure_draw i) (5 # 100) then
    (with_failure s, HTTPException 500)
  else
    let s := with_event (with_success s) in
    if start_time_parses i then
      (s, Ok [("response_time_ms"%string, int_of_Q (processing_delay i * 1000))])
    else
      (s, Unhandled ValueError).

Definition get_calendar_events (s : demo_stats) : demo_stats * reply :=
  let s := with_success (with_total s) in
  (s, Ok [("total_count"%string, Z.max 0 (Z.min (events_created s) 10))]).

Definition test_calendar_integration (s : demo_stats) : demo_stats * reply :=
  let s := with_success (with_total s) in
  (s, Ok [("total_requests"%string, total_requests s);
          ("successful_requests"%string, successful_requests s);
          ("failed_requests"%string, failed_requests s);
          ("events_created"%string, events_created s)]).

Definition get_demo_stats (s : demo_stats) : demo_stats * reply :=
  (s, Ok [("total_requests"%string, total_requests s);
          ("successful_requests"%string, successful_requests s);
          ("failed_requests"%string, failed_requests s);
          ("events_created"%string, events_created s)]).

Definition reset_demo_stats (s : demo_stats) : demo_stats * reply :=
  (initial_stats, Ok [("total_requests"%string, 0);
                      ("successful_requests"%string, 0);
                      ("failed_requests"%string, 0);
                      ("events_created"%string, 0)]).

(** The routes of the application. *)
Inductive request : Type :=
  | GetHealth
  | GetAuth
  | GetStatus
  | PostEvents (i : create_input)
  | GetEvents
  | GetTest
  | GetStats
  | PostResetStats.

Definition handle (r : request) : demo_stats -> demo_stats * reply :=
  match r with
  | GetHealth => health_check
  | GetAuth => initiate_google_auth
  | GetStatus => get_calendar_status
  | PostEvents i => create_calendar_event i
  | GetEvents => get_calendar_events
  | GetTest => test_calendar_integration
  | GetStats => get_demo_stats
  | PostResetStats => reset_demo_stats
  end.

(** The requests are served one after another. *)
Definition serve (rs : list request) (s : demo_stats) : demo_stats :=
  fold_left (fun s r => fst (handle r s)) rs s.

(** The counters add up. *)
Definition balanced (s : demo_stats) : Prop :=
  total_requests s = successful_requests s + failed_requests s.

End Backend.

(** ** demo_calendar_resilience.py *)

Module Resilient.

(** [NetworkConditionSimulator]: the three rates it is configured with. *)
Record NetworkConditionSimulator : Type := Simulator {
  failure_rate : Q;
  latency_ms : Q;
  timeout_rate : Q
}.

Definition set_poor_network : NetworkConditionSimulator :=
  Simulator (3 # 10) 2000 (2 # 10).

Definition set_unstable_network : NetworkConditionSimulator :=
  Simulator (15 # 100) 500 (1 # 10).

Definition set_rate_limited_network : NetworkConditionSimulator :=
  Simulator (5 # 100) 100 (5 # 100).

Definition reset_network : NetworkConditionSimulator :=
  Simulator 0 0 0.

(** The random numbers one call of [apply_conditions] may draw. *)
Record draws : Type := Draws {
  latency_draw : Q;     (* random.uniform(0, latency_ms / 1000) *)
  failure_draw : Q;     (* the first random.random() *)
  timeout_draw : Q      (* the second random.random() *)
}.

(** The call sites of [asyncio.sleep]. *)
Inductive site : Type :=
  | SimulatedLatency    (* apply_conditions *)
  | RateLimitWait       (* status 429: sleep(retry_after) *)
  | TokenRefreshWait    (* status 401: sleep(1) *)
  | Backoff.            (* 5xx, timeout, network error: sleep(backoff_time) *)

Inductive sleep : Type := Sleep (at_site : site) (seconds : Q).

(** [self.stats], with the log of the sleeps performed so far (oldest
    first). *)
Record stats : Type := ClientStats {
  total_attempts : Z;
  successful_requests : Z;
  failed_requests : Z;
  retries_performed : Z;
  rate_limits_hit : Z;
  network_errors : Z;
  timeout_errors : Z;
  sleeps : list sleep
}.

Definition initial_stats : stats := ClientStats 0 0 0 0 0 0 0 [].

Definition incr_total_attempts (s : stats) : stats :=
  ClientStats (total_attempts s + 1) (successful_requests s) (failed_requests s)
    (retries_performed s) (rate_limits_hit s) (network_errors s) (timeout_errors s) (sleeps s).

Definition incr_successful_requests (s : stats) : stats :=
  ClientStats (total_attempts s) (successful_requests s + 1) (failed_requests s)
    (retries_performed s) (rate_limits_hit s) (network_errors s) (timeout_errors s) (sleeps s).

Definition incr_failed_requests (s : stats) : stats :=
  ClientStats (total_attempts s) (successful_requests s) (failed_requests s + 1)
    (retries_performed s) (rate_limits_hit s) (network_errors s) (timeout_errors s) (sleeps s).

Definition incr_retries_performed (s : stats) : stats :=
  ClientStats (total_attempts s) (successful_requests s) (failed_requests s)
    (retries_performed s + 1) (rate_limits_hit s) (network_errors s) (timeout_errors s) (sleeps s).

Definition incr_rate_limits_hit (s : stats) : stats :=
  ClientStats (total_attempts s) (successful_requests s) (failed_requests s)
    (retries_performed s) (rate_limits_hit s + 1) (network_errors s) (timeout_errors s) (sleeps s).

Definition incr_network_errors (s : stats) : stats :=
  ClientStats (total_attempts s) (successful_requests s) (failed_requests s)
    (retries_performed s) (rate_limits_hit s) (network_errors s + 1) (timeout_errors s) (sleeps s).

Definition incr_timeout_errors (s : stats) : stats :=
  ClientStats (total_attempts s) (successful_requests s) (failed_requests s)
    (retries_performed s) (rate_limits_hit s) (network_errors s) (timeout_errors s + 1) (sleeps s).

(** [await asyncio.sleep(seconds)] *)
Definition asyncio_sleep (at_site : site) (seconds : Q) (s : stats) : stats :=
  ClientStats (total_attempts s) (successful_requests s) (failed_requests s)
    (retries_performed s) (rate_limits_hit s) (network_errors s) (timeout_errors s)
    (sleeps s ++ [Sleep at_site seconds]).

(** [NetworkConditionSimulator.apply_conditions]: [None] when it returns,
    [Some e] when it raises [e]. *)
Definition apply_conditions (sim : NetworkConditionSimulator) (d : draws) (s : stats)
  : stats * option exn :=
  let s := if Qlt_bool 0 (latency_ms sim)
           then asyncio_sleep SimulatedLatency (latency_draw d) s
           else s in
  if Qlt_bool (failure_draw d) (failure_rate sim) then
    (s, Some (Exn ClientError "Simulated network failure"))
  else if Qlt_bool (timeout_draw d) (timeout_rate sim) then
    (s, Some (Exn TimeoutError "Simulated network timeout"))
  else (s, None).

(** What the environment supplies to one iteration of the retry loop. *)
Record attempt_io : Type := AttemptIO {
  conditions : draws;             (* for apply_conditions *)
  request : result response;      (* entering [session.request(...)] *)
  jitter : Q                      (* random.uniform(0, 1), when a backoff is computed *)
}.

(** How one iteration of the [for] loop ends. *)
Inductive control : Type :=
  | Return (d : dict)
  | Continue               (* [continue], or the end of the loop body *)
  | Break.

(** [(2 ** attempt) + random.uniform(0, 1)], the sum taken exactly. The code
    adds in binary64 and sleeps the sum rounded to the nearest double.
    Rounding is monotone and leaves a double as it is, so a bound of the
    exact sum by a double holds of the rounded sum as a closed bound, not as
    a strict one: with a jitter just below 1 the rounded sum is
    2^attempt + 1. *)
Definition backoff_time (attempt : nat) (jitter : Q) : Q :=
  inject_Z (2 ^ Z.of_nat attempt) + jitter.

Section Request.

Variable py_int : string -> option Z.
Variable sim : NetworkConditionSimulator.
Variable max_retries : Z.

(** The body of the [try] statement, for the iteration [attempt]. An
    exception that leaves it is handed to the [except] clauses. *)
Definition try_body (attempt : nat) (a : attempt_io) (s : stats) : stats * result control :=
  match apply_conditions sim (conditions a) s with
  | (s, Some e) => (s, Raised e)
  | (s, None) =>
      match request a with
      | Raised e => (s, Raised e)
      | Returned r =>
          if status r =? 200 then
            let s := incr_successful_requests s in
            match json r with
            | Returned d => (s, Returned (Return d))
            | Raised e => (s, Raised e)
            end
          else if status r =? 429 then
            let s := incr_rate_limits_hit s in
            match retry_after_of py_int r with
            | Raised e => (s, Raised e)
            | Returned retry_after =>
                let s := asyncio_sleep RateLimitWait (inject_Z retry_after) s in
                if Z.of_nat attempt <? max_retries
                then (incr_retries_performed s, Returned Continue)
                else (s, Returned Continue)
            end
          else if status r =? 401 then
            if Z.of_nat attempt <? max_retries
            then (asyncio_sleep TokenRefreshWait 1 (incr_retries_performed s), Returned Continue)
            else (s, Returned Continue)
          else if status r >=? 500 then
            match text r with
            | Raised e => (s, Raised e)
            | Returned _ =>
                if Z.of_nat attempt <? max_retries
                then (asyncio_sleep Backoff (backoff_time attempt (jitter a))
                        (incr_retries_performed s), Returned Continue)
                else (s, Returned Continue)
            end
          else
            match text r with
            | Raised e => (s, Raised e)
            | Returned _ => (s, Returned Break)
            end
      end
  end.

(** The [except] clauses, tried in order on the class of the exception. The
    state is [self.stats] and the local [last_exception]. *)
Definition except_clauses (attempt : nat) (a : attempt_io) (e : exn)
  (s : stats) (last_exception : option exn) : stats * option exn * result control :=
  match exn_cls e with
  | TimeoutError =>
      let s := incr_timeout_errors s in
      if Z.of_nat attempt <? max_retries
      then (asyncio_sleep Backoff (backoff_time attempt (jitter a))
              (incr_retries_performed s), Some e, Returned Continue)
      else (s, Some e, Returned Continue)
  | ClientError | ConnectionError =>
      let s := incr_network_errors s in
      if Z.of_nat attempt <? max_retries
      then (asyncio_sleep Backoff (backoff_time attempt (jitter a))
              (incr_retries_performed s), Some e, Returned Continue)
      else (s, Some e, Returned Continue)
  | ValueError | OtherException =>
      (s, Some e, Returned Break)
  end.

(** One iteration of [for attempt in range(max_retries + 1)]. *)
Definition iteration (attempt : nat) (a : attempt_io) (s : stats) (last_exception : option exn)
  : stats * option exn * result control :=
  let s := incr_total_attempts s in
  match try_body attempt a s with
  | (s, Returned c) => (s, last_exception, Returned c)
  | (s, Raised e) => except_clauses attempt a e s last_exception
  end.

(** The iterations [attempt], [attempt + 1], ... while [remaining] values of
    the range are left. [Returned None] is the loop left without [return]. *)
Fixpoint attempts_loop (env : nat -> attempt_io) (remaining attempt : nat)
  (s : stats) (last_exception : option exn) : stats * option exn * result (option dict) :=
  match remaining with
  | O => (s, last_exception, Returned None)
  | S remaining' =>
      match iteration attempt (env attempt) s last_exception with
      | (s, last_exception, Returned (Return d)) => (s, last_exception, Returned (Some d))
      | (s, last_exception, Returned Break) => (s, last_exception, Returned None)
      | (s, last_exception, Returned Continue) =>
          attempts_loop env remaining' (S attempt) s last_exception
      | (s, last_exception, Raised e) => (s, last_exception, Raised e)
      end
  end.

(** The dictionary returned once the loop is left without [return]. *)
Definition failure_dict (last_exception : option exn) : dict :=
  [ ("error"%string,
     PStr ("Request failed after " ++ str_of_Z (max_retries + 1) ++ " attempts"));
    ("last_exception"%string,
     PStr match last_exception with
          | Some e => exn_msg e
          | None => "Unknown error"%string
          end) ].

(** [ResilientCalendarClient.make_resilient_request] *)
Definition make_resilient_request (env : nat -> attempt_io) (s : stats) : stats * result dict :=
  match attempts_loop env (Z.to_nat (max_retries + 1)) 0 s None with
  | (s, _, Returned (Some d)) => (s, Returned d)
  | (s, last_exception, Returned None) =>
      (incr_failed_requests s, Returned (failure_dict last_exception))
  | (s, _, Raised e) => (s, Raised e)
  end.

End Request.

Definition site_eqb (x y : site) : bool :=
  match x, y with
  | SimulatedLatency, SimulatedLatency | RateLimitWait, RateLimitWait
  | TokenRefreshWait, TokenRefreshWait | Backoff, Backoff => true
  | _, _ => false
  end.

(** The durations slept at one call site, oldest first. *)
Definition waits_at (x : site) (l : list sleep) : list Q :=
  flat_map (fun w => match w with Sleep y d => if site_eqb x y then [d] else [] end) l.

End Resilient.

(** ** demo_calendar_comprehensive.py *)

Module Demo.

Inductive site : Type :=
  | RateLimitWait       (* status 429: sleep(retry_after) *)
  | Backoff.            (* ClientError, TimeoutError: sleep(2 ** attempt) *)

Inductive sleep : Type := Sleep (at_site : site) (seconds : Q).

(** [self.stats] (the two timestamps left out), with the log of the sleeps
    performed so far. *)
Record stats : Type := ClientStats {
  total_requests : Z;
  successful_requests : Z;
  failed_requests : Z;
  events_created : Z;
  sleeps : list sleep
}.

Definition initial_stats : stats := ClientStats 0 0 0 0 [].

Definition incr_total_requests (s : stats) : stats :=
  ClientStats (total_requests s + 1) (successful_requests s) (failed_requests s)
    (events_created s) (sleeps s).

Definition incr_successful_requests (s : stats) : stats :=
  ClientStats (total_requests s) (successful_requests s + 1) (failed_requests s)
    (events_created s) (sleeps s).

Definition incr_failed_requests (s : stats) : stats :=
  ClientStats (total_requests s) (successful_requests s) (failed_requests s + 1)
    (events_created s) (sleeps s).

Definition incr_events_created (s : stats) : stats :=
  ClientStats (total_requests s) (successful_requests s) (failed_requests s)
    (events_created s + 1) (sleeps s).

Definition asyncio_sleep (at_site : site) (seconds : Q) (s : stats) : stats :=
  ClientStats (total_requests s) (successful_requests s) (failed_requests s)
    (events_created s) (sleeps s ++ [Sleep at_site seconds]).

Inductive control : Type :=
  | Return (d : dict)
  | Continue.              (* [continue], or the end of the loop body *)

Section Request.

Variable py_int : string -> option Z.

(** The body of the [try] statement. *)
Definition try_body (request : result response) (s : stats) : stats * result control :=
  match request with
  | Raised e => (s, Raised e)
  | Returned r =>
      if status r =? 200 then
        let s := incr_successful_requests s in
        match json r with
        | Returned d => (s, Returned (Return d))
        | Raised e => (s, Raised e)
        end
      else if status r =? 429 then
        match retry_after_of py_int r with
        | Raised e => (s, Raised e)
        | Returned retry_after =>
            (asyncio_sleep RateLimitWait (inject_Z retry_after) s, Returned Continue)
        end
      else
        match text r with
        | Raised e => (s, Raised e)
        | Returned _ => (s, Returned Continue)
        end
  end.

(** [except (aiohttp.ClientError, asyncio.TimeoutError)]: an exception of
    another class leaves the function. *)
Definition except_clause (attempt : nat) (e : exn) (s : stats) : stats * result control :=
  match exn_cls e with
  | ClientError | TimeoutError =>
      if (attempt <? 2)%nat
      then (asyncio_sleep Backoff (inject_Z (2 ^ Z.of_nat attempt)) s, Returned Continue)
      else (s, Returned Continue)
  | ConnectionError | ValueError | OtherException => (s, Raised e)
  end.

Definition iteration (attempt : nat) (request : result response) (s : stats)
  : stats * result control :=
  match try_body request s with
  | (s, Returned c) => (s, Returned c)
  | (s, Raised e) => except_clause attempt e s
  end.

Fixpoint attempts_loop (env : nat -> result response) (remaining attempt : nat) (s : stats)
  : stats * result (option dict) :=
  match remaining with
  | O => (s, Returned None)
  | S remaining' =>
      match iteration attempt (env attempt) s with
      | (s, Returned (Return d)) => (s, Returned (Some d))
      | (s, Returned Continue) => attempts_loop env remaining' (S attempt) s
      | (s, Raised e) => (s, Raised e)
      end
  end.

(** [CalendarDemoClient.make_request] *)
Definition make_request (env : nat -> result response) (s : stats) : stats * result dict :=
  match attempts_loop env 3 0 (incr_total_requests s) with
  | (s, Returned (Some d)) => (s, Returned d)
  | (s, Returned None) =>
      (incr_failed_requests s,
       Returned [("error"%string, PStr "Request failed after 3 attempts")])
  | (s, Raised e) => (s, Raised e)
  end.

(** [CalendarDemoClient.create_event] *)
Definition create_event (env : nat -> result response) (s : stats) : stats * result dict :=
  match make_request env s with
  | (s, Returned d) =>
      if has_key "error" d then (s, Returned d) else (incr_events_created s, Returned d)
  | (s, Raised e) => (s, Raised e)
  end.

End Request.

End Demo.

(** ** demo_calendar_performance.py *)

Module Perf.

(** The dataclass [PerformanceMetrics]. *)
Record PerformanceMetrics : Type := Metrics {
  total_events : Z;
  successful_events : Z;
  failed_events : Z;
  total_time : Q;
  events_per_second : Q;
  avg_response_time : Q;
  min_response_time : Q;
  max_response_time : Q;
  memory_usage_mb : Q;
  cpu_percent : Q;
  rate_limited_requests : Z
}.

Definition default_metrics : PerformanceMetrics := Metrics 0 0 0 0 0 0 0 0 0 0 0.

Inductive site : Type :=
  | RateLimitWait       (* create_single_event, status 429: sleep(retry_after) *)
  | BatchPause.         (* run_performance_test: sleep(0.1) *)

Inductive sleep : Type := Sleep (at_site : site) (seconds : Q).

(** The fields of [CalendarPerformanceTester] that the run updates, and the
    log of the sleeps performed so far. The counter of [self.semaphore] is
    not a field: the free slots are handed to [create_single_event] as an
    argument, and the interleaving of the tasks is the subject of
    [Limiter]. *)
Record tester : Type := Tester {
  metrics : PerformanceMetrics;
  response_times : list Q;
  sleeps : list sleep
}.

Definition incr_successful_events (t : tester) : tester :=
  let m := metrics t in
  Tester (Metrics (total_events m) (successful_events m + 1) (failed_events m) (total_time m)
            (events_per_second m) (avg_response_time m) (min_response_time m)
            (max_response_time m) (memory_usage_mb m) (cpu_percent m) (rate_limited_requests m))
    (response_times t) (sleeps t).

Definition incr_failed_events (t : tester) : tester :=
  let m := metrics t in
  Tester (Metrics (total_events m) (successful_events m) (failed_events m + 1) (total_time m)
            (events_per_second m) (avg_response_time m) (min_response_time m)
            (max_response_time m) (memory_usage_mb m) (cpu_percent m) (rate_limited_requests m))
    (response_times t) (sleeps t).

Definition incr_rate_limited_requests (t : tester) : tester :=
  let m := metrics t in
  Tester (Metrics (total_events m) (successful_events m) (failed_events m) (total_time m)
            (events_per_second m) (avg_response_time m) (min_response_time m)
            (max_response_time m) (memory_usage_mb m) (cpu_percent m)
            (rate_limited_requests m + 1))
    (response_times t) (sleeps t).

(** [self.response_times.append(response_time)] *)
Definition append_response_time (response_time : Q) (t : tester) : tester :=
  Tester (metrics t) (response_times t ++ [response_time]) (sleeps t).

Definition asyncio_sleep (at_site : site) (seconds : Q) (t : tester) : tester :=
  Tester (metrics t) (response_times t) (sleeps t ++ [Sleep at_site seconds]).

(** What the environment supplies to one call of [create_single_event]
    (one attempt): what entering [session.post(...)] gives, and the two
    clock differences [end_time - start_time], the one taken when the
    response arrives and the one taken in the [except] clause. An exception
    raised on the way into the request is [post = Raised _], whoever raises
    it: the session, or the interpreter when the calls are nested too deep
    for it (RecursionError, an [Exception] like the others). *)
Record attempt_io : Type := AttemptIO {
  post : result response;
  response_time : Q;
  elapsed : Q
}.

(** One generated event: what [generate_test_events] derives from the index
    [i]. [days], [hours] and [minutes] are the arguments of the [timedelta]
    that is added to [base_time] (the time of the call plus 30 days): they
    are offsets from that instant, not the day and the time of day at which
    the event starts. *)
Record event : Type := Event {
  title_type : string;
  number : Z;
  days : Z;
  hours : Z;
  minutes : Z;
  duration_minutes : Z
}.

Definition event_types : list string :=
  ["Meeting"; "Review"; "Demo"; "Planning"; "Training"]%string.

Definition durations : list Z := [30; 60; 90; 120].

Definition test_event (i : nat) : event :=
  let z := Z.of_nat i in
  Event (nth (i mod 5) event_types ""%string) (z + 1)
        (z / 20) (9 + z mod 8) ((z mod 4) * 15) (nth (i mod 4) durations 0).

(** [generate_test_events(count)]: [range(count)] is empty for [count <= 0]. *)
Definition generate_test_events (count : Z) : list event :=
  map test_event (seq 0 (Z.to_nat count)).

Section Run.

Variable py_int : string -> option Z.

(** The [except Exception] clause of [create_single_event]. *)
Definition except_clause (a : attempt_io) (event_id : Z) (e : exn) (t : tester)
  : tester * dict :=
  (incr_failed_events (append_response_time (elapsed a) t),
   [ ("event_id"%string, PInt event_id);
     ("status"%string, PStr "error");
     ("response_time"%string, PFloat (elapsed a));
     ("error"%string, PStr (exn_msg e)) ]).

(** [CalendarPerformanceTester.create_single_event], called when [slots]
    slots of [self.semaphore] are free. The body runs inside
    [async with self.semaphore]: the call takes one slot, and the call it
    makes to itself after a 429 is made from inside the block, so that the
    call [attempt] levels deep (it talks to [env attempt]) finds one slot
    fewer than its caller; the slots are released as the frames return.
    [None]: the call has not returned. It awaits the semaphore, every slot
    being held by its own callers, and nothing can release one. *)
Fixpoint create_single_event (slots : nat) (env : nat -> attempt_io) (attempt : nat)
  (event_data : event) (event_id : Z) (t : tester) : tester * option dict :=
  match slots with
  | O => (t, None)
  | S slots' =>
      let a := env attempt in
      match post a with
      | Raised e =>
          let (t, d) := except_clause a event_id e t in (t, Some d)
      | Returned r =>
          let t := append_response_time (response_time a) t in
          if status r =? 200 then
            let t := incr_successful_events t in
            match json r with
            | Returned result =>
                (t, Some [ ("event_id"%string, PInt event_id);
                           ("status"%string, PStr "success");
                           ("response_time"%string, PFloat (response_time a));
                           ("result"%string, PDict result) ])
            | Raised e =>
                let (t, d) := except_clause a event_id e t in (t, Some d)
            end
          else if status r =? 429 then
            let t := incr_rate_limited_requests t in
            match retry_after_of py_int r with
            | Raised e =>
                let (t, d) := except_clause a event_id e t in (t, Some d)
            | Returned retry_after =>
                let t := asyncio_sleep RateLimitWait (inject_Z retry_after) t in
                create_single_event slots' env (S attempt) event_data event_id t
            end
          else
            let t := incr_failed_events t in
            match text r with
            | Returned error_text =>
                (t, Some [ ("event_id"%string, PInt event_id);
                           ("status"%string, PStr "failed");
                           ("response_time"%string, PFloat (response_time a));
                           ("error"%string,
                            PStr ("HTTP " ++ str_of_Z (status r) ++ ": " ++ error_text)) ])
            | Raised e =>
                let (t, d) := except_clause a event_id e t in (t, Some d)
            end
      end
  end.

(** [len(events)] *)
Definition len {A : Type} (l : list A) : Z := Z.of_nat (List.length l).

(** [l[start:stop]] *)
Definition py_slice {A : Type} (l : list A) (start stop : Z) : list A :=
  let norm i := if i <? 0 then Z.max 0 (len l + i) else Z.min i (len l) in
  firstn (Z.to_nat (norm stop - norm start)) (skipn (Z.to_nat (norm start)) l).

(** [(len(events) + batch_size - 1) // batch_size], for [batch_size <> 0] *)
Definition total_batches (n batch_size : Z) : Z := (n + batch_size - 1) / batch_size.

(** What the batch loop does, in order: the tasks of a batch are gathered,
    and the loop pauses. *)
Inductive step : Type :=
  | Gather (start_idx : Z) (batch_events : list event)
  | Pause (seconds : Q).

(** The iteration [batch_num] of the batch loop. *)
Definition batch_steps (events : list event) (batch_size : Z) (batch_num : Z) : list step :=
  let start_idx := batch_num * batch_size in
  let end_idx := Z.min (start_idx + batch_size) (len events) in
  Gather start_idx (py_slice events start_idx end_idx)
  :: (if batch_num <? total_batches (len events) batch_size - 1 then [Pause (1 # 10)] else []).

(** [for batch_num in range(total_batches)] *)
Definition schedule (events : list event) (batch_size : Z) : list step :=
  flat_map (batch_steps events batch_size)
    (map Z.of_nat (seq 0 (Z.to_nat (total_batches (len events) batch_size)))).

(** The item [event_id] talks to [env event_id]. The tasks of a batch are
    run to completion one after the other, each finding the [slots] slots
    free again. The counters a completed batch leaves do not depend on the
    order in which its tasks take their turns; tasks that are rate limited
    at the same time compete for the slots, which [Limiter] follows. [None]:
    some task has not returned. *)
Fixpoint gather (slots : nat) (env : Z -> nat -> attempt_io) (start_idx : Z) (i : nat)
  (batch_events : list event) (t : tester) : option tester :=
  match batch_events with
  | [] => Some t
  | event_data :: rest =>
      let event_id := start_idx + Z.of_nat i in
      match create_single_event slots (env event_id) 0 event_data event_id t with
      | (t, Some _) => gather slots env start_idx (S i) rest t
      | (_, None) => None
      end
  end.

Fixpoint run_steps (slots : nat) (env : Z -> nat -> attempt_io) (steps : list step) (t : tester)
  : option tester :=
  match steps with
  | [] => Some t
  | Gather start_idx batch_events :: steps' =>
      match gather slots env start_idx 0 batch_events t with
      | Some t => run_steps slots env steps' t
      | None => None
      end
  | Pause seconds :: steps' =>
      run_steps slots env steps' (asyncio_sleep BatchPause seconds t)
  end.

(** [statistics.mean], [min] and [max] of a list. *)
Definition sum (l : list Q) : Q := fold_left Qplus l 0%Q.

Definition mean (l : list Q) : Q := sum l / inject_Z (len l).

Definition py_min (l : list Q) : Q :=
  match l with
  | [] => 0%Q
  | x :: l' => fold_left (fun m y => if Qlt_bool y m then y else m) l' x
  end.

Definition py_max (l : list Q) : Q :=
  match l with
  | [] => 0%Q
  | x :: l' => fold_left (fun m y => if Qlt_bool m y then y else m) l' x
  end.

(** What the clock and [psutil] report for one run. *)
Record readings : Type := Readings {
  run_time : Q;            (* end_time - start_time *)
  memory_delta : Q;        (* final_memory - initial_memory *)
  cpu : Q                  (* process.cpu_percent() *)
}.

(** "Calculate final metrics" and "System resource usage". *)
Definition final_metrics (rd : readings) (t : tester) : PerformanceMetrics :=
  let m := metrics t in
  let rts := response_times t in
  let has_times := negb (len rts =? 0) in
  Metrics (total_events m) (successful_events m) (failed_events m)
    (run_time rd)
    (if Qlt_bool 0 (run_time rd) then inject_Z (successful_events m) / run_time rd else 0%Q)
    (if has_times then mean rts else avg_response_time m)
    (if has_times then py_min rts else min_response_time m)
    (if has_times then py_max rts else max_response_time m)
    (memory_delta rd) (cpu rd) (rate_limited_requests m).

Definition set_total_events (n : Z) (m : PerformanceMetrics) : PerformanceMetrics :=
  Metrics n (successful_events m) (failed_events m) (total_time m)
    (events_per_second m) (avg_response_time m) (min_response_time m)
    (max_response_time m) (memory_usage_mb m) (cpu_percent m) (rate_limited_requests m).

(** [CalendarPerformanceTester.run_performance_test], for a tester made with
    [asyncio.Semaphore(max_concurrent)]. [Raised]: the division by a zero
    [batch_size]. [Returned None]: some task has not returned, and the run
    does not end. *)
Definition run_performance_test (max_concurrent : nat) (env : Z -> nat -> attempt_io) (rd : readings)
  (event_count batch_size : Z) (t : tester) : result (option tester) :=
  let events := generate_test_events event_count in
  let t := Tester (set_total_events (len events) default_metrics) [] (sleeps t) in
  if batch_size =? 0 then Raised (Exn OtherException "integer division or modulo by zero")
  else
    match run_steps max_concurrent env (schedule events batch_size) t with
    | None => Returned None
    | Some t => Returned (Some (Tester (final_metrics rd t) (response_times t) (sleeps t)))
    end.

End Run.

(** The batches a list of steps gathers, and its outline: the size of each
    gathered batch, the length of each pause. *)
Definition batches_of (steps : list step) : list (list event) :=
  flat_map (fun st => match st with Gather _ b => [b] | Pause _ => [] end) steps.

Definition outline (steps : list step) : list (Z + Q) :=
  map (fun st => match st with Gather _ b => inl (len b) | Pause d => inr d end) steps.

(** An environment answers properly when every body it delivers can be read:
    [response.json()] on a 200 and [response.text()] on an error status do
    not raise. *)
Definition readable (r : response) : bool :=
  if status r =? 200 then match json r with Returned _ => true | Raised _ => false end
  else if status r =? 429 then true
  else match text r with Returned _ => true | Raised _ => false end.

Definition answers_properly (a : attempt_io) : bool :=
  match post a with
  | Returned r => readable r
  | Raised _ => true
  end.

(** The sample an attempt contributes first: the response time when a
    response arrives, whatever its status; the time to the exception when
    [session.post] raises. *)
Definition latency (a : attempt_io) : Q :=
  match post a with
  | Returned _ => response_time a
  | Raised _ => elapsed a
  end.

(** The metrics a run returns (the default ones when it returns none). *)
Definition metrics_of (run : result (option tester)) : PerformanceMetrics :=
  match run with
  | Returned (Some t) => metrics t
  | _ => default_metrics
  end.

End Perf.

(** ** Admission: [async with self.semaphore] in [create_single_event]

    The tasks gathered by [run_performance_test] interleave at their [await]
    points. A task is a stack of frames of [create_single_event]: the call
    made by [gather] and, after each 429, the call it makes to itself from
    inside its own [async with self.semaphore] block. *)

Module Limiter.
Local Open Scope nat_scope.

(** Where the innermost frame of a task stands. *)
Inductive phase : Type :=
  | Acquiring     (* awaiting [self.semaphore.acquire()] *)
  | InFlight      (* awaiting [self.session.post(...)]: the network attempt *)
  | Sleeping      (* awaiting [asyncio.sleep(retry_after)] after a 429 *)
  | Leaving       (* a result is being returned through the frames *)
  | Finished.

Definition phase_eqb (p q : phase) : bool :=
  match p, q with
  | Acquiring, Acquiring | InFlight, InFlight | Sleeping, Sleeping
  | Leaving, Leaving | Finished, Finished => true
  | _, _ => false
  end.

(** A task: its phase, the number of its frames that are inside their
    [async with] block (each holds one slot), and how often it has acquired
    and released the semaphore so far. *)
Record task : Type := Task {
  at_phase : phase;
  held : nat;
  acquired : nat;
  released : nat
}.

(** The semaphore's counter and the tasks created so far. *)
Record state : Type := State {
  value : nat;
  tasks : list task
}.

(** [CalendarPerformanceTester(max_concurrent=50)] *)
Definition default_max_concurrent : nat := 50.

(** [asyncio.Semaphore(max_concurrent)] *)
Definition init (max_concurrent : nat) : state := State max_concurrent [].

Inductive action : Type :=
  | StartBatch (k : nat)                  (* [asyncio.gather] of [k] new tasks *)
  | Admit (i : nat)                       (* task [i] acquires the semaphore *)
  | Answer (i : nat) (rate_limited : bool)
                                          (* the attempt of task [i] ends: with a 429,
                                             or with anything else *)
  | Wake (i : nat)                        (* the sleep of task [i] ends: it calls itself *)
  | Exit (i : nat).                       (* a frame of task [i] leaves its
                                             [async with] block *)

Fixpoint update_nth {A : Type} (i : nat) (x : A) (l : list A) : list A :=
  match l, i with
  | [], _ => []
  | _ :: l', O => x :: l'
  | y :: l', S i' => y :: update_nth i' x l'
  end.

Definition all_finished (ts : list task) : bool :=
  forallb (fun t => phase_eqb (at_phase t) Finished) ts.

(** One move of the event loop, when it is enabled. *)
Definition try_step (a : action) (s : state) : option state :=
  match a with
  | StartBatch k =>
      if all_finished (tasks s)
      then Some (State (value s) (tasks s ++ repeat (Task Acquiring 0 0 0) k))
      else None
  | Admit i =>
      match nth_error (tasks s) i, value s with
      | Some (Task Acquiring h a r), S v =>
          Some (State v (update_nth i (Task InFlight (S h) (S a) r) (tasks s)))
      | _, _ => None
      end
  | Answer i rate_limited =>
      match nth_error (tasks s) i with
      | Some (Task InFlight h a r) =>
          Some (State (value s)
                  (update_nth i (Task (if rate_limited then Sleeping else Leaving) h a r)
                     (tasks s)))
      | _ => None
      end
  | Wake i =>
      match nth_error (tasks s) i with
      | Some (Task Sleeping h a r) =>
          Some (State (value s) (update_nth i (Task Acquiring h a r) (tasks s)))
      | _ => None
      end
  | Exit i =>
      match nth_error (tasks s) i with
      | Some (Task Leaving (S h) a r) =>
          Some (State (S (value s))
                  (update_nth i (Task (match h with O => Finished | S _ => Leaving end)
                                   h a (S r))
                     (tasks s)))
      | _ => None
      end
  end.

(** A move that is not enabled leaves the state as it is. *)
Definition step (s : state) (a : action) : state :=
  match try_step a s with
  | Some s' => s'
  | None => s
  end.

Definition run (schedule : list action) (s : state) : state :=
  fold_left step schedule s.

(** The number of network attempts in progress. *)
Definition in_flight (s : state) : nat :=
  List.length (filter (fun t => phase_eqb (at_phase t) InFlight) (tasks s)).

Definition slots_held (s : state) : nat :=
  list_sum (map held (tasks s)).

(** What holds of every task: it holds the slots it has acquired and not yet
    released, an attempt in progress or a result on its way out is inside at
    least one [async with] block, and a finished task is inside none. *)
Definition task_ok (t : task) : Prop :=
  acquired t = released t + held t
  /\ (at_phase t = InFlight -> 1 <= held t)
  /\ (at_phase t = Leaving -> 1 <= held t)
  /\ (at_phase t = Finished -> held t = 0).

Definition consistent (max_concurrent : nat) (s : state) : Prop :=
  value s + slots_held s = max_concurrent /\ Forall task_ok (tasks s).

End Limiter.

(** ** Scenarios

    Concrete environments on which the clients are run. *)

Module Scenario.

(** A response with the given status and [Retry-After] header, whose body
    reads as the empty text and the empty object. *)
Definition answer (code : Z) (retry_after : option string) : response :=
  Response code retry_after (Returned ""%string) (Returned []).

(** A 200 response whose body cannot be read. *)
Definition truncated_answer : response :=
  Response 200 None
    (Raised (Exn ClientError "Response payload is not completed"))
    (Raised (Exn ClientError "Response payload is not completed")).

(** The performance tester: five items, answered 200 after 10, 20 and 30 ms
    and 500 after 40 and 50 ms. *)
Definition three_successes_two_failures (event_id : Z) (attempt : nat) : Perf.attempt_io :=
  let ms := nth (Z.to_nat event_id) [10; 20; 30; 40; 50] 0 in
  Perf.AttemptIO (Returned (answer (if event_id <? 3 then 200 else 500) None))
    (ms # 1000) (ms # 1000).

(** The performance tester: every attempt is answered 429 with
    [Retry-After: 2] after 10 ms. *)
Definition always_rate_limited_perf (attempt : nat) : Perf.attempt_io :=
  Perf.AttemptIO (Returned (answer 429 (Some "2"%string))) (10 # 1000) (10 # 1000).

(** The performance tester: the answer is a 200 whose body cannot be read;
    the response arrives after 10 ms, the failure after 15 ms. *)
Definition truncated_success (event_id : Z) (attempt : nat) : Perf.attempt_io :=
  Perf.AttemptIO (Returned truncated_answer) (10 # 1000) (15 # 1000).

(** The performance tester: the answer has the given status and header. *)
Definition perf_answers (code : Z) (retry_after : option string) (attempt : nat)
  : Perf.attempt_io :=
  Perf.AttemptIO (Returned (answer code retry_after)) (10 # 1000) (10 # 1000).

Definition no_draws : Resilient.draws := Resilient.Draws 0 (1 # 2) (1 # 2).

(** The resilient client: every attempt is answered with the given status
    and header; the jitter drawn is 1/2. *)
Definition resilient_answers (code : Z) (retry_after : option string) (attempt : nat)
  : Resilient.attempt_io :=
  Resilient.AttemptIO no_draws (Returned (answer code retry_after)) (1 # 2).

(** The resilient client: the first attempt is answered [code], the later
    ones 200. *)
Definition resilient_once (code : Z) (retry_after : option string) (attempt : nat)
  : Resilient.attempt_io :=
  match attempt with
  | O => Resilient.AttemptIO no_draws (Returned (answer code retry_after)) (1 # 2)
  | S _ => Resilient.AttemptIO no_draws (Returned (answer 200 None)) (1 # 2)
  end.

(** The demo client: the first attempt is answered [code], the later ones
    200. *)
Definition demo_once (code : Z) (retry_after : option string) (attempt : nat)
  : result response :=
  match attempt with
  | O => Returned (answer code retry_after)
  | S _ => Returned (answer 200 None)
  end.

Definition fresh_tester : Perf.tester := Perf.Tester Perf.default_metrics [] [].

Definition no_readings : Perf.readings := Perf.Readings 1 0 0.

End Scenario.

(** * The rest of the scripts *)

(** ** demo_backend.py: the statistics endpoint *)

Module BackendReport.
Import Backend.

(** [get_demo_stats]: the field ["success_rate"],
    [(successful_requests / max(total_requests, 1)) * 100]. *)
Definition success_rate (s : demo_stats) : Q :=
  inject_Z (successful_requests s) / inject_Z (Z.max (total_requests s) 1) * 100.

(** The counters are ordered: events <= successes <= requests. *)
Definition ordered (s : demo_stats) : Prop :=
  0 <= events_created s <= successful_requests s
  /\ 0 <= failed_requests s
  /\ balanced s.

End BackendReport.

(** ** demo_calendar_resilience.py: the client's wrappers, the test suite and
    the final statistics *)

Module Suite.
Import Resilient.

(** [sum(1 for r in results if isinstance(r, dict) and 'error' not in r)],
    over the results of [asyncio.gather] with [return_exceptions=True]: an
    exception a task raised is a result like the others. *)
Definition is_success (r : result dict) : bool :=
  match r with
  | Returned d => negb (has_key "error" d)
  | Raised _ => false
  end.

Definition count_successful (results : list (result dict)) : Z :=
  Z.of_nat (List.length (filter is_success results)).

(** What a test of the suite returns (the name and the duration left out). *)
Record report : Type := Report {
  total_events : Z;
  successful_events : Z;
  success_rate : Q
}.

Section Client.

Variable py_int : string -> option Z.

(** [create_event], [get_events] and [get_status]: each is
    [make_resilient_request] with the default [max_retries = 3]. *)
Definition create_event (sim : NetworkConditionSimulator) (env : nat -> attempt_io)
  (s : stats) : stats * result dict :=
  make_resilient_request py_int sim 3 env s.

(** [await asyncio.gather] of the tasks, with [return_exceptions=True], run to
    completion one after the other; the task [i] talks to [nth i envs]. *)
Fixpoint gather (sim : NetworkConditionSimulator) (envs : list (nat -> attempt_io))
  (s : stats) : stats * list (result dict) :=
  match envs with
  | [] => (s, [])
  | env :: envs' =>
      let (s, r) := create_event sim env s in
      let (s, rs) := gather sim envs' s in
      (s, r :: rs)
  end.

(** The body shared by [test_normal_conditions], [test_poor_network],
    [test_unstable_network] and [test_rate_limiting_recovery]: the simulator
    is set, [n] events are created at once, the successes are counted. *)
Definition run_test (sim : NetworkConditionSimulator) (n : nat)
  (env : nat -> nat -> attempt_io) (s : stats) : stats * report :=
  let (s, results) := gather sim (map env (seq 0 n)) s in
  let successful := count_successful results in
  (s, Report (Z.of_nat n) successful
        (inject_Z successful / inject_Z (Z.of_nat n) * 100)).

Definition test_normal_conditions := run_test reset_network 10.
Definition test_poor_network := run_test set_poor_network 15.
Definition test_unstable_network := run_test set_unstable_network 20.
Definition test_rate_limiting_recovery := run_test set_rate_limited_network 25.

End Client.

(** [main]: the overall success rate,
    [(successful_requests / total_attempts) * 100 if total_attempts > 0 else 0]. *)
Definition overall_success_rate (s : stats) : Q :=
  if total_attempts s >? 0
  then inject_Z (successful_requests s) / inject_Z (total_attempts s) * 100
  else 0.

(** What one iteration adds to the counters, by the way it ends. *)
Definition iteration_counts (max_retries : Z) (attempt : nat) (a : attempt_io)
  (s s' : stats) (c : control) : Prop :=
  failed_requests s' = failed_requests s
  /\ total_attempts s' = total_attempts s + 1
  /\ retries_performed s'
     = retries_performed s
       + match c with
         | Continue => if Z.of_nat attempt <? max_retries then 1 else 0
         | _ => 0
         end
  /\ 0 <= successful_requests s' - successful_requests s <= 1
  /\ match c with
     | Return d => exists r, request a = Returned r /\ status r = 200 /\ json r = Returned d
     | _ => True
     end.

(** No 200 response that the environment delivers has a body with the key
    'error'. *)
Definition no_error_key (env : nat -> attempt_io) : Prop :=
  forall k r d, request (env k) = Returned r -> json r = Returned d ->
                has_key "error" d = false.

(** An attempt that ends in a failure the client retries: the simulator
    raises, the request raises a timeout or a network error, or the answer
    is a 5xx whose text can be read. *)
Definition transient (sim : NetworkConditionSimulator) (a : attempt_io) : Prop :=
  (exists e, forall s0, snd (apply_conditions sim (conditions a) s0) = Some e)
  \/ ((forall s0, snd (apply_conditions sim (conditions a) s0) = None)
      /\ ((exists e, request a = Raised e
                     /\ (exn_cls e = TimeoutError \/ exn_cls e = ClientError
                         \/ exn_cls e = ConnectionError))
          \/ (exists r txt, request a = Returned r /\ 500 <= status r
                            /\ text r = Returned txt))).

End Suite.

(** ** demo_calendar_comprehensive.py: the three demos and [main] *)

Module DemoRuns.
Import Demo.

Section Client.

Variable py_int : string -> option Z.

(** [await asyncio.gather] of [create_event] tasks, with
    [return_exceptions=True], run to completion one after the other. *)
Fixpoint gather_create_events (envs : list (nat -> result response)) (s : stats)
  : stats * list (result dict) :=
  match envs with
  | [] => (s, [])
  | env :: envs' =>
      let (s, r) := create_event py_int env s in
      let (s, rs) := gather_create_events envs' s in
      (s, r :: rs)
  end.

(** The k-th call that the client makes in a session talks to [net k]. The
    demos' own log lines and the sleeps with which they stagger their
    requests are left out. *)

(** The list comprehension of [demo_cross_platform_sync],
    [[e for e in events['events'] if 'Cross-Platform' in e.get('title', '')]],
    on the body [events]: the length of the list it builds, or the exception
    it raises (when ['events'] is no list of dictionaries with string
    titles). *)
Variable cross_platform_events : dict -> result Z.

(** [MultiPlatformDemo.demo_cross_platform_sync]: five events are created,
    the successes counted, the events fetched (the call made next) and, when
    the body has the key 'events', the cross-platform ones picked out. *)
Definition demo_cross_platform_sync (net : nat -> nat -> result response) (first : nat)
  (s : stats) : stats * result Z :=
  let (s, results) := gather_create_events (map net (seq first 5)) s in
  let successful_creates := Suite.count_successful results in
  match make_request py_int (net (first + 5)%nat) s with
  | (s, Raised e) => (s, Raised e)
  | (s, Returned events) =>
      if has_key "events" events then
        match cross_platform_events events with
        | Raised e => (s, Raised e)
        | Returned _ => (s, Returned successful_creates)
        end
      else (s, Returned successful_creates)
  end.

(** The batch loop of [PerformanceDemo.demo_bulk_event_creation]; an event
    is its index in the generated list. *)
Inductive bulk_step : Type :=
  | Batch (indices : list nat)
  | Pause (seconds : Q).

Definition bulk_schedule (event_count : Z) : list bulk_step :=
  let events := seq 0 (Z.to_nat event_count) in
  let batch_size := 10 in
  let total_batches := Perf.total_batches (Perf.len events) batch_size in
  flat_map
    (fun batch_num =>
       let start_idx := batch_num * batch_size in
       let end_idx := Z.min (start_idx + batch_size) (Perf.len events) in
       Batch (Perf.py_slice events start_idx end_idx)
       :: (if batch_num <? total_batches - 1 then [Pause (1 # 10)] else []))
    (map Z.of_nat (seq 0 (Z.to_nat total_batches))).

Fixpoint run_bulk (net : nat -> nat -> result response) (first : nat)
  (steps : list bulk_step) (s : stats) (pauses : list Q) : stats * list Q :=
  match steps with
  | [] => (s, pauses)
  | Batch indices :: steps' =>
      let (s, _) := gather_create_events (map (fun i => net (first + i)%nat) indices) s in
      run_bulk net first steps' s pauses
  | Pause seconds :: steps' => run_bulk net first steps' s (pauses ++ [seconds])
  end.

(** [PerformanceDemo.demo_bulk_event_creation]: the statistics, the pauses
    made between the batches, and the value returned,
    [self.client.stats['events_created']]. The last log line divides
    [events_created] by [event_count]. *)
Definition demo_bulk_event_creation (net : nat -> nat -> result response) (first : nat)
  (event_count : Z) (s : stats) : stats * list Q * result Z :=
  let (s, pauses) := run_bulk net first (bulk_schedule event_count) s [] in
  (s, pauses,
   if event_count =? 0 then Raised (Exn OtherException "division by zero")
   else Returned (events_created s)).

(** [ResilienceDemo.demo_network_resilience]: five events, then twenty.
    [rapid_duration] is what the clock gives for
    [time.time() - rapid_start]; the last log line divides by it. *)
Definition demo_network_resilience (net : nat -> nat -> result response) (first : nat)
  (rapid_duration : Q) (s : stats) : stats * result Z :=
  let (s, resilience_results) := gather_create_events (map net (seq first 5)) s in
  let (s, rapid_results) := gather_create_events (map net (seq (first + 5) 20)) s in
  if Qeq_bool rapid_duration 0
  then (s, Raised (Exn OtherException "float division by zero"))
  else (s, Returned (Suite.count_successful resilience_results
                     + Suite.count_successful rapid_results)).

(** What [main] computes for its summary. *)
Record summary : Type := Summary {
  platform_events : Z;
  bulk_events : Z;
  resilience_events : Z;
  total_events : Z
}.

(** [main], up to the summary: three checks, the three demos, the sum. A
    call outside [asyncio.gather] that raises ends [main]. *)
Definition main (net : nat -> nat -> result response) (rapid_duration : Q)
  : stats * result summary :=
  match make_request py_int (net 0%nat) initial_stats with
  | (s, Raised e) => (s, Raised e)
  | (s, Returned _) =>
  match make_request py_int (net 1%nat) s with
  | (s, Raised e) => (s, Raised e)
  | (s, Returned _) =>
  match make_request py_int (net 2%nat) s with
  | (s, Raised e) => (s, Raised e)
  | (s, Returned _) =>
  match demo_cross_platform_sync net 3 s with
  | (s, Raised e) => (s, Raised e)
  | (s, Returned platform) =>
  match demo_bulk_event_creation net 9 100 s with
  | (s, _, Raised e) => (s, Raised e)
  | (s, _, Returned bulk) =>
  match demo_network_resilience net 109 rapid_duration s with
  | (s, Raised e) => (s, Raised e)
  | (s, Returned resilience) =>
      (s, Returned (Summary platform bulk resilience (platform + bulk + resilience)))
  end end end end end end.

End Client.

(** The exception classes that [make_request] does not catch. *)
Definition escapes (e : exn) : Prop :=
  exn_cls e = ConnectionError \/ exn_cls e = ValueError \/ exn_cls e = OtherException.

(** The indices gathered by a list of steps, and its pauses. *)
Definition bulk_indices (steps : list bulk_step) : list nat :=
  flat_map (fun st => match st with Batch l => l | Pause _ => [] end) steps.

Definition bulk_pauses (steps : list bulk_step) : list Q :=
  flat_map (fun st => match st with Batch _ => [] | Pause d => [d] end) steps.

End DemoRuns.

(** ** demo_calendar_performance.py: the report and the generated events *)

Module PerfReport.
Import Perf.

Inductive rating : Type :=
  | Excellent
  | Good
  | Fair
  | NeedsImprovement.

(** [print_performance_report]: the success rate,
    [(metrics.successful_events / metrics.total_events) * 100]; the division
    raises ZeroDivisionError when [total_events] is 0. *)
Definition success_rate (m : PerformanceMetrics) : result Q :=
  if total_events m =? 0
  then Raised (Exn OtherException "division by zero")
  else Returned (inject_Z (successful_events m) / inject_Z (total_events m) * 100)%Q.

(** The performance rating, by [events_per_second]. *)
Definition performance_rating (m : PerformanceMetrics) : rating :=
  if Qlt_bool 50 (events_per_second m) then Excellent
  else if Qlt_bool 20 (events_per_second m) then Good
  else if Qlt_bool 10 (events_per_second m) then Fair
  else NeedsImprovement.

(** [print_performance_report]: what it computes, or the exception that
    ends it. *)
Definition print_performance_report (m : PerformanceMetrics) : result (Q * rating) :=
  match success_rate m with
  | Raised e => Raised e
  | Returned rate => Returned (rate, performance_rating m)
  end.

(** The start of a generated event, in minutes after the base time:
    [timedelta(days=..., hours=..., minutes=...)]. *)
Definition start_minutes (e : event) : Z :=
  days e * 1440 + hours e * 60 + minutes e.

(** [event_time = base_time + timedelta(days=..., hours=..., minutes=...)],
    both in microseconds since the epoch, as [datetime] counts. *)
Definition start_time (base_time : Z) (e : event) : Z :=
  base_time + start_minutes e * 60000000.

(** The samples are accounted for: one for each increment of one of the
    three counters. *)
Definition accounted (t : tester) : Prop :=
  len (response_times t)
  = successful_events (metrics t) + failed_events (metrics t)
    + rate_limited_requests (metrics t).

(** An attempt that ends its item: the request raises, or it is answered
    with a status other than 429 and a body that can be read. *)
Definition ends_the_item (a : attempt_io) : bool :=
  match post a with
  | Returned r => negb (status r =? 429) && readable r
  | Raised _ => true
  end.

(** A step that starts no task. *)
Definition gathers_nothing (st : step) : Prop :=
  match st with
  | Gather _ b => b = []
  | Pause _ => True
  end.

End PerfReport.

(** ** Admission: the state in which nothing moves *)

Module LimiterStates.
Import Limiter.
Local Open Scope nat_scope.

(** A state in which every task awaits the semaphore and no slot is free. *)
Definition all_waiting (s : state) : Prop :=
  value s = 0 /\ tasks s <> [] /\ Forall (fun t => at_phase t = Acquiring) (tasks s).

(** The moves of one rate-limited attempt of the task [i]: it takes a slot,
    is answered 429, sleeps, and calls itself. *)
Definition rate_limited_attempt (i : nat) : list action :=
  [Admit i; Answer i true; Wake i].

End LimiterStates.

(** * Properties *)

(** ** The mock backend's counters *)

Section BackendFacts.
Import Backend.

(** What one handler adds to the three request counters. *)
Lemma handle_increments (r : request) (s : demo_stats) :
  r = PostResetStats \/
  (let s' := fst (handle r s) in
   let dt := total_requests s' - total_requests s in
   let ds := successful_requests s' - successful_requests s in
   let df := failed_requests s' - failed_requests s in
   (dt = 0 /\ ds = 0 /\ df = 0) \/ (dt = 1 /\ ds = 1 /\ df = 0) \/ (dt = 1 /\ ds = 0 /\ df = 1)).
Proof.
  destruct r; [right | right | right | right | right | right | right | left; reflexivity];
    cbn -[Z.sub]; try lia.
  unfold create_calendar_event.
  destruct (Qlt_bool (failure_draw i) (5 # 100)); [cbn; lia|].
  destruct (start_time_parses i); cbn; lia.
Qed.

Lemma handle_balanced (r : request) (s : demo_stats) :
  balanced s -> balanced (fst (handle r s)).
Proof.
  unfold balanced. intros Hs.
  destruct (handle_increments r s) as [-> | H].
  - reflexivity.
  - cbv zeta in H. lia.
Qed.

Lemma serve_balanced (rs : list request) (s : demo_stats) :
  balanced s -> balanced (serve rs s).
Proof.
  revert s. induction rs as [|r rs IH]; intros s Hs; cbn.
  - exact Hs.
  - apply IH. now apply handle_balanced.
Qed.

(** C10. The mock backend keeps total_requests = successful_requests +
    failed_requests: it holds of the counters after any sequence of requests
    served from the initial (or a reset) dictionary; every handler other than
    the reset leaves the three counters alone or adds one to total_requests
    and one to exactly one of successful_requests and failed_requests,
    whether it returns or raises; the reset handler zeroes them; and the
    event-creation handler adds to events_created exactly what it adds to
    successful_requests. *)
Theorem backend_total_is_success_plus_failure :
  (forall rs : list request, balanced (serve rs initial_stats))
  /\ (forall (r : request) (s : demo_stats),
        let s' := fst (handle r s) in
        let dt := total_requests s' - total_requests s in
        let ds := successful_requests s' - successful_requests s in
        let df := failed_requests s' - failed_requests s in
        match r with
        | PostResetStats => s' = initial_stats
        | _ => (dt = 0 /\ ds = 0 /\ df = 0)
               \/ (dt = 1 /\ ds = 1 /\ df = 0)
               \/ (dt = 1 /\ ds = 0 /\ df = 1)
        end)
  /\ (forall (i : create_input) (s : demo_stats),
        let s' := fst (create_calendar_event i s) in
        total_requests s' = total_requests s + 1
        /\ events_created s' - events_created s
           = successful_requests s' - successful_requests s
        /\ (snd (create_calendar_event i s) = HTTPException 500
            -> failed_requests s' = failed_requests s + 1
               /\ events_created s' = events_created s)).
Proof.
  split; [|split].
  - intros rs. apply serve_balanced. reflexivity.
  - intros r s.
    destruct (handle_increments r s) as [-> | H]; [reflexivity|].
    destruct r; try exact H. reflexivity.
  - intros i s. unfold create_calendar_event.
    destruct (Qlt_bool (failure_draw i) (5 # 100)).
    + cbn. repeat split; lia.
    + destruct (start_time_parses i); cbn; (repeat split; try lia); discriminate.
Qed.

End BackendFacts.

(** ** The resilient client *)

Section ResilientFacts.
Import Resilient.

Variable py_int : string -> option Z.
Variable sim : NetworkConditionSimulator.
Variable max_retries : Z.

Ltac split_branches :=
  repeat match goal with
    | |- context [if ?b then _ else _] => destruct b eqn:?
    | |- context [match ?x with Returned _ => _ | Raised _ => _ end] => destruct x eqn:?
    | |- context [match ?x with Some _ => _ | None => _ end] => destruct x eqn:?
    end.

(** [apply_conditions] only sleeps: it leaves the counters alone. *)
Lemma apply_conditions_counters (d : draws) (s : stats) :
  let s' := fst (apply_conditions sim d s) in
  total_attempts s' = total_attempts s
  /\ successful_requests s' = successful_requests s
  /\ failed_requests s' = failed_requests s
  /\ retries_performed s' = retries_performed s
  /\ rate_limits_hit s' = rate_limits_hit s.
Proof.
  unfold apply_conditions. split_branches; cbn; auto.
Qed.

(** One iteration never lets an exception out, leaves [failed_requests]
    alone, and returns only the parsed body of a 200 response. *)
Lemma iteration_spec (attempt : nat) (a : attempt_io) (s : stats) (last : option exn) :
  exists s' last' c,
    iteration py_int sim max_retries attempt a s last = (s', last', Returned c)
    /\ failed_requests s' = failed_requests s
    /\ total_attempts s' = total_attempts s + 1
    /\ match c with
       | Return d =>
           exists r, request a = Returned r /\ status r = 200 /\ json r = Returned d
       | _ => True
       end.
Proof.
  unfold iteration, try_body.
  pose proof (apply_conditions_counters (conditions a) (incr_total_attempts s)) as Hc.
  destruct (apply_conditions sim (conditions a) (incr_total_attempts s)) as [s1 [e|]];
    cbn in Hc; destruct Hc as (Ht & _ & Hf & _).
  - unfold except_clauses. destruct (exn_cls e); split_branches;
      do 3 eexists; (split; [reflexivity|]); cbn; (split; [lia|split; [lia|exact I]]).
  - destruct (request a) as [r|e].
    + destruct (status r =? 200) eqn:E200.
      * apply Z.eqb_eq in E200. destruct (json r) as [d|e] eqn:Ejson.
        -- do 3 eexists; (split; [reflexivity|]); cbn. split; [lia|split; [lia|]].
           exists r; auto.
        -- unfold except_clauses. destruct (exn_cls e); split_branches;
             do 3 eexists; (split; [reflexivity|]); cbn; (split; [lia|split; [lia|exact I]]).
      * split_branches; unfold except_clauses;
          try (match goal with |- context [exn_cls ?e] => destruct (exn_cls e) end);
          split_branches;
          do 3 eexists; (split; [reflexivity|]); cbn; (split; [lia|split; [lia|exact I]]).
    + unfold except_clauses. destruct (exn_cls e); split_branches;
        do 3 eexists; (split; [reflexivity|]); cbn; (split; [lia|split; [lia|exact I]]).
Qed.

(** The loop never lets an exception out, leaves [failed_requests] alone
    and makes at most [remaining] attempts. *)
Lemma attempts_loop_spec (env : nat -> attempt_io) (remaining : nat) :
  forall (attempt : nat) (s : stats) (last : option exn),
  exists s' last' o,
    attempts_loop py_int sim max_retries env remaining attempt s last = (s', last', Returned o)
    /\ failed_requests s' = failed_requests s
    /\ total_attempts s <= total_attempts s' <= total_attempts s + Z.of_nat remaining
    /\ match o with
       | Some d =>
           exists k r, (attempt <= k < attempt + remaining)%nat
                       /\ request (env k) = Returned r /\ status r = 200
                       /\ json r = Returned d
       | None => True
       end.
Proof.
  induction remaining as [|n IH]; intros attempt s last; cbn [attempts_loop].
  - do 3 eexists. split; [reflexivity|]. split; [lia|split; [lia|exact I]].
  - destruct (iteration_spec attempt (env attempt) s last)
      as (s1 & last1 & c & Hit & Hf & Ht & Hc).
    rewrite Hit. destruct c as [d| |].
    + do 3 eexists. split; [reflexivity|]. split; [lia|split; [lia|]].
      destruct Hc as (r & ? & ? & ?). exists attempt, r. split; [lia|auto].
    + destruct (IH (S attempt) s1 last1) as (s2 & last2 & o & Hl & Hf2 & Ht2 & Ho).
      rewrite Hl. do 3 eexists. split; [reflexivity|]. split; [lia|split; [lia|]].
      destruct o as [d|]; [|exact I].
      destruct Ho as (k & r & ? & ?). exists k, r. split; [lia|auto].
    + do 3 eexists. split; [reflexivity|]. split; [lia|split; [lia|exact I]].
Qed.

(** [make_resilient_request] never raises: it returns either the parsed body
    of a 200 response of one of its attempts, with failed_requests
    unchanged, or the dictionary with the key 'error', with failed_requests
    incremented exactly once. *)
Lemma make_resilient_request_ends (env : nat -> attempt_io) (s : stats) :
  exists (s' : stats) (d : dict),
    make_resilient_request py_int sim max_retries env s = (s', Returned d)
    /\ ((failed_requests s' = failed_requests s
         /\ exists k r, (k < Z.to_nat (max_retries + 1))%nat
                        /\ request (env k) = Returned r /\ status r = 200
                        /\ json r = Returned d)
        \/ (failed_requests s' = failed_requests s + 1
            /\ has_key "error" d = true
            /\ exists last, d = failure_dict max_retries last)).
Proof.
  unfold make_resilient_request.
  destruct (attempts_loop_spec env (Z.to_nat (max_retries + 1)) 0 s None)
    as (s1 & last1 & o & Hl & Hf & _ & Ho).
  rewrite Hl. destruct o as [d|].
  - exists s1, d. split; [reflexivity|]. left. split; [exact Hf|].
    destruct Ho as (k & r & ? & ?). exists k, r. split; [lia|auto].
  - do 2 eexists. split; [reflexivity|]. right. cbn. split; [lia|].
    split; [reflexivity|]. eexists; reflexivity.
Qed.

Lemma waits_at_app (x : site) (l1 l2 : list sleep) :
  waits_at x (l1 ++ l2) = waits_at x l1 ++ waits_at x l2.
Proof. unfold waits_at. apply flat_map_app. Qed.

(** [apply_conditions] sleeps at its own call site only. *)
Lemma apply_conditions_waits (x : site) (d : draws) (s : stats) :
  x <> SimulatedLatency ->
  waits_at x (sleeps (fst (apply_conditions sim d s))) = waits_at x (sleeps s).
Proof.
  intros Hx. unfold apply_conditions. split_branches; cbn -[waits_at]; auto;
    rewrite waits_at_app; destruct x; try contradiction; cbn; apply app_nil_r.
Qed.

(** The iteration [attempt] when the simulator lets the request through and
    the answer is a 429 whose header reads as [R]. *)
Lemma iteration_rate_limited (attempt : nat) (a : attempt_io) (R : Z) (r : response)
  (s : stats) (last : option exn) :
  (forall s0, snd (apply_conditions sim (conditions a) s0) = None) ->
  request a = Returned r -> status r = 429 -> retry_after_of py_int r = Returned R ->
  exists s',
    iteration py_int sim max_retries attempt a s last = (s', last, Returned Continue)
    /\ total_attempts s' = total_attempts s + 1
    /\ rate_limits_hit s' = rate_limits_hit s + 1
    /\ retries_performed s'
       = retries_performed s + (if Z.of_nat attempt <? max_retries then 1 else 0)
    /\ failed_requests s' = failed_requests s
    /\ successful_requests s' = successful_requests s
    /\ waits_at RateLimitWait (sleeps s')
       = waits_at RateLimitWait (sleeps s) ++ [inject_Z R].
Proof.
  intros Hsim Hreq H429 HR. unfold iteration, try_body.
  pose proof (apply_conditions_counters (conditions a) (incr_total_attempts s)) as Hc.
  pose proof (apply_conditions_waits RateLimitWait (conditions a) (incr_total_attempts s)) as Hw.
  specialize (Hsim (incr_total_attempts s)).
  destruct (apply_conditions sim (conditions a) (incr_total_attempts s)) as [s1 o].
  cbn in Hsim, Hc, Hw. subst o. destruct Hc as (Ht & Hs & Hf & Hr & Hl).
  rewrite Hreq, H429, HR. cbn [Z.eqb Pos.eqb].
  destruct (Z.of_nat attempt <? max_retries); eexists; (split; [reflexivity|]);
    cbn -[waits_at]; rewrite waits_at_app, Hw by discriminate; cbn;
    repeat (split; [lia|]); reflexivity.
Qed.

Lemma attempts_loop_rate_limited (env : nat -> attempt_io) (R : Z) (remaining : nat) :
  (forall k s0, snd (apply_conditions sim (conditions (env k)) s0) = None) ->
  (forall k, exists r, request (env k) = Returned r /\ status r = 429
                       /\ retry_after_of py_int r = Returned R) ->
  forall (attempt : nat) (s : stats) (last : option exn),
  Z.of_nat attempt + Z.of_nat remaining = max_retries + 1 ->
  exists s',
    attempts_loop py_int sim max_retries env remaining attempt s last
    = (s', last, Returned None)
    /\ total_attempts s' = total_attempts s + Z.of_nat remaining
    /\ rate_limits_hit s' = rate_limits_hit s + Z.of_nat remaining
    /\ retries_performed s' = retries_performed s + Z.of_nat (Nat.pred remaining)
    /\ failed_requests s' = failed_requests s
    /\ successful_requests s' = successful_requests s
    /\ waits_at RateLimitWait (sleeps s')
       = waits_at RateLimitWait (sleeps s) ++ repeat (inject_Z R) remaining.
Proof.
  intros Hsim H429. induction remaining as [|n IH]; intros attempt s last Hk;
    cbn [attempts_loop].
  - eexists. split; [reflexivity|]. cbn -[waits_at]. rewrite app_nil_r.
    repeat (split; [lia|]). reflexivity.
  - destruct (H429 attempt) as (r & Hreq & Hst & HR).
    destruct (iteration_rate_limited attempt (env attempt) R r s last
                (Hsim attempt) Hreq Hst HR) as (s1 & Hit & Ht & Hl & Hr & Hf & Hs & Hw).
    rewrite Hit.
    destruct (IH (S attempt) s1 last ltac:(lia)) as (s2 & Hlp & Ht2 & Hl2 & Hr2 & Hf2 & Hs2 & Hw2).
    exists s2. split; [exact Hlp|].
    rewrite Hw2, Hw, <- app_assoc. cbn [repeat app].
    destruct (Z.of_nat attempt <? max_retries) eqn:E;
      [apply Z.ltb_lt in E | apply Z.ltb_ge in E];
      (repeat (split; [lia|])); reflexivity.
Qed.

(** X23. In the resilient client, a request whose every attempt is
    answered 429 with a Retry-After of R seconds makes exactly
    max_retries + 1 attempts, that is max_retries retries, sleeps R seconds
    after each 429 (so R seconds before each retry), and is then recorded as
    failed, exactly once. *)
Theorem always_rate_limited_gives_up (env : nat -> attempt_io) (R : Z) (s : stats) :
  0 <= max_retries ->
  (forall k s0, snd (apply_conditions sim (conditions (env k)) s0) = None) ->
  (forall k, exists r, request (env k) = Returned r /\ status r = 429
                       /\ retry_after_of py_int r = Returned R) ->
  exists s',
    make_resilient_request py_int sim max_retries env s
    = (s', Returned (failure_dict max_retries None))
    /\ total_attempts s' = total_attempts s + (max_retries + 1)
    /\ rate_limits_hit s' = rate_limits_hit s + (max_retries + 1)
    /\ retries_performed s' = retries_performed s + max_retries
    /\ failed_requests s' = failed_requests s + 1
    /\ successful_requests s' = successful_requests s
    /\ waits_at RateLimitWait (sleeps s')
       = waits_at RateLimitWait (sleeps s)
         ++ repeat (inject_Z R) (Z.to_nat (max_retries + 1)).
Proof.
  intros Hmr Hsim H429. unfold make_resilient_request.
  destruct (attempts_loop_rate_limited env R (Z.to_nat (max_retries + 1)) Hsim H429
              0%nat s None ltac:(lia)) as (s1 & Hl & Ht & Hrl & Hr & Hf & Hs & Hw).
  rewrite Hl. eexists. split; [reflexivity|]. cbn -[waits_at].
  repeat (split; [lia|]). exact Hw.
Qed.

(** [backoff_time] is 1 second times 2^attempt, plus the jitter. *)
Lemma backoff_time_bounds (attempt : nat) (j : Q) :
  (0 <= j)%Q -> (j < 1)%Q ->
  (backoff_time attempt j == 1 * inject_Z (2 ^ Z.of_nat attempt) + j)%Q
  /\ (inject_Z (2 ^ Z.of_nat attempt) <= backoff_time attempt j)%Q
  /\ (backoff_time attempt j < inject_Z (2 ^ Z.of_nat attempt) + 1)%Q.
Proof.
  intros H0 H1. unfold backoff_time. repeat split; lra.
Qed.

(** In the resilient client, when the attempt number [attempt] (0-based)
    ends in a timeout, a network error or a 5xx status and a retry follows
    (attempt < max_retries), the wait before that retry is
    1 * 2^attempt + jitter seconds, where jitter is the number drawn by
    random.uniform(0, 1). *)
Lemma resilient_retry_wait (attempt : nat) (a : attempt_io)
  (s : stats) (last : option exn) :
  (0 <= jitter a)%Q -> (jitter a < 1)%Q ->
  Z.of_nat attempt < max_retries ->
  (exists s1 e,
      try_body py_int sim max_retries attempt a (incr_total_attempts s) = (s1, Raised e)
      /\ (exn_cls e = TimeoutError \/ exn_cls e = ClientError \/ exn_cls e = ConnectionError))
  \/ (exists s1 r txt,
         apply_conditions sim (conditions a) (incr_total_attempts s) = (s1, None)
         /\ request a = Returned r /\ 500 <= status r /\ text r = Returned txt) ->
  exists s' last' before wait,
    iteration py_int sim max_retries attempt a s last = (s', last', Returned Continue)
    /\ retries_performed s' = retries_performed s + 1
    /\ sleeps s' = before ++ [Sleep Backoff wait]
    /\ waits_at Backoff (sleeps s') = waits_at Backoff (sleeps s) ++ [wait]
    /\ (wait == 1 * inject_Z (2 ^ Z.of_nat attempt) + jitter a)%Q
    /\ (inject_Z (2 ^ Z.of_nat attempt) <= wait)%Q
    /\ (wait < inject_Z (2 ^ Z.of_nat attempt) + 1)%Q.
Proof.
  intros Hj0 Hj1 Hk Hout. apply Z.ltb_lt in Hk.
  destruct (backoff_time_bounds attempt (jitter a) Hj0 Hj1) as (Heq & Hlo & Hhi).
  unfold iteration.
  destruct Hout as [(s1 & e & Htry & Hcls) | (s1 & r & txt & Hcond & Hreq & Hst & Htxt)].
  - rewrite Htry. unfold except_clauses.
    assert (Hs1 : retries_performed s1 = retries_performed s
                  /\ waits_at Backoff (sleeps s1) = waits_at Backoff (sleeps s)).
    { revert Htry. unfold try_body.
      pose proof (apply_conditions_counters (conditions a) (incr_total_attempts s)) as Hc.
      pose proof (apply_conditions_waits Backoff (conditions a) (incr_total_attempts s)) as Hw.
      destruct (apply_conditions sim (conditions a) (incr_total_attempts s)) as [s0 o].
      cbn in Hc, Hw. destruct Hc as (_ & _ & _ & Hr & _).
      specialize (Hw ltac:(discriminate)).
      destruct o; split_branches; intros Htry; inversion Htry; subst; cbn; auto. }
    destruct Hs1 as (Hr1 & Hw1).
    destruct Hcls as [-> | [-> | ->]]; rewrite Hk;
      do 4 eexists; (split; [reflexivity|]); cbn -[waits_at backoff_time];
      rewrite waits_at_app, Hw1; cbn -[backoff_time];
      (split; [lia|]); (split; [reflexivity|]); (split; [reflexivity|]); auto.
  - unfold try_body. rewrite Hcond, Hreq, Htxt.
    pose proof (apply_conditions_counters (conditions a) (incr_total_attempts s)) as Hc.
    pose proof (apply_conditions_waits Backoff (conditions a) (incr_total_attempts s)) as Hw.
    rewrite Hcond in Hc, Hw. cbn in Hc, Hw. destruct Hc as (_ & _ & _ & Hr & _).
    specialize (Hw ltac:(discriminate)).
    replace (status r =? 200) with false by (symmetry; apply Z.eqb_neq; lia).
    replace (status r =? 429) with false by (symmetry; apply Z.eqb_neq; lia).
    replace (status r =? 401) with false by (symmetry; apply Z.eqb_neq; lia).
    replace (status r >=? 500) with true by (symmetry; apply Z.geb_le; lia).
    rewrite Hk. do 4 eexists. split; [reflexivity|]. cbn -[waits_at backoff_time].
    rewrite waits_at_app, Hw. cbn -[backoff_time].
    (split; [lia|]); (split; [reflexivity|]); (split; [reflexivity|]); auto.
Qed.

End ResilientFacts.

(** ** The performance tester: batches *)

Section BatchFacts.
Import Perf.

Lemma firstn_then_more {A : Type} (a b : nat) (l : list A) :
  firstn a l ++ firstn b (skipn a l) = firstn (a + b) l.
Proof.
  revert l. induction a as [|a IH]; intros l; cbn.
  - reflexivity.
  - destruct l as [|x l]; cbn.
    + now rewrite firstn_nil.
    + now rewrite IH.
Qed.

(** [total_batches] is the ceiling of [n / batch_size]. *)
Lemma total_batches_ceiling (n batch_size : Z) :
  0 < batch_size ->
  n <= total_batches n batch_size * batch_size < n + batch_size.
Proof.
  intros HB. unfold total_batches.
  pose proof (Z.div_mod (n + batch_size - 1) batch_size ltac:(lia)) as Hdm.
  pose proof (Z.mod_pos_bound (n + batch_size - 1) batch_size HB) as Hm.
  nia.
Qed.

Lemma total_batches_nonneg (n batch_size : Z) :
  0 < batch_size -> 0 <= n -> 0 <= total_batches n batch_size.
Proof.
  intros HB Hn. pose proof (total_batches_ceiling n batch_size HB). nia.
Qed.

(** The slice taken by the iteration [k], for a positive batch size. *)
Lemma batch_slice (events : list event) (batch_size k : Z) :
  0 < batch_size -> 0 <= k ->
  py_slice events (k * batch_size) (Z.min (k * batch_size + batch_size) (len events))
  = firstn (Z.to_nat (Z.min batch_size (len events - k * batch_size)))
      (skipn (Z.to_nat (k * batch_size)) events).
Proof.
  intros HB Hk. unfold py_slice.
  assert (Hlen : 0 <= len events) by (unfold len; lia).
  assert (Hs : 0 <= k * batch_size) by nia.
  replace (k * batch_size <? 0) with false by (symmetry; apply Z.ltb_ge; lia).
  replace (Z.min (k * batch_size + batch_size) (len events) <? 0) with false
    by (symmetry; apply Z.ltb_ge; lia).
  destruct (Z.le_gt_cases (k * batch_size) (len events)) as [Hle | Hgt].
  - rewrite (Z.min_l (k * batch_size)) by lia. f_equal. lia.
  - rewrite (Z.min_r (k * batch_size)) by lia.
    rewrite !skipn_all2 by (unfold len in *; lia). now rewrite !firstn_nil.
Qed.

Lemma batch_slice_length (events : list event) (batch_size k : Z) :
  0 < batch_size -> 0 <= k -> k * batch_size <= len events ->
  len (py_slice events (k * batch_size) (Z.min (k * batch_size + batch_size) (len events)))
  = Z.min batch_size (len events - k * batch_size).
Proof.
  intros HB Hk Hle. rewrite batch_slice by assumption. unfold len in *.
  rewrite length_firstn, length_skipn. lia.
Qed.

(** The batches gathered by the first [m] iterations are, end to end, the
    first [m * batch_size] events. *)
Lemma batches_prefix (events : list event) (batch_size : Z) (m : nat) :
  0 < batch_size ->
  batches_of (flat_map (batch_steps events batch_size) (map Z.of_nat (seq 0 m)))
  = map (fun k => py_slice events (k * batch_size)
                    (Z.min (k * batch_size + batch_size) (len events)))
      (map Z.of_nat (seq 0 m)).
Proof.
  intros HB. unfold batches_of. induction m as [|m IH].
  - reflexivity.
  - rewrite seq_S, !map_app, flat_map_app, flat_map_app, IH. cbn.
    f_equal. destruct (_ <? _); reflexivity.
Qed.

Lemma concat_batches_prefix (events : list event) (batch_size : Z) (m : nat) :
  0 < batch_size ->
  List.concat (map (fun k => py_slice events (k * batch_size)
                          (Z.min (k * batch_size + batch_size) (len events)))
            (map Z.of_nat (seq 0 m)))
  = firstn (Z.to_nat (Z.of_nat m * batch_size)) events.
Proof.
  intros HB. induction m as [|m IH].
  - reflexivity.
  - rewrite seq_S, !map_app, concat_app, IH. cbn [seq map List.concat Nat.add].
    rewrite app_nil_r, batch_slice by lia.
    rewrite firstn_then_more.
    assert (Hlen : 0 <= len events) by (unfold len; lia).
    destruct (Z.le_gt_cases (Z.of_nat m * batch_size + batch_size) (len events)).
    + f_equal. nia.
    + rewrite !firstn_all2; [reflexivity | unfold len in *; nia | unfold len in *; nia].
Qed.

Lemma outline_schedule (events : list event) (batch_size : Z) (m : nat) :
  0 < batch_size -> Z.of_nat m * batch_size < len events + batch_size ->
  outline (flat_map (batch_steps events batch_size) (map Z.of_nat (seq 0 m)))
  = flat_map (fun k => inl (Z.min batch_size (len events - k * batch_size))
                       :: (if k <? total_batches (len events) batch_size - 1
                           then [inr (1 # 10)] else []))
      (map Z.of_nat (seq 0 m)).
Proof.
  intros HB. unfold outline. induction m as [|m IH]; intros Hm.
  - reflexivity.
  - rewrite seq_S, !map_app, !flat_map_app, map_app, IH by lia.
    f_equal. cbn. rewrite batch_slice_length by nia.
    destruct (_ <? _); reflexivity.
Qed.

(** The gathered batches are, end to end, the events. *)
Lemma schedule_covers_events (events : list event) (batch_size : Z) :
  0 < batch_size ->
  List.concat (batches_of (schedule events batch_size)) = events.
Proof.
  intros HB. unfold schedule.
  pose proof (total_batches_ceiling (len events) batch_size HB) as Hceil.
  assert (Hn : 0 <= len events) by (unfold len; lia).
  pose proof (total_batches_nonneg (len events) batch_size HB Hn) as Hnb.
  rewrite batches_prefix, concat_batches_prefix by assumption.
  apply firstn_all2. unfold len in *. rewrite Z2Nat.id by lia. lia.
Qed.

(** The steps run one after the other. *)
Lemma run_steps_app (py_int : string -> option Z) (slots : nat)
  (env : Z -> nat -> attempt_io) (steps1 steps2 : list step) (t : tester) :
  run_steps py_int slots env (steps1 ++ steps2) t
  = match run_steps py_int slots env steps1 t with
    | Some t1 => run_steps py_int slots env steps2 t1
    | None => None
    end.
Proof.
  revert t. induction steps1 as [|st steps1 IH]; intros t.
  - reflexivity.
  - cbn. destruct st as [start_idx b | d].
    + destruct (gather py_int slots env start_idx 0 b t); [apply IH | reflexivity].
    + apply IH.
Qed.

(** The plan of the batch loop, for a batch size B > 0: ceil(n/B) batches
    out of n events; every batch but the last holds B events and the last
    holds the remaining ones (between 1 and B); the batches are, end to end,
    the events in their order; a pause of 100 ms follows every batch but the
    last; and the steps run one after the other. *)
Lemma schedule_partition (events : list event) (batch_size : Z) :
  0 < batch_size ->
  let n := len events in
  let nb := total_batches n batch_size in
  (n <= nb * batch_size < n + batch_size)
  /\ len (batches_of (schedule events batch_size)) = nb
  /\ List.concat (batches_of (schedule events batch_size)) = events
  /\ outline (schedule events batch_size)
     = flat_map (fun k => inl (Z.min batch_size (n - k * batch_size))
                          :: (if k <? nb - 1 then [inr (1 # 10)] else []))
         (map Z.of_nat (seq 0 (Z.to_nat nb)))
  /\ (forall k, 0 <= k < nb - 1 -> Z.min batch_size (n - k * batch_size) = batch_size)
  /\ (0 < nb -> 0 < Z.min batch_size (n - (nb - 1) * batch_size) <= batch_size)
  /\ (forall py_int slots env steps1 steps2 t,
        run_steps py_int slots env (steps1 ++ steps2) t
        = match run_steps py_int slots env steps1 t with
          | Some t1 => run_steps py_int slots env steps2 t1
          | None => None
          end).
Proof.
  intros HB n nb.
  assert (Hn : 0 <= n) by (unfold n, len; lia).
  pose proof (total_batches_ceiling n batch_size HB) as Hceil. fold nb in Hceil.
  assert (Hnb : 0 <= nb) by (apply total_batches_nonneg; assumption).
  split; [exact Hceil|]. unfold schedule. fold n. fold nb.
  split; [|split; [|split; [|split; [|split]]]].
  - rewrite batches_prefix by assumption. unfold len.
    rewrite !length_map, length_seq. lia.
  - apply schedule_covers_events; assumption.
  - apply outline_schedule; [assumption|]. fold n. rewrite Z2Nat.id by lia. lia.
  - intros k Hk. nia.
  - intros Hpos. nia.
  - intros. apply run_steps_app.
Qed.

End BatchFacts.

(** ** The performance tester: counters and latency samples *)

Section PerfFacts.
Import Perf.

Variable py_int : string -> option Z.

Ltac perf_branches :=
  repeat match goal with
    | |- context [if ?b then _ else _] => destruct b eqn:?
    | |- context [match ?x with Returned _ => _ | Raised _ => _ end] => destruct x eqn:?
    end.

(** A call only appends to [response_times]. *)
Lemma create_single_event_appends (env : nat -> attempt_io) (slots : nat) :
  forall (attempt : nat) (event_data : event) (event_id : Z) (t : tester),
  exists rest,
    response_times (fst (create_single_event py_int slots env attempt event_data event_id t))
    = response_times t ++ rest.
Proof.
  induction slots as [|slots IH]; intros attempt event_data event_id t.
  - exists []. cbn. now rewrite app_nil_r.
  - cbn [create_single_event]. unfold except_clause.
    destruct (post (env attempt)) as [r|e]; [|eexists; cbn; reflexivity].
    destruct (status r =? 200).
    { destruct (json r); eexists; cbn; rewrite <- ?app_assoc; reflexivity. }
    destruct (status r =? 429).
    { destruct (retry_after_of py_int r) as [n|e].
      - match goal with |- context [create_single_event _ _ _ _ _ _ ?t0] =>
          destruct (IH (S attempt) event_data event_id t0) as (rest & Hrest) end.
        rewrite Hrest. cbn. rewrite <- app_assoc. eexists; reflexivity.
      - eexists; cbn; rewrite <- ?app_assoc; reflexivity. }
    destruct (text r); eexists; cbn; rewrite <- ?app_assoc; reflexivity.
Qed.

Lemma create_single_event_samples_attempt (env : nat -> attempt_io) (slots attempt : nat)
  (event_data : event) (event_id : Z) (t : tester) :
  exists rest,
    response_times
      (fst (create_single_event py_int (S slots) env attempt event_data event_id t))
    = response_times t ++ latency (env attempt) :: rest.
Proof.
  cbn [create_single_event]. unfold except_clause, latency.
  destruct (post (env attempt)) as [r|e]; [|eexists; cbn; reflexivity].
  destruct (status r =? 200).
  { destruct (json r); eexists; cbn; rewrite <- ?app_assoc; reflexivity. }
  destruct (status r =? 429).
  { destruct (retry_after_of py_int r) as [n|e].
    - match goal with |- context [create_single_event _ _ _ _ _ _ ?t0] =>
        destruct (create_single_event_appends env slots (S attempt) event_data event_id t0)
          as (rest & Hrest) end.
      rewrite Hrest. cbn. rewrite <- app_assoc. eexists; reflexivity.
    - eexists; cbn; rewrite <- ?app_assoc; reflexivity. }
  destruct (text r); eexists; cbn; rewrite <- ?app_assoc; reflexivity.
Qed.

(** When every body can be read, a call that returns has counted its item
    once, as a success or as a failure. *)
Lemma create_single_event_counts_once (env : nat -> attempt_io) (slots : nat) :
  (forall k, answers_properly (env k) = true) ->
  forall (attempt : nat) (event_data : event) (event_id : Z) (t t' : tester) (d : dict),
  create_single_event py_int slots env attempt event_data event_id t = (t', Some d) ->
  successful_events (metrics t') + failed_events (metrics t')
  = successful_events (metrics t) + failed_events (metrics t) + 1
  /\ total_events (metrics t') = total_events (metrics t).
Proof.
  intros Hok. induction slots as [|slots IH]; intros attempt event_data event_id t t' d.
  - discriminate.
  - cbn [create_single_event]. unfold except_clause.
    specialize (Hok attempt). unfold answers_properly, readable in Hok.
    destruct (post (env attempt)) as [r|e].
    + destruct (status r =? 200).
      { destruct (json r); [|discriminate].
        intros H; inversion H; subst; cbn; lia. }
      destruct (status r =? 429).
      { destruct (retry_after_of py_int r) as [n|e].
        - intros H. apply IH in H. cbn in H. exact H.
        - intros H; inversion H; subst; cbn; lia. }
      destruct (text r); [|discriminate].
      intros H; inversion H; subst; cbn; lia.
    + intros H; inversion H; subst; cbn; lia.
Qed.

Lemma gather_counts (env : Z -> nat -> attempt_io) (slots : nat) (start_idx : Z)
  (batch_events : list event) :
  (forall i k, answers_properly (env i k) = true) ->
  forall (i : nat) (t t' : tester),
  gather py_int slots env start_idx i batch_events t = Some t' ->
  successful_events (metrics t') + failed_events (metrics t')
  = successful_events (metrics t) + failed_events (metrics t) + len batch_events
  /\ total_events (metrics t') = total_events (metrics t).
Proof.
  intros Hok. induction batch_events as [|ev rest IH]; intros i t t'; cbn [gather].
  - intros H; inversion H; subst. unfold len; cbn; lia.
  - destruct (create_single_event py_int slots (env (start_idx + Z.of_nat i)) 0 ev
                (start_idx + Z.of_nat i) t) as [t1 [d|]] eqn:E; [|discriminate].
    apply (create_single_event_counts_once _ _ (Hok _)) in E.
    intros H. apply IH in H. unfold len in *. cbn [List.length]. lia.
Qed.

Lemma run_steps_counts (env : Z -> nat -> attempt_io) (slots : nat) (steps : list step) :
  (forall i k, answers_properly (env i k) = true) ->
  forall (t t' : tester),
  run_steps py_int slots env steps t = Some t' ->
  successful_events (metrics t') + failed_events (metrics t')
  = successful_events (metrics t) + failed_events (metrics t)
    + len (List.concat (batches_of steps))
  /\ total_events (metrics t') = total_events (metrics t).
Proof.
  intros Hok. induction steps as [|st steps IH]; intros t t'; cbn [run_steps].
  - intros H; inversion H; subst. unfold len; cbn; lia.
  - destruct st as [start_idx b | d].
    + destruct (gather py_int slots env start_idx 0 b t) as [t1|] eqn:E; [|discriminate].
      apply (gather_counts _ _ _ _ Hok) in E. intros H. apply IH in H.
      unfold batches_of in *. cbn [flat_map List.concat app].
      unfold len in *. rewrite length_app. lia.
    + intros H. apply IH in H. cbn in H. exact H.
Qed.

(** X1. A run that completes, with a positive batch size, on an environment
    whose bodies can all be read counts every event once:
    total = successful + failed. *)
Lemma run_counts_every_item_once (env : Z -> nat -> attempt_io) (slots : nat)
  (rd : readings) (event_count batch_size : Z) (t t' : tester) :
  0 < batch_size ->
  (forall i k, answers_properly (env i k) = true) ->
  run_performance_test py_int slots env rd event_count batch_size t = Returned (Some t') ->
  total_events (metrics t')
  = successful_events (metrics t') + failed_events (metrics t').
Proof.
  intros HB Hok. unfold run_performance_test.
  replace (batch_size =? 0) with false by (symmetry; apply Z.eqb_neq; lia).
  destruct (run_steps _ _ _ _ _) as [t1|] eqn:E; [|discriminate].
  apply (run_steps_counts _ _ _ Hok) in E.
  rewrite (schedule_covers_events _ _ HB) in E. intros H; inversion H; subst. cbn in *. lia.
Qed.

(** Final latency statistics are those of the whole list of samples. *)
Lemma final_metrics_statistics (rd : readings) (t : tester) :
  let m := final_metrics rd t in
  match response_times t with
  | [] => True
  | _ :: _ =>
      avg_response_time m = mean (response_times t)
      /\ min_response_time m = py_min (response_times t)
      /\ max_response_time m = py_max (response_times t)
  end.
Proof.
  unfold final_metrics. destruct (response_times t) as [|x l]; [exact I|].
  cbn -[mean py_min py_max]. auto.
Qed.

(** The run of the five-item scenario: three items answered 200 after 10, 20
    and 30 ms, two answered 500 after 40 and 50 ms. *)
Lemma five_item_run :
  let run := run_performance_test decimal_int 1 Scenario.three_successes_two_failures
               Scenario.no_readings 5 5 Scenario.fresh_tester in
  total_events (metrics_of run) = 5
  /\ successful_events (metrics_of run) = 3
  /\ failed_events (metrics_of run) = 2
  /\ (avg_response_time (metrics_of run) == 30 # 1000)%Q
  /\ (min_response_time (metrics_of run) == 10 # 1000)%Q
  /\ (max_response_time (metrics_of run) == 50 # 1000)%Q.
Proof. vm_compute. repeat split; reflexivity. Qed.

(** C1 (amended). The latency statistics are computed over the response
    times of all attempts, whatever their outcome: every attempt of
    [create_single_event] appends a sample to [response_times] (its response
    time when a response arrives, be it a 200, a 429 or an error status; the
    time to the exception when the request raises), and the mean, min and
    max of a completed run are those of the whole list. A run with 3
    successes of 10, 20 and 30 ms and 2 failures of 40 and 50 ms yields
    mean = 30 ms, min = 10 ms, max = 50 ms, successful = 3, failed = 2. *)
Theorem latency_statistics_cover_every_attempt :
  (forall (env : nat -> attempt_io) (slots attempt : nat) (event_data : event)
          (event_id : Z) (t : tester),
      exists rest,
        response_times
          (fst (create_single_event py_int (S slots) env attempt event_data event_id t))
        = response_times t ++ latency (env attempt) :: rest)
  /\ (forall (env : Z -> nat -> attempt_io) (slots : nat) (rd : readings)
             (event_count batch_size : Z) (t : tester),
        match run_performance_test py_int slots env rd event_count batch_size t with
        | Returned (Some t') =>
            match response_times t' with
            | [] => True
            | _ :: _ =>
                avg_response_time (metrics t') = mean (response_times t')
                /\ min_response_time (metrics t') = py_min (response_times t')
                /\ max_response_time (metrics t') = py_max (response_times t')
            end
        | _ => True
        end)
  /\ (let run := run_performance_test decimal_int 1 Scenario.three_successes_two_failures
                   Scenario.no_readings 5 5 Scenario.fresh_tester in
      successful_events (metrics_of run) = 3
      /\ failed_events (metrics_of run) = 2
      /\ (avg_response_time (metrics_of run) == 30 # 1000)%Q
      /\ (min_response_time (metrics_of run) == 10 # 1000)%Q
      /\ (max_response_time (metrics_of run) == 50 # 1000)%Q).
Proof.
  split; [|split].
  - intros. apply create_single_event_samples_attempt.
  - intros. unfold run_performance_test.
    destruct (batch_size =? 0); [exact I|].
    destruct (run_steps _ _ _ _ _) as [t1|]; [|exact I].
    cbn [response_times metrics].
    exact (final_metrics_statistics rd t1).
  - destruct five_item_run as (_ & H). exact H.
Qed.

(** An item that is answered 429, with a Retry-After that reads as [R], on
    every attempt it can make: it makes one attempt for each free slot,
    sleeps [R] seconds after each, and then awaits the semaphore; no failure
    is recorded. *)
Lemma create_single_event_rate_limited (env : nat -> attempt_io) (R : Z) (slots : nat) :
  forall (attempt : nat) (event_data : event) (event_id : Z) (t : tester),
  (forall k, (attempt <= k < attempt + slots)%nat ->
             exists r, post (env k) = Returned r /\ status r = 429
                       /\ retry_after_of py_int r = Returned R) ->
  let out := create_single_event py_int slots env attempt event_data event_id t in
  snd out = None
  /\ rate_limited_requests (metrics (fst out))
     = rate_limited_requests (metrics t) + Z.of_nat slots
  /\ failed_events (metrics (fst out)) = failed_events (metrics t)
  /\ successful_events (metrics (fst out)) = successful_events (metrics t)
  /\ sleeps (fst out) = sleeps t ++ repeat (Sleep RateLimitWait (inject_Z R)) slots
  /\ len (response_times (fst out)) = len (response_times t) + Z.of_nat slots.
Proof.
  induction slots as [|slots IH]; intros attempt event_data event_id t H429.
  - cbn. rewrite app_nil_r. repeat split; lia.
  - cbn [create_single_event].
    destruct (H429 attempt ltac:(lia)) as (r & Hpost & Hst & Hn).
    rewrite Hpost, Hst, Hn. cbn [Z.eqb Pos.eqb].
    match goal with |- context [create_single_event _ _ _ _ _ _ ?t0] =>
      specialize (IH (S attempt) event_data event_id t0) end.
    cbv zeta in IH |- *.
    destruct IH as (H1 & H2 & H3 & H4 & H5 & H6); [intros k Hk; apply H429; lia|].
    cbn [metrics sleeps response_times asyncio_sleep incr_rate_limited_requests
         append_response_time rate_limited_requests failed_events successful_events]
      in H2, H3, H4, H5, H6.
    split; [exact H1|]. split; [lia|]. split; [exact H3|]. split; [exact H4|].
    split.
    + rewrite H5, <- app_assoc. reflexivity.
    + rewrite H6. unfold len. rewrite length_app. cbn [List.length]. lia.
Qed.

End PerfFacts.

(** C1 (counterexample). With two failed attempts of 40 and 50 ms beside the
    three successes of 10, 20 and 30 ms, the reported mean is 30 ms and the
    reported max is 50 ms, not the 20 ms and 30 ms of the successes alone. *)
Lemma failures_enter_latency_statistics :
  let run := Perf.run_performance_test decimal_int 1 Scenario.three_successes_two_failures
               Scenario.no_readings 5 5 Scenario.fresh_tester in
  Perf.successful_events (Perf.metrics_of run) = 3
  /\ Perf.failed_events (Perf.metrics_of run) = 2
  /\ Qeq_bool (Perf.avg_response_time (Perf.metrics_of run)) (30 # 1000) = true
  /\ Qeq_bool (Perf.avg_response_time (Perf.metrics_of run)) (20 # 1000) = false
  /\ Qeq_bool (Perf.max_response_time (Perf.metrics_of run)) (50 # 1000) = true
  /\ Qeq_bool (Perf.max_response_time (Perf.metrics_of run)) (30 # 1000) = false.
Proof. vm_compute. repeat split; reflexivity. Qed.

(** C4 (the failing run). One event, answered 200 with a body that cannot be
    read: the run completes with total = 1, successful = 1 and failed = 1. *)
Theorem unreadable_success_is_counted_twice :
  let run := Perf.run_performance_test decimal_int 1 Scenario.truncated_success
               Scenario.no_readings 1 50 Scenario.fresh_tester in
  Perf.total_events (Perf.metrics_of run) = 1
  /\ Perf.successful_events (Perf.metrics_of run) = 1
  /\ Perf.failed_events (Perf.metrics_of run) = 1
  /\ Perf.rate_limited_requests (Perf.metrics_of run) = 0.
Proof. vm_compute. repeat split; reflexivity. Qed.

(** ** Client errors and the Retry-After header, across the clients *)

Section StatusFacts.

Variable py_int : string -> option Z.

(** [int()] raises nothing but ValueError. *)
Lemma retry_after_of_raises (r : response) (e : exn) :
  retry_after_of py_int r = Raised e -> exn_cls e = ValueError.
Proof.
  unfold retry_after_of. destruct (retry_after_header r) as [v|]; [|discriminate].
  destruct (py_int v); [discriminate|]. intros H; inversion H; reflexivity.
Qed.

(** C3 (amended). A request whose first attempt is answered with a 4xx
    status other than 429, and whose body can be read, is recorded as failed
    after exactly one attempt and without any wait or retry: by the
    performance tester for every such status, 401 included, and by the
    resilient client for every such status other than 401. The resilient
    client retries a 401, after a wait of 1 second, as long as
    attempt < max_retries. *)
Theorem client_error_is_not_retried (r : response) (txt : string) :
  400 <= status r < 500 -> status r <> 429 -> text r = Returned txt ->
  (forall (env : nat -> Perf.attempt_io) (slots attempt : nat) (event_data : Perf.event)
          (event_id : Z) (t : Perf.tester),
      Perf.post (env attempt) = Returned r ->
      exists d,
        Perf.create_single_event py_int (S slots) env attempt event_data event_id t
        = (Perf.incr_failed_events
             (Perf.append_response_time (Perf.response_time (env attempt)) t), Some d)
        /\ has_key "error" d = true)
  /\ (status r <> 401 ->
      forall (sim : Resilient.NetworkConditionSimulator) (max_retries : Z)
             (env : nat -> Resilient.attempt_io) (s : Resilient.stats),
        0 <= max_retries ->
        (forall s0, snd (Resilient.apply_conditions sim (Resilient.conditions (env 0%nat)) s0)
                    = None) ->
        Resilient.request (env 0%nat) = Returned r ->
        exists s',
          Resilient.make_resilient_request py_int sim max_retries env s
          = (s', Returned (Resilient.failure_dict max_retries None))
          /\ Resilient.total_attempts s' = Resilient.total_attempts s + 1
          /\ Resilient.retries_performed s' = Resilient.retries_performed s
          /\ Resilient.failed_requests s' = Resilient.failed_requests s + 1
          /\ Resilient.successful_requests s' = Resilient.successful_requests s
          /\ (forall x, x <> Resilient.SimulatedLatency ->
                Resilient.waits_at x (Resilient.sleeps s')
                = Resilient.waits_at x (Resilient.sleeps s)))
  /\ (status r = 401 ->
      forall (sim : Resilient.NetworkConditionSimulator) (max_retries : Z) (attempt : nat)
             (a : Resilient.attempt_io) (s : Resilient.stats) (last : option exn),
        Z.of_nat attempt < max_retries ->
        (forall s0, snd (Resilient.apply_conditions sim (Resilient.conditions a) s0) = None) ->
        Resilient.request a = Returned r ->
        exists s',
          Resilient.iteration py_int sim max_retries attempt a s last
          = (s', last, Returned Resilient.Continue)
          /\ Resilient.retries_performed s' = Resilient.retries_performed s + 1
          /\ Resilient.waits_at Resilient.TokenRefreshWait (Resilient.sleeps s')
             = Resilient.waits_at Resilient.TokenRefreshWait (Resilient.sleeps s) ++ [1%Q]).
Proof.
  intros H4xx H429 Htxt.
  assert (E200 : (status r =? 200) = false) by (apply Z.eqb_neq; lia).
  assert (E429 : (status r =? 429) = false) by (apply Z.eqb_neq; lia).
  assert (E500 : (status r >=? 500) = false) by (rewrite Z.geb_leb; apply Z.leb_gt; lia).
  split; [|split].
  - intros env slots attempt event_data event_id t Hpost.
    cbn [Perf.create_single_event]. rewrite Hpost, E200, E429, Htxt.
    eexists. split; reflexivity.
  - intros H401 sim max_retries env s Hmr Hsim Hreq.
    assert (E401 : (status r =? 401) = false) by (apply Z.eqb_neq; lia).
    unfold Resilient.make_resilient_request.
    destruct (Z.to_nat (max_retries + 1)) as [|n] eqn:En; [lia|].
    cbn [Resilient.attempts_loop]. unfold Resilient.iteration, Resilient.try_body.
    pose proof (apply_conditions_counters sim (Resilient.conditions (env 0%nat))
                  (Resilient.incr_total_attempts s)) as Hc.
    pose proof (fun x => apply_conditions_waits sim x (Resilient.conditions (env 0%nat))
                           (Resilient.incr_total_attempts s)) as Hw.
    specialize (Hsim (Resilient.incr_total_attempts s)).
    destruct (Resilient.apply_conditions sim (Resilient.conditions (env 0%nat))
                (Resilient.incr_total_attempts s)) as [s1 o].
    cbn in Hsim, Hc, Hw. subst o. destruct Hc as (Ht & Hs & Hf & Hr & _).
    rewrite Hreq, E200, E429, E401, E500, Htxt.
    eexists. split; [reflexivity|]. cbn -[Resilient.waits_at].
    repeat (split; [lia|]). exact Hw.
  - intros H401 sim max_retries attempt a s last Hk Hsim Hreq.
    apply Z.ltb_lt in Hk.
    unfold Resilient.iteration, Resilient.try_body.
    pose proof (apply_conditions_counters sim (Resilient.conditions a)
                  (Resilient.incr_total_attempts s)) as Hc.
    pose proof (apply_conditions_waits sim Resilient.TokenRefreshWait (Resilient.conditions a)
                  (Resilient.incr_total_attempts s) ltac:(discriminate)) as Hw.
    specialize (Hsim (Resilient.incr_total_attempts s)).
    destruct (Resilient.apply_conditions sim (Resilient.conditions a)
                (Resilient.incr_total_attempts s)) as [s1 o].
    cbn in Hsim, Hc, Hw. subst o. destruct Hc as (Ht & Hs & Hf & Hr & _).
    rewrite Hreq, E200, E429, H401, Hk. cbn [Z.eqb Pos.eqb].
    eexists. split; [reflexivity|]. cbn -[Resilient.waits_at].
    rewrite waits_at_app, Hw. cbn. split; [lia|reflexivity].
Qed.

(** C7 (amended). On a 429 the wait is [int] of the Retry-After header, and
    1 second when the header is absent; the attempt is then handled as rate
    limited by the three clients (they sleep that long and go on to the next
    attempt). When the header is present and is no integer, [int] raises
    ValueError and the attempt is not handled as rate limited: nothing is
    slept; the resilient client leaves its loop (and reports a failure), the
    performance tester records the item as failed and returns, and the demo
    client lets the exception out to its caller. *)
Theorem retry_after_hint (r : response) :
  status r = 429 ->
  (retry_after_header r = None -> retry_after_of py_int r = Returned 1)
  /\ (forall v n, retry_after_header r = Some v -> py_int v = Some n ->
                  retry_after_of py_int r = Returned n)
  /\ (forall v, retry_after_header r = Some v -> py_int v = None ->
                exists e, retry_after_of py_int r = Raised e /\ exn_cls e = ValueError)
  /\ (forall n, retry_after_of py_int r = Returned n ->
        (forall sim max_retries attempt a s s1,
            Resilient.apply_conditions sim (Resilient.conditions a) s = (s1, None) ->
            Resilient.request a = Returned r ->
            exists s2,
              Resilient.try_body py_int sim max_retries attempt a s
              = (s2, Returned Resilient.Continue)
              /\ Resilient.rate_limits_hit s2 = Resilient.rate_limits_hit s1 + 1
              /\ Resilient.sleeps s2
                 = Resilient.sleeps s1
                   ++ [Resilient.Sleep Resilient.RateLimitWait (inject_Z n)])
        /\ (forall env slots attempt event_data event_id t,
               Perf.post (env attempt) = Returned r ->
               Perf.create_single_event py_int (S slots) env attempt event_data event_id t
               = Perf.create_single_event py_int slots env (S attempt) event_data event_id
                   (Perf.asyncio_sleep Perf.RateLimitWait (inject_Z n)
                      (Perf.incr_rate_limited_requests
                         (Perf.append_response_time (Perf.response_time (env attempt)) t))))
        /\ (forall s,
               Demo.try_body py_int (Returned r) s
               = (Demo.asyncio_sleep Demo.RateLimitWait (inject_Z n) s,
                  Returned Demo.Continue)))
  /\ (forall e, retry_after_of py_int r = Raised e ->
        (forall sim max_retries attempt a s last s1,
            Resilient.apply_conditions sim (Resilient.conditions a)
              (Resilient.incr_total_attempts s) = (s1, None) ->
            Resilient.request a = Returned r ->
            Resilient.iteration py_int sim max_retries attempt a s last
            = (Resilient.incr_rate_limits_hit s1, Some e, Returned Resilient.Break))
        /\ (forall env slots attempt event_data event_id t,
               Perf.post (env attempt) = Returned r ->
               exists d,
                 Perf.create_single_event py_int (S slots) env attempt event_data event_id t
                 = (Perf.incr_failed_events
                      (Perf.append_response_time (Perf.elapsed (env attempt))
                         (Perf.incr_rate_limited_requests
                            (Perf.append_response_time
                               (Perf.response_time (env attempt)) t))), Some d)
                 /\ has_key "error" d = true)
        /\ (forall env s,
               env 0%nat = Returned r ->
               Demo.make_request py_int env s = (Demo.incr_total_requests s, Raised e))).
Proof.
  intros H429.
  split; [|split; [|split; [|split]]].
  - intros Hh. unfold retry_after_of. now rewrite Hh.
  - intros v n Hh Hv. unfold retry_after_of. now rewrite Hh, Hv.
  - intros v Hh Hv. unfold retry_after_of. rewrite Hh, Hv. eexists. split; reflexivity.
  - intros n Hn. split; [|split].
    + intros sim max_retries attempt a s s1 Hcond Hreq.
      unfold Resilient.try_body. rewrite Hcond, Hreq, H429, Hn. cbn [Z.eqb Pos.eqb].
      destruct (Z.of_nat attempt <? max_retries); eexists; (split; [reflexivity|]);
        cbn; split; reflexivity.
    + intros env slots attempt event_data event_id t Hpost.
      cbn [Perf.create_single_event]. rewrite Hpost, H429, Hn. reflexivity.
    + intros s. unfold Demo.try_body. rewrite H429, Hn. reflexivity.
  - intros e He. pose proof (retry_after_of_raises r e He) as Hcls. split; [|split].
    + intros sim max_retries attempt a s last s1 Hcond Hreq.
      unfold Resilient.iteration, Resilient.try_body.
      rewrite Hcond, Hreq, H429, He. cbn [Z.eqb Pos.eqb].
      unfold Resilient.except_clauses. rewrite Hcls. reflexivity.
    + intros env slots attempt event_data event_id t Hpost.
      cbn [Perf.create_single_event]. rewrite Hpost, H429, He. cbn [Z.eqb Pos.eqb].
      eexists. split; reflexivity.
    + intros env s Henv. unfold Demo.make_request. cbn [Demo.attempts_loop].
      unfold Demo.iteration, Demo.try_body. rewrite Henv, H429, He. cbn [Z.eqb Pos.eqb].
      unfold Demo.except_clause. rewrite Hcls. reflexivity.
Qed.

End StatusFacts.

(** C3 (counterexample). The resilient client, answered 401 on its first
    attempt and 200 on the second, makes two attempts, sleeps 1 second in
    between and returns the body: the 401 was retried, and no failure is
    recorded. *)
Lemma unauthorized_is_retried :
  let out := Resilient.make_resilient_request decimal_int Resilient.reset_network 3
               (Scenario.resilient_once 401 None) Resilient.initial_stats in
  snd out = Returned []
  /\ Resilient.total_attempts (fst out) = 2
  /\ Resilient.retries_performed (fst out) = 1
  /\ Resilient.successful_requests (fst out) = 1
  /\ Resilient.failed_requests (fst out) = 0
  /\ Resilient.sleeps (fst out) = [Resilient.Sleep Resilient.TokenRefreshWait 1].
Proof. vm_compute. repeat split; reflexivity. Qed.

(** C7 (counterexample). A 429 whose Retry-After header is an HTTP date: the
    resilient client makes one attempt, sleeps nothing, and reports a
    failure; the performance tester records the item as failed and returns
    without sleeping; the demo client raises ValueError. *)
Lemma retry_after_date_is_not_rate_limited :
  let date := "Wed, 21 Oct 2015 07:28:00 GMT"%string in
  let out := Resilient.make_resilient_request decimal_int Resilient.reset_network 3
               (Scenario.resilient_answers 429 (Some date)) Resilient.initial_stats in
  let perf := Perf.create_single_event decimal_int 5 (Scenario.perf_answers 429 (Some date)) 0
                (Perf.test_event 0) 0 Scenario.fresh_tester in
  let demo := Demo.make_request decimal_int (Scenario.demo_once 429 (Some date))
                Demo.initial_stats in
  (Resilient.total_attempts (fst out) = 1
   /\ Resilient.rate_limits_hit (fst out) = 1
   /\ Resilient.retries_performed (fst out) = 0
   /\ Resilient.failed_requests (fst out) = 1
   /\ Resilient.sleeps (fst out) = [])
  /\ (Perf.failed_events (Perf.metrics (fst perf)) = 1
      /\ Perf.sleeps (fst perf) = []
      /\ option_map (has_key "error") (snd perf) = Some true)
  /\ (snd demo
      = Raised (Exn ValueError
                  ("invalid literal for int() with base 10: '" ++ date ++ "'"))
      /\ Demo.sleeps (fst demo) = []).
Proof. vm_compute. repeat split; reflexivity. Qed.

(** ** Admission *)

Section LimiterFacts.
Import Limiter.
Local Open Scope nat_scope.

Lemma update_nth_held (i : nat) (t t' : task) (l : list task) :
  nth_error l i = Some t ->
  list_sum (map held (update_nth i t' l)) + held t = list_sum (map held l) + held t'.
Proof.
  unfold list_sum.
  revert i. induction l as [|x l IH]; intros [|i] H; cbn [nth_error] in H;
    try discriminate; cbn [update_nth map fold_right].
  - inversion H; subst. clear. lia.
  - specialize (IH i H). clear H. lia.
Qed.

Lemma update_nth_Forall (P : task -> Prop) (i : nat) (t' : task) (l : list task) :
  Forall P l -> P t' -> Forall P (update_nth i t' l).
Proof.
  intros Hl Ht. revert i. induction Hl as [|x l Hx Hl IH]; intros [|i]; cbn; auto.
Qed.

Lemma nth_error_Forall (P : task -> Prop) (i : nat) (t : task) (l : list task) :
  Forall P l -> nth_error l i = Some t -> P t.
Proof.
  intros Hl H. apply nth_error_In in H. rewrite Forall_forall in Hl. auto.
Qed.

Lemma list_sum_repeat_idle (k : nat) :
  list_sum (map held (repeat (Task Acquiring 0 0 0) k)) = 0.
Proof. induction k; cbn; auto. Qed.

(** Every move keeps the state consistent. *)
Lemma step_consistent (n : nat) (s : state) (a : action) :
  consistent n s -> consistent n (step s a).
Proof.
  intros [Hv Hts]. unfold step, try_step.
  destruct a as [k | i | i rl | i | i].
  - destruct (all_finished (tasks s)); [|split; assumption].
    split; cbn -[list_sum].
    + unfold slots_held in *. cbn -[list_sum]. rewrite map_app, list_sum_app, list_sum_repeat_idle. lia.
    + apply Forall_app. split; [assumption|].
      apply Forall_forall. intros t Ht. apply repeat_spec in Ht. subst t.
      repeat split; cbn; auto; discriminate.
  - destruct (nth_error (tasks s) i) as [[[] h a r]|] eqn:E; try (split; assumption).
    destruct (value s) as [|v] eqn:Ev; [split; [congruence | assumption]|].
    pose proof (update_nth_held i _ (Task InFlight (S h) (S a) r) _ E) as Hh.
    pose proof (nth_error_Forall _ _ _ _ Hts E) as (Hacq & _). cbn -[list_sum] in Hacq, Hh.
    split; cbn -[list_sum].
    + unfold slots_held in *. cbn -[list_sum]. lia.
    + apply update_nth_Forall; [assumption|].
      repeat split; cbn; try lia; discriminate.
  - destruct (nth_error (tasks s) i) as [[[] h a r]|] eqn:E; try (split; assumption).
    pose proof (update_nth_held i _ (Task (if rl then Sleeping else Leaving) h a r) _ E) as Hh.
    pose proof (nth_error_Forall _ _ _ _ Hts E) as (Hacq & Hfl & _). cbn -[list_sum] in Hacq, Hh, Hfl.
    split; cbn -[list_sum].
    + unfold slots_held in *. cbn -[list_sum]. lia.
    + apply update_nth_Forall; [assumption|].
      destruct rl; repeat split; cbn; try lia; try discriminate; auto.
  - destruct (nth_error (tasks s) i) as [[[] h a r]|] eqn:E; try (split; assumption).
    pose proof (update_nth_held i _ (Task Acquiring h a r) _ E) as Hh.
    pose proof (nth_error_Forall _ _ _ _ Hts E) as (Hacq & _). cbn -[list_sum] in Hacq, Hh.
    split; cbn -[list_sum].
    + unfold slots_held in *. cbn -[list_sum]. lia.
    + apply update_nth_Forall; [assumption|].
      repeat split; cbn; try lia; discriminate.
  - destruct (nth_error (tasks s) i) as [[[] [|h] a r]|] eqn:E; try (split; assumption).
    pose proof (update_nth_held i _
                  (Task (match h with O => Finished | S _ => Leaving end) h a (S r)) _ E) as Hh.
    pose proof (nth_error_Forall _ _ _ _ Hts E) as (Hacq & _). cbn -[list_sum] in Hacq, Hh.
    split; cbn -[list_sum].
    + unfold slots_held in *. cbn -[list_sum]. lia.
    + apply update_nth_Forall; [assumption|].
      destruct h; repeat split; cbn; try lia; try discriminate; auto.
Qed.

Lemma run_consistent (n : nat) (schedule : list action) :
  forall s, consistent n s -> consistent n (run schedule s).
Proof.
  unfold run. induction schedule as [|a schedule IH]; intros s Hs; cbn.
  - exact Hs.
  - apply IH. now apply step_consistent.
Qed.

(** Every attempt in progress sits on a slot of its own. *)
Lemma in_flight_le_held (ts : list task) :
  Forall task_ok ts ->
  List.length (filter (fun t => phase_eqb (at_phase t) InFlight) ts) <= list_sum (map held ts).
Proof.
  induction 1 as [|t ts (Hacq & Hfl & _) Hts IH]; cbn -[list_sum]; [cbn; lia|].
  change (list_sum (held t :: map held ts)) with (held t + list_sum (map held ts)).
  destruct (at_phase t) eqn:E; cbn -[list_sum]; try lia.
  specialize (Hfl eq_refl). lia.
Qed.

(** Three tasks and two slots: the third task waits. One task and one slot:
    after a 429 the task waits for the slot it holds itself. *)
Example third_task_waits :
  let s := run [StartBatch 3; Admit 0; Admit 1; Admit 2] (init 2) in
  in_flight s = 2 /\ value s = 0
  /\ map at_phase (tasks s) = [InFlight; InFlight; Acquiring].
Proof. repeat split; reflexivity. Qed.

Example rate_limited_task_waits_for_itself :
  let s := run [StartBatch 1; Admit 0; Answer 0 true; Wake 0; Admit 0] (init 1) in
  in_flight s = 0 /\ value s = 0
  /\ tasks s = [Task Acquiring 1 1 0].
Proof. repeat split; reflexivity. Qed.

(** C8. Whatever the interleaving of the tasks of [create_single_event],
    at most max_concurrent (by default 50) network attempts are in progress
    at any time: every attempt in progress belongs to a task that holds a
    slot of the semaphore, the slots held and the free ones add up to
    max_concurrent, the slots a task has acquired are those it has released
    and those it still holds, and a finished task, however its attempts
    ended, holds none: each slot it acquired was released once. *)
Theorem at_most_max_concurrent_in_flight (max_concurrent : nat) (schedule : list action) :
  let s := run schedule (init max_concurrent) in
  in_flight s <= max_concurrent
  /\ value s + slots_held s = max_concurrent
  /\ Forall (fun t => at_phase t = InFlight -> 1 <= held t) (tasks s)
  /\ Forall (fun t => acquired t = released t + held t) (tasks s)
  /\ Forall (fun t => at_phase t = Finished -> held t = 0 /\ released t = acquired t) (tasks s)
  /\ default_max_concurrent = 50.
Proof.
  intros s.
  assert (Hs : consistent max_concurrent s).
  { apply run_consistent. split; [cbn; lia | constructor]. }
  destruct Hs as [Hv Hts].
  pose proof (in_flight_le_held (tasks s) Hts) as Hfl.
  split; [unfold in_flight, slots_held in *; lia|].
  split; [exact Hv|].
  split; [|split; [|split; [|reflexivity]]];
    eapply Forall_impl; try exact Hts; intros t (Hacq & H1 & H2 & H3); auto.
  intros Hf. specialize (H3 Hf). lia.
Qed.

End LimiterFacts.

(** ** The theorems at concrete inputs *)

(** The resilient client with max_retries = 3, answered 429 with
    Retry-After: 2 on every attempt: four attempts, three retries, four
    waits of 2 seconds, one failure. *)
Lemma always_rate_limited_four_attempts :
  let env := Scenario.resilient_answers 429 (Some "2"%string) in
  let out := Resilient.make_resilient_request decimal_int Resilient.reset_network 3 env
               Resilient.initial_stats in
  0 <= 3
  /\ (forall k s0,
        snd (Resilient.apply_conditions Resilient.reset_network
               (Resilient.conditions (env k)) s0) = None)
  /\ (forall k, exists r, Resilient.request (env k) = Returned r /\ status r = 429
                          /\ retry_after_of decimal_int r = Returned 2)
  /\ snd out = Returned (Resilient.failure_dict 3 None)
  /\ Resilient.total_attempts (fst out) = 4
  /\ Resilient.retries_performed (fst out) = 3
  /\ Resilient.failed_requests (fst out) = 1
  /\ Resilient.waits_at Resilient.RateLimitWait (Resilient.sleeps (fst out))
     = [inject_Z 2; inject_Z 2; inject_Z 2; inject_Z 2].
Proof.
  intros env out.
  assert (H0 : 0 <= 3) by lia.
  assert (Hsim : forall k s0,
             snd (Resilient.apply_conditions Resilient.reset_network
                    (Resilient.conditions (env k)) s0) = None)
    by (intros; reflexivity).
  assert (H429 : forall k, exists r, Resilient.request (env k) = Returned r /\ status r = 429
                                     /\ retry_after_of decimal_int r = Returned 2)
    by (intros; eexists; repeat split; reflexivity).
  split; [exact H0|]. split; [exact Hsim|]. split; [exact H429|].
  destruct (always_rate_limited_gives_up decimal_int Resilient.reset_network 3 env 2
              Resilient.initial_stats H0 Hsim H429)
    as (s' & Hout & Ht & _ & Hr & Hf & _ & Hw).
  unfold out. rewrite Hout. cbn [fst snd].
  split; [reflexivity|]. split; [exact Ht|]. split; [exact Hr|]. split; [exact Hf|].
  exact Hw.
Defined.

(** A 404 with a readable body: one attempt and a failure, in the
    performance tester and in the resilient client. *)
Lemma not_found_fails_after_one_attempt :
  let r := Scenario.answer 404 None in
  let perf := Perf.create_single_event decimal_int 3 (Scenario.perf_answers 404 None) 0
                (Perf.test_event 0) 0 Scenario.fresh_tester in
  let out := Resilient.make_resilient_request decimal_int Resilient.reset_network 3
               (Scenario.resilient_answers 404 None) Resilient.initial_stats in
  400 <= status r < 500
  /\ status r <> 429
  /\ text r = Returned ""%string
  /\ Perf.failed_events (Perf.metrics (fst perf)) = 1
  /\ Perf.response_times (fst perf) = [10 # 1000]
  /\ Perf.sleeps (fst perf) = []
  /\ snd out = Returned (Resilient.failure_dict 3 None)
  /\ Resilient.total_attempts (fst out) = 1
  /\ Resilient.retries_performed (fst out) = 0
  /\ Resilient.failed_requests (fst out) = 1.
Proof.
  intros r perf out.
  assert (H4 : 400 <= status r < 500) by (cbn; lia).
  assert (H429 : status r <> 429) by (cbn; lia).
  assert (Htxt : text r = Returned ""%string) by reflexivity.
  split; [exact H4|]. split; [exact H429|]. split; [exact Htxt|].
  destruct (client_error_is_not_retried decimal_int r ""%string H4 H429 Htxt)
    as (Hperf & Hres & _).
  destruct (Hperf (Scenario.perf_answers 404 None) 2%nat 0%nat (Perf.test_event 0) 0
              Scenario.fresh_tester eq_refl) as (d & Hd & _).
  destruct (Hres ltac:(cbn; lia) Resilient.reset_network 3
              (Scenario.resilient_answers 404 None) Resilient.initial_stats
              ltac:(lia) ltac:(intros; reflexivity) eq_refl)
    as (s' & Hout & Ht & Hr & Hf & _).
  unfold perf, out. rewrite Hd, Hout. cbn [fst snd].
  split; [reflexivity|]. split; [reflexivity|]. split; [reflexivity|].
  split; [reflexivity|]. split; [exact Ht|]. split; [exact Hr | exact Hf].
Defined.

(** A 429 without a Retry-After header: the wait is 1 second, and the demo
    client sleeps it and goes on. *)
Lemma rate_limit_without_header_waits_one_second :
  let r := Scenario.answer 429 None in
  status r = 429
  /\ retry_after_of decimal_int r = Returned 1
  /\ Demo.try_body decimal_int (Returned r) Demo.initial_stats
     = (Demo.asyncio_sleep Demo.RateLimitWait (inject_Z 1) Demo.initial_stats,
        Returned Demo.Continue).
Proof.
  intros r.
  assert (H429 : status r = 429) by reflexivity.
  split; [exact H429|].
  destruct (retry_after_hint decimal_int r H429) as (Habsent & _ & _ & Hok & _).
  split; [exact (Habsent eq_refl)|].
  destruct (Hok 1 (Habsent eq_refl)) as (_ & _ & Hdemo).
  exact (Hdemo Demo.initial_stats).
Defined.

(** The five-item scenario: every body can be read, and the completed run
    reports 5 = 3 + 2. *)
Lemma five_items_counted_once :
  let run := Perf.run_performance_test decimal_int 1 Scenario.three_successes_two_failures
               Scenario.no_readings 5 5 Scenario.fresh_tester in
  0 < 5
  /\ (forall i k,
        Perf.answers_properly (Scenario.three_successes_two_failures i k) = true)
  /\ Perf.total_events (Perf.metrics_of run) = 5
  /\ Perf.total_events (Perf.metrics_of run)
     = Perf.successful_events (Perf.metrics_of run)
       + Perf.failed_events (Perf.metrics_of run).
Proof.
  intros run.
  assert (HB : 0 < 5) by lia.
  assert (Hok : forall i k,
             Perf.answers_properly (Scenario.three_successes_two_failures i k) = true).
  { intros i k. unfold Perf.answers_properly, Scenario.three_successes_two_failures.
    cbn [Perf.post]. unfold Perf.readable, Scenario.answer. cbn [status json text].
    destruct (i <? 3); reflexivity. }
  split; [exact HB|]. split; [exact Hok|]. split; [reflexivity|].
  subst run.
  destruct (Perf.run_performance_test decimal_int 1 Scenario.three_successes_two_failures
              Scenario.no_readings 5 5 Scenario.fresh_tester) as [[t'|]|e] eqn:E;
    [|discriminate E|discriminate E].
  cbn [Perf.metrics_of].
  exact (run_counts_every_item_once decimal_int Scenario.three_successes_two_failures 1
           Scenario.no_readings 5 5 Scenario.fresh_tester t' HB Hok E).
Defined.

(** * Further properties *)

(** ** The mock backend: reset and the success rate *)

Section BackendReportFacts.
Import Backend BackendReport.

(** [a / m * 100] is a percentage when [0 <= a <= m] and [m] is positive. *)
Lemma percentage_bounds (a m : Z) :
  0 <= a <= m -> 0 < m ->
  (0 <= inject_Z a / inject_Z m * 100)%Q /\ (inject_Z a / inject_Z m * 100 <= 100)%Q.
Proof.
  intros Ha Hm. destruct m as [|p|p]; try lia.
  unfold Qle, Qdiv, Qmult, Qinv, inject_Z. cbn. split; nia.
Qed.

Lemma serve_app (rs1 rs2 : list request) (s : demo_stats) :
  serve (rs1 ++ rs2) s = serve rs2 (serve rs1 s).
Proof. unfold serve. apply fold_left_app. Qed.

(** Resetting forgets the history: whatever was served before a
    POST /reset-stats, and from whatever counters, the requests served after
    it leave the counters that they would leave on a fresh backend. *)
Lemma reset_forgets_history (before after : list request) (s : demo_stats) :
  serve (before ++ PostResetStats :: after) s = serve after initial_stats.
Proof.
  rewrite serve_app. reflexivity.
Qed.

Lemma handle_ordered (r : request) (s : demo_stats) :
  ordered s -> ordered (fst (handle r s)).
Proof.
  unfold ordered, balanced. intros (He & Hf & Hb).
  destruct r; cbn; try lia.
  unfold create_calendar_event.
  destruct (Qlt_bool (failure_draw i) (5 # 100)); [cbn; lia|].
  destruct (start_time_parses i); cbn; lia.
Qed.

Lemma serve_ordered (rs : list request) (s : demo_stats) :
  ordered s -> ordered (serve rs s).
Proof.
  revert s. induction rs as [|r rs IH]; intros s Hs; cbn.
  - exact Hs.
  - apply IH. now apply handle_ordered.
Qed.

(** X4. After any sequence of requests the backend's counters satisfy
    0 <= events_created <= successful_requests <= total_requests, the success
    rate reported by GET /stats is a percentage between 0 and 100 (the
    denominator max(total_requests, 1) is never zero), and GET
    /v1/calendar/events lists min(events_created, 10) events. *)
Theorem backend_success_rate_is_a_percentage (rs : list request) :
  let s := serve rs initial_stats in
  0 <= events_created s <= successful_requests s
  /\ successful_requests s <= total_requests s
  /\ (0 <= success_rate s)%Q
  /\ (success_rate s <= 100)%Q
  /\ snd (handle GetEvents s) = Ok [("total_count"%string, Z.min (events_created s) 10)].
Proof.
  intros s.
  assert (Hs : ordered s).
  { apply serve_ordered. unfold ordered, balanced. cbn. lia. }
  destruct Hs as (He & Hf & Hb). unfold balanced in Hb.
  split; [exact He|]. split; [lia|].
  assert (Hp := percentage_bounds (successful_requests s) (Z.max (total_requests s) 1)
                  ltac:(lia) ltac:(lia)).
  split; [apply Hp|]. split; [apply Hp|].
  cbn. rewrite Z.max_r by lia. reflexivity.
Qed.

End BackendReportFacts.

(** ** The resilient client: attempts, retries and the test suite *)

Section SuiteFacts.
Import Resilient Suite.

Variable py_int : string -> option Z.

Ltac branches :=
  repeat match goal with
    | |- context [if ?b then _ else _] => destruct b eqn:?
    | |- context [match ?x with Returned _ => _ | Raised _ => _ end] => destruct x eqn:?
    | |- context [match ?x with Some _ => _ | None => _ end] => destruct x eqn:?
    end.

Lemma iteration_accounting (sim : NetworkConditionSimulator) (max_retries : Z)
  (attempt : nat) (a : attempt_io) (s : stats) (last : option exn) :
  exists s' last' c,
    iteration py_int sim max_retries attempt a s last = (s', last', Returned c)
    /\ iteration_counts max_retries attempt a s s' c.
Proof.
  unfold iteration, try_body, iteration_counts.
  pose proof (apply_conditions_counters sim (conditions a) (incr_total_attempts s)) as Hc.
  destruct (apply_conditions sim (conditions a) (incr_total_attempts s)) as [s1 [e|]];
    cbn in Hc; destruct Hc as (Ht & Hs & Hf & Hr & _).
  - unfold except_clauses. destruct (exn_cls e); branches;
      do 3 eexists; (split; [reflexivity|]); cbn;
      (split; [lia|split; [lia|split; [lia|split; [lia|exact I]]]]).
  - destruct (request a) as [r|e].
    + destruct (status r =? 200) eqn:E200.
      * apply Z.eqb_eq in E200. destruct (json r) as [d|e] eqn:Ejson.
        -- do 3 eexists; (split; [reflexivity|]); cbn.
           split; [lia|split; [lia|split; [lia|split; [lia|]]]]. exists r; auto.
        -- unfold except_clauses. destruct (exn_cls e); branches;
             do 3 eexists; (split; [reflexivity|]); cbn;
             (split; [lia|split; [lia|split; [lia|split; [lia|exact I]]]]).
      * branches; unfold except_clauses;
          try (match goal with |- context [exn_cls ?e] => destruct (exn_cls e) end);
          branches;
          do 3 eexists; (split; [reflexivity|]); cbn;
          (split; [lia|split; [lia|split; [lia|split; [lia|exact I]]]]).
    + unfold except_clauses. destruct (exn_cls e); branches;
        do 3 eexists; (split; [reflexivity|]); cbn;
        (split; [lia|split; [lia|split; [lia|split; [lia|exact I]]]]).
Qed.

(** What the loop adds to the counters when it runs the attempts
    [attempt], ..., [max_retries]. *)
Lemma attempts_loop_accounting (sim : NetworkConditionSimulator) (max_retries : Z)
  (env : nat -> attempt_io) (remaining : nat) :
  forall (attempt : nat) (s : stats) (last : option exn),
  Z.of_nat attempt + Z.of_nat remaining = max_retries + 1 ->
  exists s' last' o,
    attempts_loop py_int sim max_retries env remaining attempt s last = (s', last', Returned o)
    /\ failed_requests s' = failed_requests s
    /\ total_attempts s' - total_attempts s
       = (retries_performed s' - retries_performed s)
         + match remaining with O => 0 | S _ => 1 end
    /\ 0 <= retries_performed s' - retries_performed s
    /\ total_attempts s' - total_attempts s <= Z.of_nat remaining
    /\ 0 <= successful_requests s' - successful_requests s
       <= total_attempts s' - total_attempts s
    /\ match o with
       | Some d =>
           1 <= successful_requests s' - successful_requests s
           /\ exists k r, request (env k) = Returned r /\ status r = 200
                          /\ json r = Returned d
       | None => True
       end.
Proof.
  induction remaining as [|n IH]; intros attempt s last Hk; cbn [attempts_loop].
  - do 3 eexists. split; [reflexivity|]. repeat (split; [lia|]). exact I.
  - destruct (iteration_accounting sim max_retries attempt (env attempt) s last)
      as (s1 & last1 & c & Hit & Hf & Ht & Hr & Hs & Hc).
    rewrite Hit. destruct c as [d| |].
    + do 3 eexists. split; [reflexivity|]. repeat (split; [lia|]).
      destruct Hc as (r & Hreq & Hst & Hj). split.
      * revert Hit. unfold iteration, try_body.
        pose proof (apply_conditions_counters sim (conditions (env attempt))
                      (incr_total_attempts s)) as Hcc.
        destruct (apply_conditions sim (conditions (env attempt)) (incr_total_attempts s))
          as [s0 [e|]]; cbn in Hcc; destruct Hcc as (_ & Hs0 & _).
        -- unfold except_clauses. destruct (exn_cls e); branches; discriminate.
        -- rewrite Hreq, Hst, Hj. cbn [Z.eqb Pos.eqb].
           intros H; inversion H; subst. cbn. cbn in Hs0. lia.
      * exists attempt, r. auto.
    + destruct (Z.of_nat attempt <? max_retries) eqn:E;
        [apply Z.ltb_lt in E | apply Z.ltb_ge in E].
      * destruct (IH (S attempt) s1 last1 ltac:(lia))
          as (s2 & last2 & o & Hl & Hf2 & Ht2 & Hr2 & Hb2 & Hs2 & Ho).
        rewrite Hl. do 3 eexists. split; [reflexivity|].
        destruct n as [|n]; [lia|]. cbv iota in Ht2 |- *.
        repeat (split; [lia|]).
        destruct o as [d|]; [|exact I]. destruct Ho as (H1 & Hex). split; [lia|exact Hex].
      * assert (n = 0%nat) by lia. subst n. cbn [attempts_loop].
        do 3 eexists. split; [reflexivity|]. repeat (split; [lia|]). exact I.
    + do 3 eexists. split; [reflexivity|]. repeat (split; [lia|]). exact I.
Qed.

(** What one call adds to the counters, and what it returns. *)
Lemma call_accounting (sim : NetworkConditionSimulator) (max_retries : Z)
  (env : nat -> attempt_io) (s : stats) :
  0 <= max_retries ->
  exists s' d,
    make_resilient_request py_int sim max_retries env s = (s', Returned d)
    /\ total_attempts s' - total_attempts s
       = 1 + (retries_performed s' - retries_performed s)
    /\ 0 <= retries_performed s' - retries_performed s <= max_retries
    /\ 0 <= successful_requests s' - successful_requests s
       <= total_attempts s' - total_attempts s
    /\ ((failed_requests s' = failed_requests s
         /\ 1 <= successful_requests s' - successful_requests s
         /\ exists k r, request (env k) = Returned r /\ status r = 200
                        /\ json r = Returned d)
        \/ (failed_requests s' = failed_requests s + 1
            /\ has_key "error" d = true)).
Proof.
  intros Hmr. unfold make_resilient_request.
  destruct (attempts_loop_accounting sim max_retries env (Z.to_nat (max_retries + 1))
              0%nat s None ltac:(lia))
    as (s1 & last1 & o & Hl & Hf & Ht & Hr & Hb & Hs & Ho).
  rewrite Hl.
  destruct (Z.to_nat (max_retries + 1)) as [|n] eqn:En; [lia|].
  cbv iota in Ht.
  destruct o as [d|].
  - exists s1, d. split; [reflexivity|]. repeat (split; [lia|]).
    left. destruct Ho as (H1 & Hex). split; [exact Hf|]. split; [exact H1 | exact Hex].
  - do 2 eexists. split; [reflexivity|].
    cbn [total_attempts retries_performed successful_requests failed_requests
         incr_failed_requests].
    repeat (split; [lia|]).
    right. split; [lia | reflexivity].
Qed.

(** X5. In a call of [make_resilient_request] with max_retries >= 0, every
    attempt after the first is counted as one retry: total_attempts goes up
    by 1 + the increase of retries_performed, which is at most max_retries;
    successful_requests goes up by at most the number of attempts, and
    failed_requests by 0 or 1. *)
Theorem every_attempt_after_the_first_is_a_retry (sim : NetworkConditionSimulator)
  (max_retries : Z) (env : nat -> attempt_io) (s : stats) :
  0 <= max_retries ->
  let s' := fst (make_resilient_request py_int sim max_retries env s) in
  total_attempts s' - total_attempts s = 1 + (retries_performed s' - retries_performed s)
  /\ 0 <= retries_performed s' - retries_performed s <= max_retries
  /\ 0 <= successful_requests s' - successful_requests s
     <= total_attempts s' - total_attempts s
  /\ 0 <= failed_requests s' - failed_requests s <= 1.
Proof.
  intros Hmr.
  destruct (call_accounting sim max_retries env s Hmr)
    as (s1 & d & Hcall & Ht & Hr & Hs & Hf).
  rewrite Hcall. cbn [fst]. repeat (split; [lia|]).
  destruct Hf as [(Hf & _) | (Hf & _)]; lia.
Qed.

(** One call of the client with the default max_retries = 3. *)
Lemma create_event_accounting (sim : NetworkConditionSimulator) (env : nat -> attempt_io)
  (s : stats) :
  exists s' d,
    create_event py_int sim env s = (s', Returned d)
    /\ total_attempts s' - total_attempts s
       = 1 + (retries_performed s' - retries_performed s)
    /\ 0 <= retries_performed s' - retries_performed s <= 3
    /\ 0 <= successful_requests s' - successful_requests s
       <= total_attempts s' - total_attempts s
    /\ ((failed_requests s' = failed_requests s
         /\ exists k r, request (env k) = Returned r /\ status r = 200
                        /\ json r = Returned d)
        \/ (failed_requests s' = failed_requests s + 1
            /\ has_key "error" d = true)).
Proof.
  unfold create_event.
  destruct (call_accounting sim 3 env s ltac:(lia)) as (s' & d & Hc & Ht & Hr & Hs & Hf).
  exists s', d. split; [exact Hc|]. repeat (split; [lia|]).
  destruct Hf as [(Hf & _ & Hex) | Hf]; [left; auto | right; exact Hf].
Qed.

Lemma gather_accounting (sim : NetworkConditionSimulator) (envs : list (nat -> attempt_io)) :
  forall s : stats,
  let out := gather py_int sim envs s in
  let n := Z.of_nat (List.length envs) in
  total_attempts (fst out) - total_attempts s
  = n + (retries_performed (fst out) - retries_performed s)
  /\ 0 <= retries_performed (fst out) - retries_performed s <= 3 * n
  /\ 0 <= successful_requests (fst out) - successful_requests s
     <= total_attempts (fst out) - total_attempts s
  /\ 0 <= failed_requests (fst out) - failed_requests s <= n
  /\ 0 <= count_successful (snd out)
  /\ count_successful (snd out) + (failed_requests (fst out) - failed_requests s) <= n
  /\ (Forall no_error_key envs ->
      count_successful (snd out) + (failed_requests (fst out) - failed_requests s) = n).
Proof.
  induction envs as [|env envs IH]; intros s; cbn [gather].
  - unfold count_successful. cbn [fst snd List.length filter].
    repeat (split; [lia|]). intros _. lia.
  - destruct (create_event_accounting sim env s) as (s1 & d & Hc & Ht & Hr & Hs & Hf).
    rewrite Hc. specialize (IH s1). cbv zeta in IH |- *.
    destruct (gather py_int sim envs s1) as [s2 rs].
    cbn [fst snd] in IH |- *.
    destruct IH as (Ht2 & Hr2 & Hs2 & Hf2 & Hc0 & Hle & Heq).
    unfold count_successful in *. cbn [filter is_success List.length].
    destruct Hf as [(Hf & k & r & Hreq & Hst & Hj) | (Hf & Herr)].
    + destruct (has_key "error" d) eqn:Ek; cbn [negb List.length].
      * repeat (split; [lia|]). intros Hall. inversion Hall as [|? ? Henv Hrest]; subst.
        rewrite (Henv k r d Hreq Hj) in Ek. discriminate.
      * repeat (split; [lia|]). intros Hall. inversion Hall as [|? ? Henv Hrest]; subst.
        specialize (Heq Hrest). lia.
    + rewrite Herr. cbn [negb].
      repeat (split; [lia|]). intros Hall. inversion Hall as [|? ? Henv Hrest]; subst.
      specialize (Heq Hrest). lia.
Qed.

(** X6. A test of the resilience suite that creates n > 0 events counts no
    event twice: the successes it reports and the failures the client
    records during the test add up to at most n; the success rate is a
    percentage; and the n calls make between n and 4n attempts. *)
Theorem suite_test_counts_every_event (sim : NetworkConditionSimulator) (n : nat)
  (env : nat -> nat -> attempt_io) (s : stats) :
  (0 < n)%nat ->
  let out := run_test py_int sim n env s in
  total_events (snd out) = Z.of_nat n
  /\ 0 <= successful_events (snd out)
  /\ 0 <= failed_requests (fst out) - failed_requests s
  /\ successful_events (snd out) + (failed_requests (fst out) - failed_requests s)
     <= Z.of_nat n
  /\ (0 <= success_rate (snd out))%Q
  /\ (success_rate (snd out) <= 100)%Q
  /\ Z.of_nat n <= total_attempts (fst out) - total_attempts s <= 4 * Z.of_nat n.
Proof.
  intros Hn. unfold run_test.
  pose proof (gather_accounting sim (map env (seq 0 n)) s) as H. cbv zeta in H.
  destruct (gather py_int sim (map env (seq 0 n)) s) as [s' results].
  cbn [fst snd] in H |- *. rewrite length_map, length_seq in H.
  destruct H as (Ht & Hr & Hs & Hf & Hc0 & Hle & _).
  cbn [total_events successful_events success_rate].
  assert (Hp := percentage_bounds (count_successful results) (Z.of_nat n)
                  ltac:(lia) ltac:(lia)).
  split; [reflexivity|]. split; [lia|]. split; [lia|]. split; [lia|].
  split; [apply Hp|]. split; [apply Hp|]. lia.
Qed.

Lemma calls_accounting (calls : list (NetworkConditionSimulator * (nat -> attempt_io))) :
  forall (s : stats) (n : Z),
  total_attempts s = n + retries_performed s ->
  0 <= successful_requests s <= total_attempts s ->
  0 <= failed_requests s <= n ->
  let s' := fold_left (fun s c => fst (create_event py_int (fst c) (snd c) s)) calls s in
  total_attempts s' = n + Z.of_nat (List.length calls) + retries_performed s'
  /\ 0 <= successful_requests s' <= total_attempts s'
  /\ 0 <= failed_requests s' <= n + Z.of_nat (List.length calls).
Proof.
  induction calls as [|[sim env] calls IH]; intros s n Ht Hs Hf; cbn [fold_left].
  - cbn. lia.
  - destruct (create_event_accounting sim env s) as (s1 & d & Hc & Ht1 & Hr1 & Hs1 & Hf1).
    cbn [fst snd]. rewrite Hc. cbn [fst].
    assert (Hf1' : 0 <= failed_requests s1 - failed_requests s <= 1)
      by (destruct Hf1 as [(Hf1 & _) | (Hf1 & _)]; lia).
    specialize (IH s1 (n + 1) ltac:(lia) ltac:(lia) ltac:(lia)). cbv zeta in IH.
    cbn [List.length]. lia.
Qed.

(** X7. After any sequence of calls of the client's wrappers (whatever the
    simulator is set to for each), total_attempts is the number of calls
    plus retries_performed, successful_requests never exceeds
    total_attempts, failed_requests never exceeds the number of calls, and
    the overall success rate that [main] prints is a percentage between 0
    and 100 (0 when no call was made). *)
Theorem overall_success_rate_is_a_percentage
  (calls : list (NetworkConditionSimulator * (nat -> attempt_io))) :
  let s := fold_left (fun s c => fst (create_event py_int (fst c) (snd c) s)) calls
             initial_stats in
  total_attempts s = Z.of_nat (List.length calls) + retries_performed s
  /\ 0 <= successful_requests s <= total_attempts s
  /\ 0 <= failed_requests s <= Z.of_nat (List.length calls)
  /\ (0 <= overall_success_rate s)%Q
  /\ (overall_success_rate s <= 100)%Q.
Proof.
  intros s.
  pose proof (calls_accounting calls initial_stats 0 eq_refl ltac:(cbn; lia) ltac:(cbn; lia))
    as (Ht & Hs & Hf).
  fold s in Ht, Hs, Hf.
  split; [lia|]. split; [exact Hs|]. split; [lia|].
  unfold overall_success_rate.
  destruct (total_attempts s >? 0) eqn:E.
  - assert (Hpos : 0 < total_attempts s) by lia.
    assert (Hp := percentage_bounds (successful_requests s) (total_attempts s) Hs Hpos).
    exact Hp.
  - split; unfold Qle; cbn; lia.
Qed.

(** The simulator raises client errors and timeouts only. *)
Lemma apply_conditions_raises (sim : NetworkConditionSimulator) (d : draws) (s : stats)
  (e : exn) :
  snd (apply_conditions sim d s) = Some e ->
  exn_cls e = ClientError \/ exn_cls e = TimeoutError.
Proof.
  unfold apply_conditions. branches; cbn; intros H; inversion H; subst; cbn; auto.
Qed.

Lemma iteration_transient (sim : NetworkConditionSimulator) (max_retries : Z)
  (attempt : nat) (a : attempt_io) (s : stats) (last : option exn) :
  transient sim a ->
  exists s' last',
    iteration py_int sim max_retries attempt a s last = (s', last', Returned Continue)
    /\ successful_requests s' = successful_requests s
    /\ waits_at Backoff (sleeps s')
       = waits_at Backoff (sleeps s)
         ++ (if Z.of_nat attempt <? max_retries
             then [backoff_time attempt (jitter a)] else []).
Proof.
  intros Htr. unfold iteration, try_body.
  pose proof (apply_conditions_counters sim (conditions a) (incr_total_attempts s)) as Hc.
  pose proof (apply_conditions_waits sim Backoff (conditions a) (incr_total_attempts s)
                ltac:(discriminate)) as Hw.
  pose proof (apply_conditions_raises sim (conditions a) (incr_total_attempts s)) as Hcls.
  destruct Htr as [(e & Hsim) | (Hsim & Hreq)];
    specialize (Hsim (incr_total_attempts s));
    destruct (apply_conditions sim (conditions a) (incr_total_attempts s)) as [s1 o];
    cbn [fst snd] in Hsim, Hc, Hw, Hcls; subst o;
    destruct Hc as (_ & Hs & _); cbn in Hs, Hw.
  - unfold except_clauses.
    destruct (Hcls e eq_refl) as [-> | ->];
      destruct (Z.of_nat attempt <? max_retries);
      do 2 eexists; (split; [reflexivity|]); cbn -[waits_at backoff_time];
      rewrite ?waits_at_app, ?Hw; cbn -[backoff_time]; rewrite ?app_nil_r; auto.
  - destruct Hreq as [(e & Hreq & He) | (r & txt & Hreq & Hst & Htxt)]; rewrite Hreq.
    + unfold except_clauses.
      destruct He as [-> | [-> | ->]];
        destruct (Z.of_nat attempt <? max_retries);
        do 2 eexists; (split; [reflexivity|]); cbn -[waits_at backoff_time];
        rewrite ?waits_at_app, ?Hw; cbn -[backoff_time]; rewrite ?app_nil_r; auto.
    + replace (status r =? 200) with false by (symmetry; apply Z.eqb_neq; lia).
      replace (status r =? 429) with false by (symmetry; apply Z.eqb_neq; lia).
      replace (status r =? 401) with false by (symmetry; apply Z.eqb_neq; lia).
      replace (status r >=? 500) with true by (symmetry; apply Z.geb_le; lia).
      rewrite Htxt.
      destruct (Z.of_nat attempt <? max_retries);
        do 2 eexists; (split; [reflexivity|]); cbn -[waits_at backoff_time];
        rewrite ?waits_at_app, ?Hw; cbn -[backoff_time]; rewrite ?app_nil_r; auto.
Qed.

Lemma attempts_loop_transient (sim : NetworkConditionSimulator) (max_retries : Z)
  (env : nat -> attempt_io) (remaining : nat) :
  (forall k, transient sim (env k)) ->
  forall (attempt : nat) (s : stats) (last : option exn),
  Z.of_nat attempt + Z.of_nat remaining = max_retries + 1 ->
  exists s' last',
    attempts_loop py_int sim max_retries env remaining attempt s last
    = (s', last', Returned None)
    /\ successful_requests s' = successful_requests s
    /\ failed_requests s' = failed_requests s
    /\ total_attempts s' = total_attempts s + Z.of_nat remaining
    /\ retries_performed s' = retries_performed s + Z.of_nat (Nat.pred remaining)
    /\ waits_at Backoff (sleeps s')
       = waits_at Backoff (sleeps s)
         ++ map (fun k => backoff_time k (jitter (env k))) (seq attempt (Nat.pred remaining)).
Proof.
  intros Htr. induction remaining as [|n IH]; intros attempt s last Hk;
    cbn [attempts_loop].
  - do 2 eexists. split; [reflexivity|]. cbn -[waits_at]. rewrite app_nil_r.
    repeat (split; [lia|]). reflexivity.
  - destruct (iteration_transient sim max_retries attempt (env attempt) s last (Htr attempt))
      as (s1 & last1 & Hit & Hs1 & Hw1).
    destruct (iteration_accounting sim max_retries attempt (env attempt) s last)
      as (s1' & last1' & c & Hit' & Hf1 & Ht1 & Hr1 & _).
    rewrite Hit in Hit'. inversion Hit'; subst s1' last1' c.
    rewrite Hit.
    destruct (IH (S attempt) s1 last1 ltac:(lia))
      as (s2 & last2 & Hl & Hs2 & Hf2 & Ht2 & Hr2 & Hw2).
    rewrite Hl. do 2 eexists. split; [reflexivity|].
    rewrite Hw2, Hw1, <- app_assoc.
    destruct n as [|n].
    + replace (Z.of_nat attempt <? max_retries) with false in *
        by (symmetry; apply Z.ltb_ge; lia).
      cbn [Nat.pred seq map app] in *. repeat (split; [lia|]). reflexivity.
    + replace (Z.of_nat attempt <? max_retries) with true in *
        by (symmetry; apply Z.ltb_lt; lia).
      cbn [Nat.pred seq map app] in *. repeat (split; [lia|]). reflexivity.
Qed.

(** X8. A call of [make_resilient_request] (max_retries >= 0) whose every
    attempt ends in a timeout, a network error or a readable 5xx makes
    max_retries + 1 attempts and then records one failure; before the retry
    that follows attempt k it sleeps 2^k + jitter_k seconds, for
    k = 0, ..., max_retries - 1, and it does not sleep after the last
    attempt. *)
Theorem transient_failures_back_off_exponentially (sim : NetworkConditionSimulator)
  (max_retries : Z) (env : nat -> attempt_io) (s : stats) :
  0 <= max_retries ->
  (forall k, transient sim (env k)) ->
  exists s' last',
    make_resilient_request py_int sim max_retries env s
    = (s', Returned (failure_dict max_retries last'))
    /\ total_attempts s' = total_attempts s + (max_retries + 1)
    /\ retries_performed s' = retries_performed s + max_retries
    /\ failed_requests s' = failed_requests s + 1
    /\ successful_requests s' = successful_requests s
    /\ waits_at Backoff (sleeps s')
       = waits_at Backoff (sleeps s)
         ++ map (fun k => backoff_time k (jitter (env k))) (seq 0 (Z.to_nat max_retries)).
Proof.
  intros Hmr Htr. unfold make_resilient_request.
  destruct (attempts_loop_transient sim max_retries env (Z.to_nat (max_retries + 1)) Htr
              0%nat s None ltac:(lia)) as (s1 & last1 & Hl & Hs1 & Hf1 & Ht1 & Hr1 & Hw1).
  rewrite Hl.
  replace (Nat.pred (Z.to_nat (max_retries + 1))) with (Z.to_nat max_retries) in * by lia.
  exists (incr_failed_requests s1), last1. split; [reflexivity|].
  cbn -[waits_at backoff_time].
  repeat (split; [lia|]). exact Hw1.
Qed.

End SuiteFacts.

(** ** The demo client *)

Section DemoFacts.
Import Demo DemoRuns.

Variable py_int : string -> option Z.
Variable cross_platform_events : dict -> result Z.

Ltac demo_branches :=
  repeat match goal with
    | |- context [if ?b then _ else _] => destruct b eqn:?
    | |- context [match ?x with Returned _ => _ | Raised _ => _ end] => destruct x eqn:?
    end.

Lemma demo_iteration_spec (attempt : nat) (req : result response) (s : stats) :
  let out := iteration py_int attempt req s in
  total_requests (fst out) = total_requests s
  /\ failed_requests (fst out) = failed_requests s
  /\ events_created (fst out) = events_created s
  /\ 0 <= successful_requests (fst out) - successful_requests s <= 1
  /\ match snd out with
     | Returned (Return d) =>
         successful_requests (fst out) = successful_requests s + 1
         /\ exists r, req = Returned r /\ status r = 200 /\ json r = Returned d
     | Returned Continue => True
     | Raised e => escapes e
     end.
Proof.
  unfold iteration, try_body, except_clause, escapes.
  destruct req as [r|e].
  - destruct (status r =? 200) eqn:E200.
    + apply Z.eqb_eq in E200. destruct (json r) as [d|e] eqn:Ej.
      * cbn. repeat (split; [lia|]). exists r. auto.
      * destruct (exn_cls e) eqn:Ec; try destruct (attempt <? 2)%nat; cbn;
          repeat (split; [lia|]); auto.
    + destruct (status r =? 429).
      * destruct (retry_after_of py_int r) as [n|e] eqn:Er.
        -- cbn. repeat (split; [lia|]). exact I.
        -- destruct (exn_cls e) eqn:Ec; try destruct (attempt <? 2)%nat; cbn;
          repeat (split; [lia|]); auto.
      * destruct (text r) as [t|e].
        -- cbn. repeat (split; [lia|]). exact I.
        -- destruct (exn_cls e) eqn:Ec; try destruct (attempt <? 2)%nat; cbn;
          repeat (split; [lia|]); auto.
  - destruct (exn_cls e) eqn:Ec; try destruct (attempt <? 2)%nat; cbn;
          repeat (split; [lia|]); auto.
Qed.

Lemma demo_attempts_loop_spec (env : nat -> result response) (remaining : nat) :
  forall (attempt : nat) (s : stats),
  let out := attempts_loop py_int env remaining attempt s in
  total_requests (fst out) = total_requests s
  /\ failed_requests (fst out) = failed_requests s
  /\ events_created (fst out) = events_created s
  /\ 0 <= successful_requests (fst out) - successful_requests s <= Z.of_nat remaining
  /\ match snd out with
     | Returned (Some d) =>
         1 <= successful_requests (fst out) - successful_requests s
         /\ exists k r, (attempt <= k < attempt + remaining)%nat
                        /\ env k = Returned r /\ status r = 200 /\ json r = Returned d
     | Returned None => True
     | Raised e => escapes e
     end.
Proof.
  induction remaining as [|n IH]; intros attempt s; cbn [attempts_loop].
  - cbn. repeat (split; [lia|]). exact I.
  - pose proof (demo_iteration_spec attempt (env attempt) s) as H. cbv zeta in H.
    destruct (iteration py_int attempt (env attempt) s) as [s1 [[d|]|e]];
      cbn [fst snd] in H |- *; destruct H as (Ht & Hf & He & Hs & Hc).
    + destruct Hc as (Hs1 & r & Hreq & Hst & Hj).
      repeat (split; [lia|]). exists attempt, r. split; [lia|auto].
    + specialize (IH (S attempt) s1). cbv zeta in IH.
      destruct (attempts_loop py_int env n (S attempt) s1) as [s2 res].
      cbn [fst snd] in IH |- *. destruct IH as (Ht2 & Hf2 & He2 & Hs2 & Hc2).
      repeat (split; [lia|]).
      destruct res as [[d|]|e]; auto.
      destruct Hc2 as (H1 & k & r & Hk & Hrest). split; [lia|].
      exists k, r. split; [lia|exact Hrest].
    + repeat (split; [lia|]). exact Hc.
Qed.

(** X9. Every call of [make_request] adds one to total_requests and makes at
    most three attempts. It ends in one of three ways: it returns the parsed
    body of a 200 response (failed_requests unchanged); it returns the
    dictionary with the key 'error' (failed_requests incremented once); or
    it raises, and then the exception is neither a ClientError nor a
    TimeoutError, and failed_requests is unchanged. *)
Theorem make_request_ends_in_one_of_three_ways (env : nat -> result response) (s : stats) :
  let out := make_request py_int env s in
  total_requests (fst out) = total_requests s + 1
  /\ events_created (fst out) = events_created s
  /\ 0 <= successful_requests (fst out) - successful_requests s <= 3
  /\ match snd out with
     | Returned d =>
         (failed_requests (fst out) = failed_requests s
          /\ 1 <= successful_requests (fst out) - successful_requests s
          /\ exists k r, (k < 3)%nat /\ env k = Returned r /\ status r = 200
                         /\ json r = Returned d)
         \/ (failed_requests (fst out) = failed_requests s + 1
             /\ d = [("error"%string, PStr "Request failed after 3 attempts")])
     | Raised e =>
         failed_requests (fst out) = failed_requests s
         /\ exn_cls e <> ClientError /\ exn_cls e <> TimeoutError
     end.
Proof.
  unfold make_request.
  pose proof (demo_attempts_loop_spec env 3 0 (incr_total_requests s)) as H. cbv zeta in H.
  destruct (attempts_loop py_int env 3 0 (incr_total_requests s)) as [s1 [[d|]|e]];
    cbn [fst snd] in H |- *; destruct H as (Ht & Hf & He & Hs & Hc); cbn in Ht, Hf, He, Hs.
  - destruct Hc as (H1 & k & r & Hk & Hrest). cbn in H1.
    repeat (split; [lia|]). left.
    repeat (split; [lia|]). exists k, r. split; [lia|exact Hrest].
  - cbn. repeat (split; [lia|]). right. split; [lia|reflexivity].
  - repeat (split; [lia|]). unfold escapes in Hc.
    destruct Hc as [Hc | [Hc | Hc]]; rewrite Hc; split; discriminate.
Qed.

(** The demo client when every attempt ends in a ClientError or a
    TimeoutError. *)
Lemma demo_failures_spec (env : nat -> result response) (s : stats) :
  (forall k, exists e, env k = Raised e
                       /\ (exn_cls e = ClientError \/ exn_cls e = TimeoutError)) ->
  let out := make_request py_int env s in
  snd out = Returned [("error"%string, PStr "Request failed after 3 attempts")]
  /\ sleeps (fst out) = sleeps s ++ [Sleep Backoff (inject_Z 1); Sleep Backoff (inject_Z 2)]
  /\ failed_requests (fst out) = failed_requests s + 1
  /\ successful_requests (fst out) = successful_requests s.
Proof.
  intros H.
  destruct (H 0%nat) as (e0 & H0 & C0), (H 1%nat) as (e1 & H1 & C1),
    (H 2%nat) as (e2 & H2 & C2).
  unfold make_request. cbn [attempts_loop]. unfold iteration, try_body, except_clause.
  rewrite H0, H1, H2.
  destruct C0 as [-> | ->], C1 as [-> | ->], C2 as [-> | ->];
    cbn; rewrite <- app_assoc; cbn; auto.
Qed.

(** X10. When every attempt of [make_request] ends in a ClientError or a
    TimeoutError, the client waits 1 second after the first attempt and
    2 seconds after the second, does not wait after the third, and returns
    the 'error' dictionary with failed_requests incremented. *)
Theorem demo_client_waits_one_then_two_seconds (env : nat -> result response) (s : stats) :
  (forall k, exists e, env k = Raised e
                       /\ (exn_cls e = ClientError \/ exn_cls e = TimeoutError)) ->
  let out := make_request py_int env s in
  snd out = Returned [("error"%string, PStr "Request failed after 3 attempts")]
  /\ sleeps (fst out) = sleeps s ++ [Sleep Backoff (inject_Z 1); Sleep Backoff (inject_Z 2)]
  /\ failed_requests (fst out) = failed_requests s + 1
  /\ successful_requests (fst out) = successful_requests s.
Proof. exact (demo_failures_spec env s). Qed.

(** X11. When every attempt of [make_request] is answered 429 with a
    Retry-After that reads as R, the client sleeps R seconds after each of
    its three attempts, the last included, and then returns the 'error'
    dictionary with failed_requests incremented. *)
Theorem demo_client_is_rate_limited_three_times (env : nat -> result response) (R : Z)
  (s : stats) :
  (forall k, exists r, env k = Returned r /\ status r = 429
                       /\ retry_after_of py_int r = Returned R) ->
  let out := make_request py_int env s in
  snd out = Returned [("error"%string, PStr "Request failed after 3 attempts")]
  /\ sleeps (fst out)
     = sleeps s ++ repeat (Sleep RateLimitWait (inject_Z R)) 3
  /\ failed_requests (fst out) = failed_requests s + 1
  /\ successful_requests (fst out) = successful_requests s.
Proof.
  intros H.
  destruct (H 0%nat) as (r0 & H0 & S0 & R0), (H 1%nat) as (r1 & H1 & S1 & R1),
    (H 2%nat) as (r2 & H2 & S2 & R2).
  unfold make_request. cbn [attempts_loop]. unfold iteration, try_body.
  rewrite H0, H1, H2, S0, S1, S2, R0, R1, R2. cbn. rewrite <- !app_assoc. cbn. auto.
Qed.

(** The demo client when its first [j] attempts are answered with error
    statuses other than 429. *)
Lemma demo_error_statuses_spec (env : nat -> result response)
  (j : nat) (d : dict) (s : stats) :
  (j <= 3)%nat ->
  (forall k, (k < j)%nat ->
             exists r txt, env k = Returned r /\ status r <> 200 /\ status r <> 429
                           /\ text r = Returned txt) ->
  ((j < 3)%nat -> exists r, env j = Returned r /\ status r = 200 /\ json r = Returned d) ->
  let out := make_request py_int env s in
  sleeps (fst out) = sleeps s
  /\ ((j < 3)%nat ->
      snd out = Returned d
      /\ failed_requests (fst out) = failed_requests s
      /\ successful_requests (fst out) = successful_requests s + 1)
  /\ (j = 3%nat ->
      snd out = Returned [("error"%string, PStr "Request failed after 3 attempts")]
      /\ failed_requests (fst out) = failed_requests s + 1
      /\ successful_requests (fst out) = successful_requests s).
Proof.
  intros Hj Herr Hok.
  assert (Hfail : forall k, (k < j)%nat -> forall t,
             iteration py_int k (env k) t = (t, Returned Continue)).
  { intros k Hk t. destruct (Herr k Hk) as (r & txt & Hreq & H200 & H429 & Htxt).
    unfold iteration, try_body. rewrite Hreq.
    replace (status r =? 200) with false by (symmetry; apply Z.eqb_neq; exact H200).
    replace (status r =? 429) with false by (symmetry; apply Z.eqb_neq; exact H429).
    rewrite Htxt. reflexivity. }
  assert (Hsucc : (j < 3)%nat -> forall t,
             iteration py_int j (env j) t
             = (incr_successful_requests t, Returned (Return d))).
  { intros Hlt t. destruct (Hok Hlt) as (r & Hreq & H200 & Hj').
    unfold iteration, try_body. rewrite Hreq, H200, Hj'. reflexivity. }
  unfold make_request. cbn [attempts_loop].
  destruct j as [|[|[|[|j]]]]; try lia.
  - rewrite Hsucc by lia. cbn. split; [reflexivity|]. split; [auto | lia].
  - rewrite Hfail by lia. rewrite Hsucc by lia. cbn.
    split; [reflexivity|]. split; [auto | lia].
  - rewrite !Hfail by lia. rewrite Hsucc by lia. cbn.
    split; [reflexivity|]. split; [auto | lia].
  - rewrite !Hfail by lia. cbn. split; [reflexivity|]. split; [lia | auto].
Qed.

(** X12. [make_request] retries an error status at once: when its first
    j <= 3 attempts are answered with statuses other than 200 and 429
    (client errors included) and readable bodies, it does not sleep between
    them; if the next attempt (j < 3) is answered 200 with a readable body
    it returns that body and records no failure, and if j = 3 it returns the
    'error' dictionary and records one failure. *)
Theorem demo_client_retries_error_statuses_at_once (env : nat -> result response)
  (j : nat) (d : dict) (s : stats) :
  (j <= 3)%nat ->
  (forall k, (k < j)%nat ->
             exists r txt, env k = Returned r /\ status r <> 200 /\ status r <> 429
                           /\ text r = Returned txt) ->
  ((j < 3)%nat -> exists r, env j = Returned r /\ status r = 200 /\ json r = Returned d) ->
  let out := make_request py_int env s in
  sleeps (fst out) = sleeps s
  /\ ((j < 3)%nat ->
      snd out = Returned d
      /\ failed_requests (fst out) = failed_requests s
      /\ successful_requests (fst out) = successful_requests s + 1)
  /\ (j = 3%nat ->
      snd out = Returned [("error"%string, PStr "Request failed after 3 attempts")]
      /\ failed_requests (fst out) = failed_requests s + 1
      /\ successful_requests (fst out) = successful_requests s).
Proof. exact (demo_error_statuses_spec env j d s). Qed.

Lemma make_request_frame (env : nat -> result response) (s : stats) :
  let out := make_request py_int env s in
  total_requests (fst out) = total_requests s + 1
  /\ events_created (fst out) = events_created s
  /\ 0 <= successful_requests (fst out) - successful_requests s
  /\ (Suite.is_success (snd out) = true ->
      1 <= successful_requests (fst out) - successful_requests s).
Proof.
  unfold make_request.
  pose proof (demo_attempts_loop_spec env 3 0 (incr_total_requests s)) as H. cbv zeta in H.
  destruct (attempts_loop py_int env 3 0 (incr_total_requests s)) as [s1 [[d|]|e]];
    cbn [fst snd] in H |- *; destruct H as (Ht & Hf & He & Hs & Hc);
    cbn in Ht, Hf, He, Hs; cbn.
  - destruct Hc as (H1 & _). cbn in H1. repeat (split; [lia|]). intros _. lia.
  - repeat (split; [lia|]). discriminate.
  - repeat (split; [lia|]). discriminate.
Qed.

(** One call of [create_event]: events_created goes up exactly when the
    result is a dictionary without the key 'error'. *)
Lemma demo_create_event_spec (env : nat -> result response) (s : stats) :
  let out := create_event py_int env s in
  total_requests (fst out) = total_requests s + 1
  /\ events_created (fst out)
     = events_created s + (if Suite.is_success (snd out) then 1 else 0)
  /\ events_created (fst out) - events_created s
     <= successful_requests (fst out) - successful_requests s.
Proof.
  unfold create_event.
  pose proof (make_request_frame env s) as H. cbv zeta in H.
  destruct (make_request py_int env s) as [s1 [d|e]]; cbn [fst snd] in H |- *;
    destruct H as (Ht & He & Hs & Hsucc).
  - unfold Suite.is_success in *.
    destruct (has_key "error" d) eqn:E; cbn [fst snd]; rewrite E; cbn [negb] in *.
    + repeat (split; [lia|]). lia.
    + specialize (Hsucc eq_refl). cbn. repeat (split; [lia|]). lia.
  - cbn. repeat (split; [lia|]). lia.
Qed.

Lemma gather_create_events_spec (envs : list (nat -> result response)) :
  forall s : stats,
  let out := gather_create_events py_int envs s in
  total_requests (fst out) = total_requests s + Z.of_nat (List.length envs)
  /\ events_created (fst out) = events_created s + Suite.count_successful (snd out)
  /\ 0 <= Suite.count_successful (snd out) <= Z.of_nat (List.length envs)
  /\ events_created (fst out) - events_created s
     <= successful_requests (fst out) - successful_requests s.
Proof.
  induction envs as [|env envs IH]; intros s; cbn [gather_create_events].
  - unfold Suite.count_successful. cbn. lia.
  - pose proof (demo_create_event_spec env s) as H. cbv zeta in H.
    destruct (create_event py_int env s) as [s1 r]. cbn [fst snd] in H.
    specialize (IH s1). cbv zeta in IH.
    destruct (gather_create_events py_int envs s1) as [s2 rs]. cbn [fst snd] in IH |- *.
    unfold Suite.count_successful in *. cbn [filter List.length].
    destruct (Suite.is_success r); cbn [List.length]; lia.
Qed.

(** X13. After a batch of [create_event] tasks gathered with
    return_exceptions=True, total_requests has gone up by the number of
    tasks (a task that raised included); every result that the demos count
    as successful, a dictionary without the key 'error', has been counted in
    events_created; and events_created has gone up by no more than
    successful_requests, nor by more than the number of tasks. *)
Theorem events_created_counts_the_successful_results
  (envs : list (nat -> result response)) (s : stats) :
  let out := gather_create_events py_int envs s in
  total_requests (fst out) = total_requests s + Z.of_nat (List.length envs)
  /\ 0 <= Suite.count_successful (snd out)
  /\ Suite.count_successful (snd out) <= events_created (fst out) - events_created s
  /\ events_created (fst out) - events_created s
     <= successful_requests (fst out) - successful_requests s
  /\ events_created (fst out) - events_created s <= Z.of_nat (List.length envs).
Proof.
  pose proof (gather_create_events_spec envs s) as H. cbv zeta in H |- *.
  destruct H as (Ht & He & Hc & Hs). repeat (split; [lia|]). lia.
Qed.

Lemma gather_create_events_app (envs1 envs2 : list (nat -> result response)) :
  forall s : stats,
  fst (gather_create_events py_int (envs1 ++ envs2) s)
  = fst (gather_create_events py_int envs2 (fst (gather_create_events py_int envs1 s))).
Proof.
  induction envs1 as [|env envs1 IH]; intros s; cbn [gather_create_events app].
  - reflexivity.
  - destruct (create_event py_int env s) as [s1 r]. specialize (IH s1).
    destruct (gather_create_events py_int (envs1 ++ envs2) s1) as [s2 rs].
    destruct (gather_create_events py_int envs1 s1) as [s3 rs3].
    cbn [fst] in IH |- *. exact IH.
Qed.

(** Batch after batch, the loop does what one gather of all the events
    would do to the statistics. *)
Lemma run_bulk_spec (net : nat -> nat -> result response) (first : nat)
  (steps : list bulk_step) :
  forall (s : stats) (pauses : list Q),
  run_bulk py_int net first steps s pauses
  = (fst (gather_create_events py_int
            (map (fun i => net (first + i)%nat) (bulk_indices steps)) s),
     pauses ++ bulk_pauses steps).
Proof.
  induction steps as [|[l|d] steps IH]; intros s pauses; cbn [run_bulk].
  - cbn. now rewrite app_nil_r.
  - unfold bulk_indices, bulk_pauses in *. cbn [flat_map app].
    rewrite map_app, gather_create_events_app.
    destruct (gather_create_events py_int (map (fun i => net (first + i)%nat) l) s)
      as [s1 rs]. cbn [fst]. apply IH.
  - unfold bulk_indices, bulk_pauses in *. cbn [flat_map app].
    rewrite IH, <- app_assoc. reflexivity.
Qed.

Lemma slice_chunk {A : Type} (l : list A) (batch_size k : Z) :
  0 < batch_size -> 0 <= k ->
  Perf.py_slice l (k * batch_size) (Z.min (k * batch_size + batch_size) (Perf.len l))
  = firstn (Z.to_nat (Z.min batch_size (Perf.len l - k * batch_size)))
      (skipn (Z.to_nat (k * batch_size)) l).
Proof.
  intros HB Hk. unfold Perf.py_slice.
  assert (Hlen : 0 <= Perf.len l) by (unfold Perf.len; lia).
  assert (Hs : 0 <= k * batch_size) by nia.
  replace (k * batch_size <? 0) with false by (symmetry; apply Z.ltb_ge; lia).
  replace (Z.min (k * batch_size + batch_size) (Perf.len l) <? 0) with false
    by (symmetry; apply Z.ltb_ge; lia).
  destruct (Z.le_gt_cases (k * batch_size) (Perf.len l)) as [Hle | Hgt].
  - rewrite (Z.min_l (k * batch_size)) by lia. f_equal. lia.
  - rewrite (Z.min_r (k * batch_size)) by lia.
    rewrite !skipn_all2 by (unfold Perf.len in *; lia). now rewrite !firstn_nil.
Qed.

Lemma bulk_schedule_prefix (events : list nat) (nb : Z) (m : nat) :
  let steps :=
    flat_map
      (fun batch_num =>
         Batch (Perf.py_slice events (batch_num * 10)
                  (Z.min (batch_num * 10 + 10) (Perf.len events)))
         :: (if batch_num <? nb - 1 then [Pause (1 # 10)] else []))
      (map Z.of_nat (seq 0 m)) in
  bulk_indices steps = firstn (Z.to_nat (Z.of_nat m * 10)) events
  /\ bulk_pauses steps = repeat (1 # 10)%Q (Nat.min m (Z.to_nat (nb - 1))).
Proof.
  cbv zeta. unfold bulk_indices, bulk_pauses. induction m as [|m (IHi & IHp)].
  - split; reflexivity.
  - rewrite seq_S, !map_app, !flat_map_app, IHi, IHp. cbn [seq map flat_map Nat.add app].
    split.
    + rewrite app_nil_r, slice_chunk by lia.
      destruct (Z.of_nat m <? nb - 1); cbn [app]; rewrite ?app_nil_r;
        rewrite firstn_then_more;
        (assert (Hlen : 0 <= Perf.len events) by (unfold Perf.len; lia));
        (destruct (Z.le_gt_cases (Z.of_nat m * 10 + 10) (Perf.len events));
         [f_equal; nia
         | rewrite !firstn_all2; [reflexivity | unfold Perf.len in *; nia
                                  | unfold Perf.len in *; nia]]).
    + destruct (Z.of_nat m <? nb - 1) eqn:E;
        [apply Z.ltb_lt in E | apply Z.ltb_ge in E]; cbn [app]; rewrite ?app_nil_r.
      * replace (Nat.min (S m) (Z.to_nat (nb - 1))) with (S (Nat.min m (Z.to_nat (nb - 1))))
          by lia.
        rewrite <- repeat_cons. reflexivity.
      * f_equal. lia.
Qed.

Lemma bulk_creation_facts (net : nat -> nat -> result response)
  (first : nat) (event_count : Z) (s : stats) :
  let n := Z.to_nat event_count in
  let out := demo_bulk_event_creation py_int net first event_count s in
  let all := gather_create_events py_int (map (fun i => net (first + i)%nat) (seq 0 n)) s in
  fst (fst out) = fst all
  /\ snd out = (if event_count =? 0
                then Raised (Exn OtherException "division by zero")
                else Returned (events_created (fst all)))
  /\ events_created (fst all) = events_created s + Suite.count_successful (snd all)
  /\ events_created s <= events_created (fst all) <= events_created s + Z.of_nat n
  /\ total_requests (fst all) = total_requests s + Z.of_nat n
  /\ snd (fst out)
     = repeat (1 # 10)%Q (Z.to_nat (Perf.total_batches (Z.of_nat n) 10 - 1)).
Proof.
  intros n out all. subst n out all. unfold demo_bulk_event_creation.
  rewrite run_bulk_spec. cbn [fst snd app].
  unfold bulk_schedule. cbv zeta.
  assert (Hlen : Perf.len (seq 0 (Z.to_nat event_count)) = Z.of_nat (Z.to_nat event_count))
    by (unfold Perf.len; rewrite length_seq; reflexivity).
  pose proof (bulk_schedule_prefix (seq 0 (Z.to_nat event_count))
                (Perf.total_batches (Perf.len (seq 0 (Z.to_nat event_count))) 10)
                (Z.to_nat (Perf.total_batches (Perf.len (seq 0 (Z.to_nat event_count))) 10)))
    as (Hi & Hp).
  rewrite Hi, Hp. clear Hi Hp.
  pose proof (total_batches_ceiling (Perf.len (seq 0 (Z.to_nat event_count))) 10 ltac:(lia))
    as Hceil.
  pose proof (total_batches_nonneg (Perf.len (seq 0 (Z.to_nat event_count))) 10
                ltac:(lia) ltac:(lia)) as Hnb.
  rewrite Hlen in *.
  rewrite firstn_all2 by (rewrite length_seq; lia).
  pose proof (gather_create_events_spec
                (map (fun i => net (first + i)%nat) (seq 0 (Z.to_nat event_count))) s) as H.
  cbv zeta in H. rewrite length_map, length_seq in H.
  destruct (gather_create_events py_int
              (map (fun i => net (first + i)%nat) (seq 0 (Z.to_nat event_count))) s)
    as [sg rs].
  cbn [fst snd] in H |- *. destruct H as (Ht & He & Hc & _).
  split; [reflexivity|]. split; [reflexivity|]. split; [exact He|].
  split; [lia|]. split; [exact Ht|].
  f_equal. lia.
Qed.


(** What the first and the third demo do to the counters. *)
Lemma demo_cross_platform_sync_spec (net : nat -> nat -> result response) (first : nat)
  (s : stats) :
  let out := demo_cross_platform_sync py_int cross_platform_events net first s in
  total_requests (fst out) = total_requests s + 6
  /\ match snd out with
     | Returned platform =>
         events_created (fst out) = events_created s + platform /\ 0 <= platform <= 5
     | Raised _ => True
     end.
Proof.
  unfold demo_cross_platform_sync.
  pose proof (gather_create_events_spec (map net (seq first 5)) s) as Hp. cbv zeta in Hp.
  destruct (gather_create_events py_int (map net (seq first 5)) s) as [s1 rs].
  cbn [fst snd] in Hp. rewrite length_map, length_seq in Hp.
  destruct Hp as (Ht & He & Hc & _).
  pose proof (make_request_frame (net (first + 5)%nat) s1) as H. cbv zeta in H.
  destruct (make_request py_int (net (first + 5)%nat) s1) as [s2 [d|e]];
    cbn [fst snd] in H |- *; destruct H as (Ht2 & He2 & _).
  - destruct (has_key "events" d); [destruct (cross_platform_events d)|];
      cbn [fst snd]; (split; [lia|]); try exact I; split; lia.
  - split; [lia | exact I].
Qed.

Lemma demo_network_resilience_spec (net : nat -> nat -> result response) (first : nat)
  (rapid_duration : Q) (s : stats) :
  let out := demo_network_resilience py_int net first rapid_duration s in
  total_requests (fst out) = total_requests s + 25
  /\ match snd out with
     | Returned resilience =>
         events_created (fst out) = events_created s + resilience
         /\ 0 <= resilience <= 25
         /\ Qeq_bool rapid_duration 0 = false
     | Raised e =>
         Qeq_bool rapid_duration 0 = true
         /\ e = Exn OtherException "float division by zero"
     end.
Proof.
  unfold demo_network_resilience.
  pose proof (gather_create_events_spec (map net (seq first 5)) s) as H1. cbv zeta in H1.
  destruct (gather_create_events py_int (map net (seq first 5)) s) as [s1 rs1].
  cbn [fst snd] in H1. rewrite length_map, length_seq in H1.
  destruct H1 as (Ht1 & He1 & Hc1 & _).
  pose proof (gather_create_events_spec (map net (seq (first + 5) 20)) s1) as H2.
  cbv zeta in H2.
  destruct (gather_create_events py_int (map net (seq (first + 5) 20)) s1) as [s2 rs2].
  cbn [fst snd] in H2. rewrite length_map, length_seq in H2.
  destruct H2 as (Ht2 & He2 & Hc2 & _).
  destruct (Qeq_bool rapid_duration 0); cbn [fst snd].
  - split; [lia|]. split; reflexivity.
  - split; [lia|]. split; [lia|]. split; [lia | reflexivity].
Qed.

(** X15. When [main] reaches its summary, the 'Total events created' it
    prints is the client's events_created plus the number of events created
    by the multi-platform demo: the bulk demo returns the running total, in
    which those events are already counted. By then the client has made 134
    requests. *)
Theorem main_counts_the_platform_events_twice (net : nat -> nat -> result response)
  (rapid_duration : Q) :
  let out := main py_int cross_platform_events net rapid_duration in
  match snd out with
  | Returned sm =>
      total_events sm = events_created (fst out) + platform_events sm
      /\ total_events sm = platform_events sm + bulk_events sm + resilience_events sm
      /\ platform_events sm <= bulk_events sm
      /\ 0 <= platform_events sm <= 5
      /\ total_requests (fst out) = 134
  | Raised _ => True
  end.
Proof.
  unfold main.
  pose proof (make_request_frame (net 0%nat) initial_stats) as H0. cbv zeta in H0.
  destruct (make_request py_int (net 0%nat) initial_stats) as [s0 [d0|e0]];
    cbn [fst snd] in H0 |- *; [|exact I]. destruct H0 as (Ht0 & He0 & _).
  pose proof (make_request_frame (net 1%nat) s0) as H1. cbv zeta in H1.
  destruct (make_request py_int (net 1%nat) s0) as [s1 [d1|e1]];
    cbn [fst snd] in H1 |- *; [|exact I]. destruct H1 as (Ht1 & He1 & _).
  pose proof (make_request_frame (net 2%nat) s1) as H2. cbv zeta in H2.
  destruct (make_request py_int (net 2%nat) s1) as [s2 [d2|e2]];
    cbn [fst snd] in H2 |- *; [|exact I]. destruct H2 as (Ht2 & He2 & _).
  pose proof (demo_cross_platform_sync_spec net 3 s2) as H3. cbv zeta in H3.
  destruct (demo_cross_platform_sync py_int cross_platform_events net 3 s2)
    as [s3 [platform|e3]]; cbn [fst snd] in H3 |- *; [|exact I].
  destruct H3 as (Ht3 & He3 & Hc3).
  pose proof (bulk_creation_facts net 9 100 s3) as Hb. cbv zeta in Hb.
  destruct (demo_bulk_event_creation py_int net 9 100 s3) as [[s4 pauses] bulk].
  cbn [fst snd] in Hb. destruct Hb as (Hs4 & Hb0 & _ & Hb1 & Hb2 & _).
  change (100 =? 0) with false in Hb0. cbv iota in Hb0. subst bulk.
  rewrite <- Hs4 in Hb1, Hb2 |- *.
  pose proof (demo_network_resilience_spec net 109 rapid_duration s4) as H5.
  cbv zeta in H5.
  destruct (demo_network_resilience py_int net 109 rapid_duration s4)
    as [s5 [resilience|e5]]; cbn [fst snd] in H5 |- *; [|exact I].
  destruct H5 as (Ht5 & He5 & Hc5 & _).
  cbn [fst snd total_events platform_events bulk_events resilience_events] in *.
  cbn in Ht0, He0. lia.
Qed.

End DemoFacts.

(** ** The performance tester: samples, edge cases and the report *)

Section PerfReportFacts.
Import Perf PerfReport.

Variable py_int : string -> option Z.

Lemma len_app_one {A : Type} (l : list A) (x : A) : len (l ++ [x]) = len l + 1.
Proof. unfold len. rewrite length_app. cbn. lia. Qed.

Lemma create_single_event_accounted (env : nat -> attempt_io) (slots : nat) :
  forall (attempt : nat) (event_data : event) (event_id : Z) (t : tester),
  accounted t ->
  accounted (fst (create_single_event py_int slots env attempt event_data event_id t)).
Proof.
  unfold accounted.
  induction slots as [|slots IH]; intros attempt event_data event_id t Ht.
  - exact Ht.
  - cbn [create_single_event]. unfold except_clause.
    destruct (post (env attempt)) as [r|e].
    + destruct (status r =? 200).
      { destruct (json r); cbn; rewrite ?len_app_one; lia. }
      destruct (status r =? 429).
      { destruct (retry_after_of py_int r) as [n|e].
        - apply IH. cbn. rewrite len_app_one. lia.
        - cbn. rewrite !len_app_one. lia. }
      destruct (text r); cbn; rewrite ?len_app_one; lia.
    + cbn. rewrite len_app_one. lia.
Qed.

Lemma gather_accounted (env : Z -> nat -> attempt_io) (slots : nat) (start_idx : Z)
  (batch_events : list event) :
  forall (i : nat) (t t' : tester),
  accounted t ->
  gather py_int slots env start_idx i batch_events t = Some t' -> accounted t'.
Proof.
  induction batch_events as [|ev rest IH]; intros i t t' Ht; cbn [gather].
  - intros H; inversion H; subst; exact Ht.
  - pose proof (create_single_event_accounted (env (start_idx + Z.of_nat i)) slots 0 ev
                  (start_idx + Z.of_nat i) t Ht) as H1.
    destruct (create_single_event py_int slots (env (start_idx + Z.of_nat i)) 0 ev
                (start_idx + Z.of_nat i) t) as [t1 [d|]]; [|discriminate].
    cbn [fst] in H1. apply IH. exact H1.
Qed.

Lemma run_steps_accounted (env : Z -> nat -> attempt_io) (slots : nat) (steps : list step) :
  forall (t t' : tester),
  accounted t -> run_steps py_int slots env steps t = Some t' -> accounted t'.
Proof.
  induction steps as [|[start_idx b | d] steps IH]; intros t t' Ht; cbn [run_steps].
  - intros H; inversion H; subst; exact Ht.
  - destruct (gather py_int slots env start_idx 0 b t) as [t1|] eqn:E; [|discriminate].
    apply IH. eapply gather_accounted; eassumption.
  - apply IH. exact Ht.
Qed.

(** A call, a batch and a run leave total_events alone. *)
Lemma create_single_event_total_events (env : nat -> attempt_io) (slots : nat) :
  forall (attempt : nat) (event_data : event) (event_id : Z) (t : tester),
  total_events
    (metrics (fst (create_single_event py_int slots env attempt event_data event_id t)))
  = total_events (metrics t).
Proof.
  induction slots as [|slots IH]; intros attempt event_data event_id t.
  - reflexivity.
  - cbn [create_single_event]. unfold except_clause.
    destruct (post (env attempt)) as [r|e]; [|reflexivity].
    destruct (status r =? 200); [destruct (json r); reflexivity|].
    destruct (status r =? 429).
    { destruct (retry_after_of py_int r); [|reflexivity]. rewrite IH. reflexivity. }
    destruct (text r); reflexivity.
Qed.

Lemma gather_total_events (env : Z -> nat -> attempt_io) (slots : nat) (start_idx : Z)
  (batch_events : list event) :
  forall (i : nat) (t t' : tester),
  gather py_int slots env start_idx i batch_events t = Some t' ->
  total_events (metrics t') = total_events (metrics t).
Proof.
  induction batch_events as [|ev rest IH]; intros i t t'; cbn [gather].
  - intros H; inversion H; reflexivity.
  - pose proof (create_single_event_total_events (env (start_idx + Z.of_nat i)) slots 0 ev
                  (start_idx + Z.of_nat i) t) as H1.
    destruct (create_single_event py_int slots (env (start_idx + Z.of_nat i)) 0 ev
                (start_idx + Z.of_nat i) t) as [t1 [d|]]; [|discriminate].
    cbn [fst] in H1. intros H. apply IH in H. congruence.
Qed.

Lemma run_steps_total_events (env : Z -> nat -> attempt_io) (slots : nat)
  (steps : list step) :
  forall (t t' : tester),
  run_steps py_int slots env steps t = Some t' ->
  total_events (metrics t') = total_events (metrics t).
Proof.
  induction steps as [|[start_idx b | d] steps IH]; intros t t'; cbn [run_steps].
  - intros H; inversion H; reflexivity.
  - destruct (gather py_int slots env start_idx 0 b t) as [t1|] eqn:E; [|discriminate].
    intros H. apply IH in H. apply gather_total_events in E. congruence.
  - intros H. apply IH in H. exact H.
Qed.

(** X16. Every latency sample is matched by one increment of a counter: when
    a run completes, the number of samples in response_times is
    successful_events + failed_events + rate_limited_requests, whatever the
    answers were (exceptions after a response included), and total_events is
    max(0, event_count). *)
Theorem samples_match_the_counters (env : Z -> nat -> attempt_io) (slots : nat)
  (rd : readings) (event_count batch_size : Z) (t : tester) :
  match run_performance_test py_int slots env rd event_count batch_size t with
  | Returned (Some t') =>
      len (response_times t')
      = successful_events (metrics t') + failed_events (metrics t')
        + rate_limited_requests (metrics t')
      /\ total_events (metrics t') = Z.max 0 event_count
  | _ => True
  end.
Proof.
  unfold run_performance_test.
  destruct (batch_size =? 0); [exact I|].
  destruct (run_steps _ _ _ _ _) as [t1|] eqn:E; [|exact I].
  assert (Hinit : accounted
                    (Tester (set_total_events (len (generate_test_events event_count))
                               default_metrics) [] (sleeps t))) by reflexivity.
  pose proof (run_steps_accounted _ _ _ _ _ Hinit E) as Hacc.
  apply run_steps_total_events in E.
  cbn [metrics response_times final_metrics total_events successful_events failed_events
       rate_limited_requests].
  split; [exact Hacc|].
  rewrite E. cbn. unfold len, generate_test_events. rewrite length_map, length_seq. lia.
Qed.

End PerfReportFacts.

(** ** The performance tester at its edges: no events, a negative batch size *)

Section PerfEdgeFacts.
Import Perf PerfReport.

Variable py_int : string -> option Z.

Lemma py_slice_nil {A : Type} (start stop : Z) : py_slice (@nil A) start stop = [].
Proof. unfold py_slice. rewrite skipn_nil. apply firstn_nil. Qed.

(** A slice of a list of at most one element that stops at a negative index
    is empty. *)
Lemma py_slice_short {A : Type} (l : list A) (start stop : Z) :
  len l <= 1 -> stop < 0 -> py_slice l start stop = [].
Proof.
  intros Hl Hs. unfold py_slice. cbv zeta.
  assert (0 <= len l) by (unfold len; lia).
  match goal with |- firstn ?n _ = _ => replace n with O end; [reflexivity|].
  destruct (Z.ltb_spec stop 0); [|lia].
  destruct (Z.ltb_spec start 0); lia.
Qed.

Lemma run_steps_nothing (env : Z -> nat -> attempt_io) (slots : nat) (steps : list step) :
  Forall gathers_nothing steps ->
  forall t : tester,
  exists t', run_steps py_int slots env steps t = Some t'
             /\ metrics t' = metrics t /\ response_times t' = response_times t.
Proof.
  induction 1 as [|[start_idx b|d] steps Hst Hsteps IH]; intros t; cbn [run_steps].
  - exists t; auto.
  - cbn in Hst; subst b. cbn [gather]. apply IH.
  - destruct (IH (asyncio_sleep BatchPause d t)) as (t' & H1 & H2 & H3).
    exists t'; auto.
Qed.

Lemma schedule_of_no_events (batch_size : Z) :
  Forall gathers_nothing (schedule [] batch_size).
Proof.
  unfold schedule. apply Forall_flat_map. apply Forall_forall. intros k _.
  unfold batch_steps. constructor.
  - apply py_slice_nil.
  - destruct (_ <? _); repeat constructor.
Qed.

Lemma schedule_negative_batch (events : list event) (batch_size : Z) :
  batch_size < 0 -> Forall gathers_nothing (schedule events batch_size).
Proof.
  intros Hb. unfold schedule.
  destruct (Z_le_gt_dec (len events) 1) as [Hn|Hn].
  - apply Forall_flat_map. apply Forall_forall. intros k Hk.
    apply in_map_iff in Hk. destruct Hk as (j & <- & _).
    unfold batch_steps. constructor.
    + apply py_slice_short; [exact Hn|]. nia.
    + destruct (_ <? _); repeat constructor.
  - replace (Z.to_nat (total_batches (len events) batch_size)) with O; [constructor|].
    unfold total_batches.
    pose proof (Z.div_mod (len events + batch_size - 1) batch_size ltac:(lia)) as Hdm.
    pose proof (Z.mod_neg_bound (len events + batch_size - 1) batch_size Hb) as Hmod.
    assert ((len events + batch_size - 1) / batch_size <= 0) by nia.
    lia.
Qed.

Lemma run_of_nothing (env : Z -> nat -> attempt_io) (slots : nat) (rd : readings)
  (event_count batch_size : Z) (t : tester) :
  batch_size <> 0 ->
  Forall gathers_nothing (schedule (generate_test_events event_count) batch_size) ->
  exists t',
    run_performance_test py_int slots env rd event_count batch_size t = Returned (Some t')
    /\ total_events (metrics t') = Z.max 0 event_count
    /\ successful_events (metrics t') = 0
    /\ failed_events (metrics t') = 0
    /\ rate_limited_requests (metrics t') = 0
    /\ response_times t' = [].
Proof.
  intros Hb Hs. unfold run_performance_test.
  destruct (Z.eqb_spec batch_size 0) as [|_]; [contradiction|].
  destruct (run_steps_nothing env slots _ Hs
              (Tester (set_total_events (len (generate_test_events event_count))
                         default_metrics) [] (sleeps t))) as (t1 & -> & Hm & Hr).
  eexists. split; [reflexivity|].
  cbn [metrics response_times final_metrics total_events successful_events failed_events
       rate_limited_requests].
  rewrite Hm, Hr. cbn.
  repeat split.
  unfold len, generate_test_events. rewrite length_map, length_seq. lia.
Qed.

(** X17. With a negative batch size [run_performance_test] starts no task at
    all and still returns normally: no request is counted as successful,
    failed or rate limited and no latency is sampled, while total_events is
    max(0, event_count). *)
Theorem negative_batch_size_attempts_nothing (env : Z -> nat -> attempt_io) (slots : nat)
  (rd : readings) (event_count batch_size : Z) (t : tester) :
  batch_size < 0 ->
  exists t',
    run_performance_test py_int slots env rd event_count batch_size t = Returned (Some t')
    /\ total_events (metrics t') = Z.max 0 event_count
    /\ successful_events (metrics t') = 0
    /\ failed_events (metrics t') = 0
    /\ rate_limited_requests (metrics t') = 0
    /\ response_times t' = [].
Proof.
  intros Hb. apply run_of_nothing; [lia|]. now apply schedule_negative_batch.
Qed.

(** X18. A run over no events (event_count <= 0, batch_size <> 0) returns
    metrics with total_events = 0, and [print_performance_report] of these
    metrics raises: its success rate divides by total_events. *)
Theorem empty_run_cannot_be_reported (env : Z -> nat -> attempt_io) (slots : nat)
  (rd : readings) (event_count batch_size : Z) (t : tester) :
  event_count <= 0 ->
  batch_size <> 0 ->
  exists t',
    run_performance_test py_int slots env rd event_count batch_size t = Returned (Some t')
    /\ total_events (metrics t') = 0
    /\ response_times t' = []
    /\ print_performance_report (metrics t')
       = Raised (Exn OtherException "division by zero").
Proof.
  intros Hc Hb.
  assert (Hev : generate_test_events event_count = []).
  { unfold generate_test_events. replace (Z.to_nat event_count) with O by lia. reflexivity. }
  destruct (run_of_nothing env slots rd event_count batch_size t Hb) as (t' & Hrun & Ht & _ & _ & _ & Hr).
  { rewrite Hev. apply schedule_of_no_events. }
  exists t'. split; [exact Hrun|].
  assert (Hz : total_events (metrics t') = 0) by lia.
  split; [exact Hz|]. split; [exact Hr|].
  unfold print_performance_report, success_rate. rewrite Hz. reflexivity.
Qed.

End PerfEdgeFacts.

(** ** The generated events *)

Section GeneratedEventsFacts.
Import Perf PerfReport.

Lemma nth_error_generate_test_events (count : Z) (i : nat) :
  Z.of_nat i < count ->
  nth_error (generate_test_events count) i = Some (test_event i).
Proof.
  intros Hi. unfold generate_test_events.
  rewrite nth_error_map.
  rewrite (nth_error_nth' _ O) by (rewrite length_seq; lia).
  rewrite seq_nth by lia. reflexivity.
Qed.

Lemma test_event_in_range (base_time : Z) (i : nat) :
  let e := test_event i in
  number e = Z.of_nat i + 1
  /\ days e = Z.of_nat i / 20
  /\ 9 <= hours e <= 16
  /\ In (minutes e) [0; 15; 30; 45]
  /\ In (duration_minutes e) durations
  /\ In (title_type e) event_types
  /\ base_time + (days e * 1440 + 540) * 60000000 <= start_time base_time e
     <= base_time + (days e * 1440 + 1005) * 60000000.
Proof.
  unfold start_time, start_minutes.
  cbn [test_event number days hours minutes duration_minutes title_type].
  pose proof (Z.mod_pos_bound (Z.of_nat i) 8 ltac:(lia)) as H8.
  pose proof (Z.mod_pos_bound (Z.of_nat i) 4 ltac:(lia)) as H4.
  split; [reflexivity|].
  split; [reflexivity|].
  split; [lia|].
  split.
  { assert (Hc : Z.of_nat i mod 4 = 0 \/ Z.of_nat i mod 4 = 1
                 \/ Z.of_nat i mod 4 = 2 \/ Z.of_nat i mod 4 = 3) by lia.
    destruct Hc as [-> | [-> | [-> | ->]]]; cbn; auto. }
  split; [apply nth_In; cbn [List.length durations]; apply Nat.mod_upper_bound; discriminate|].
  split; [apply nth_In; cbn [List.length event_types]; apply Nat.mod_upper_bound;
          discriminate|].
  lia.
Qed.

(** X19. [generate_test_events(count)] returns max(0, count) events. The
    event at index i is numbered i + 1 and is titled with one of the five
    event types; it lasts 30, 60, 90 or 120 minutes; and its start is
    base_time plus an offset of i // 20 days, 9 to 16 hours and 0, 15, 30 or
    45 minutes. These are offsets from base_time, the time of the call plus
    30 days, not times of day: the event starts between 9 h and 16 h 45 min
    after base_time + i // 20 days, at whatever time of day that falls. *)
Theorem generated_events_are_in_range (base_time count : Z) :
  len (generate_test_events count) = Z.max 0 count
  /\ (forall (i : nat) (e : event),
        nth_error (generate_test_events count) i = Some e ->
        number e = Z.of_nat i + 1
        /\ days e = Z.of_nat i / 20
        /\ 9 <= hours e <= 16
        /\ In (minutes e) [0; 15; 30; 45]
        /\ In (duration_minutes e) durations
        /\ In (title_type e) event_types
        /\ base_time + (days e * 1440 + 540) * 60000000 <= start_time base_time e
           <= base_time + (days e * 1440 + 1005) * 60000000).
Proof.
  split.
  - unfold len, generate_test_events. rewrite length_map, length_seq. lia.
  - intros i e He.
    assert (Hi : Z.of_nat i < count).
    { assert (Hl : (i < List.length (generate_test_events count))%nat)
        by (apply nth_error_Some; congruence).
      unfold generate_test_events in Hl. rewrite length_map, length_seq in Hl. lia. }
    rewrite nth_error_generate_test_events in He by exact Hi.
    inversion He; subst e. apply test_event_in_range.
Qed.

(** X20. The generated events are not free of conflicts: an event that is
    among the first twelve of its day and the event generated eight places
    later start at the same minute of the same day and last equally long. *)
Theorem generated_events_collide (count : Z) (i : nat) :
  (i mod 20 < 12)%nat ->
  Z.of_nat i + 8 < count ->
  exists e1 e2 : event,
    nth_error (generate_test_events count) i = Some e1
    /\ nth_error (generate_test_events count) (i + 8) = Some e2
    /\ number e2 = number e1 + 8
    /\ start_minutes e1 = start_minutes e2
    /\ duration_minutes e1 = duration_minutes e2.
Proof.
  intros Hday Hi.
  exists (test_event i), (test_event (i + 8)).
  split; [apply nth_error_generate_test_events; lia|].
  split; [apply nth_error_generate_test_events; lia|].
  assert (H4 : ((i + 8) mod 4 = i mod 4)%nat).
  { change 8%nat with (2 * 4)%nat. apply Nat.Div0.mod_add. }
  assert (Z8 : Z.of_nat (i + 8) mod 8 = Z.of_nat i mod 8).
  { rewrite Nat2Z.inj_add. change (Z.of_nat 8) with (1 * 8). apply Z.mod_add. lia. }
  assert (Z4 : Z.of_nat (i + 8) mod 4 = Z.of_nat i mod 4).
  { rewrite Nat2Z.inj_add. change (Z.of_nat 8) with (2 * 4). apply Z.mod_add. lia. }
  assert (Z20 : Z.of_nat (i + 8) / 20 = Z.of_nat i / 20).
  { assert (Hm : Z.of_nat i mod 20 < 12).
    { change 20 with (Z.of_nat 20). rewrite <- Nat2Z.inj_mod. lia. }
    pose proof (Z.div_mod (Z.of_nat i) 20 ltac:(lia)) as Hdm.
    pose proof (Z.mod_pos_bound (Z.of_nat i) 20 ltac:(lia)) as Hb.
    symmetry. apply (Z.div_unique _ _ _ (Z.of_nat i mod 20 + 8)); lia. }
  unfold start_minutes.
  cbn [test_event number days hours minutes duration_minutes].
  rewrite H4, Z8, Z4, Z20. repeat split; lia.
Qed.

End GeneratedEventsFacts.

(** ** The latency statistics *)

Section StatisticsFacts.
Import Perf PerfReport.

Variable py_int : string -> option Z.

Lemma Qlt_bool_true (a b : Q) : Qlt_bool a b = true -> (a < b)%Q.
Proof.
  unfold Qlt_bool. intros H. apply Qnot_le_lt. intros Hle.
  apply Qle_bool_iff in Hle. rewrite Hle in H. discriminate.
Qed.

Lemma Qlt_bool_false (a b : Q) : Qlt_bool a b = false -> (b <= a)%Q.
Proof.
  unfold Qlt_bool. intros H. apply Qle_bool_iff.
  destruct (Qle_bool b a); [reflexivity | discriminate].
Qed.

Lemma fold_min_le (l : list Q) :
  forall x : Q,
  let m := fold_left (fun m y => if Qlt_bool y m then y else m) l x in
  (m <= x)%Q /\ forall y, In y l -> (m <= y)%Q.
Proof.
  induction l as [|a l IH]; intros x; cbn [fold_left In].
  - split; [apply Qle_refl | tauto].
  - destruct (Qlt_bool a x) eqn:E.
    + destruct (IH a) as [H1 H2]. apply Qlt_bool_true in E.
      split; [lra|]. intros y [<-|Hy]; [exact H1 | auto].
    + destruct (IH x) as [H1 H2]. apply Qlt_bool_false in E.
      split; [exact H1|]. intros y [<-|Hy]; [lra | auto].
Qed.

Lemma fold_max_ge (l : list Q) :
  forall x : Q,
  let m := fold_left (fun m y => if Qlt_bool m y then y else m) l x in
  (x <= m)%Q /\ forall y, In y l -> (y <= m)%Q.
Proof.
  induction l as [|a l IH]; intros x; cbn [fold_left In].
  - split; [apply Qle_refl | tauto].
  - destruct (Qlt_bool x a) eqn:E.
    + destruct (IH a) as [H1 H2]. apply Qlt_bool_true in E.
      split; [lra|]. intros y [<-|Hy]; [exact H1 | auto].
    + destruct (IH x) as [H1 H2]. apply Qlt_bool_false in E.
      split; [exact H1|]. intros y [<-|Hy]; [lra | auto].
Qed.

Lemma py_min_le (l : list Q) (y : Q) : In y l -> (py_min l <= y)%Q.
Proof.
  destruct l as [|x l]; [intros []|]. cbn [py_min In].
  destruct (fold_min_le l x) as [H1 H2]. intros [<-|Hy]; auto.
Qed.

Lemma py_max_ge (l : list Q) (y : Q) : In y l -> (y <= py_max l)%Q.
Proof.
  destruct l as [|x l]; [intros []|]. cbn [py_max In].
  destruct (fold_max_ge l x) as [H1 H2]. intros [<-|Hy]; auto.
Qed.

Lemma inject_Z_len_cons {A : Type} (x : A) (l : list A) :
  (inject_Z (len (x :: l)) == inject_Z (len l) + 1)%Q.
Proof.
  unfold len. cbn [List.length]. rewrite Nat2Z.inj_succ. unfold Z.succ.
  rewrite inject_Z_plus. reflexivity.
Qed.

Lemma fold_sum_bounds (lo hi : Q) (l : list Q) :
  (forall y, In y l -> (lo <= y <= hi)%Q) ->
  forall a : Q,
  (a + lo * inject_Z (len l) <= fold_left Qplus l a)%Q
  /\ (fold_left Qplus l a <= a + hi * inject_Z (len l))%Q.
Proof.
  induction l as [|x l IH]; intros Hl a.
  - unfold len. cbn [List.length fold_left].
    change (inject_Z (Z.of_nat 0)) with 0%Q. split; lra.
  - cbn [fold_left].
    destruct (IH (fun y Hy => Hl y (or_intror Hy)) (a + x)%Q) as [H1 H2].
    destruct (Hl x (or_introl eq_refl)) as [Hlo Hhi].
    pose proof (inject_Z_len_cons x l) as Hlen.
    split.
    + setoid_replace (lo * inject_Z (len (x :: l)))%Q
        with (lo * inject_Z (len l) + lo)%Q by (rewrite Hlen; ring).
      lra.
    + setoid_replace (hi * inject_Z (len (x :: l)))%Q
        with (hi * inject_Z (len l) + hi)%Q by (rewrite Hlen; ring).
      lra.
Qed.

Lemma mean_bounds (lo hi : Q) (l : list Q) :
  l <> [] ->
  (forall y, In y l -> (lo <= y <= hi)%Q) ->
  (lo <= mean l <= hi)%Q.
Proof.
  intros Hne Hl. unfold mean, sum.
  destruct (fold_sum_bounds lo hi l Hl 0%Q) as [H1 H2].
  assert (Hpos : (0 < inject_Z (len l))%Q).
  { change 0%Q with (inject_Z 0). rewrite <- Zlt_Qlt. unfold len.
    destruct l; [contradiction | cbn [List.length]; lia]. }
  split.
  - apply Qle_shift_div_l; [exact Hpos | lra].
  - apply Qle_shift_div_r; [exact Hpos | lra].
Qed.

(** X21. In the metrics of a completed run that sampled at least one
    latency, min_response_time <= avg_response_time <= max_response_time, and
    every sample lies between the minimum and the maximum. *)
Theorem average_lies_between_min_and_max (env : Z -> nat -> attempt_io) (slots : nat)
  (rd : readings) (event_count batch_size : Z) (t t' : tester) :
  run_performance_test py_int slots env rd event_count batch_size t = Returned (Some t') ->
  response_times t' <> [] ->
  (min_response_time (metrics t') <= avg_response_time (metrics t'))%Q
  /\ (avg_response_time (metrics t') <= max_response_time (metrics t'))%Q
  /\ Forall (fun x => (min_response_time (metrics t') <= x)%Q
                      /\ (x <= max_response_time (metrics t'))%Q) (response_times t').
Proof.
  unfold run_performance_test.
  destruct (batch_size =? 0); [discriminate|].
  destruct (run_steps _ _ _ _ _) as [t1|]; [|discriminate].
  intros H; inversion H; subst t'; clear H.
  cbn [metrics response_times final_metrics avg_response_time min_response_time
       max_response_time].
  intros Hne.
  assert (Hlen : (len (response_times t1) =? 0) = false).
  { apply Z.eqb_neq. unfold len. destruct (response_times t1); [contradiction|].
    cbn [List.length]. lia. }
  rewrite Hlen. cbn [negb].
  assert (Hall : forall y, In y (response_times t1) ->
                 (py_min (response_times t1) <= y <= py_max (response_times t1))%Q).
  { intros y Hy. split; [now apply py_min_le | now apply py_max_ge]. }
  destruct (mean_bounds _ _ _ Hne Hall) as [H1 H2].
  split; [exact H1|]. split; [exact H2|].
  apply Forall_forall. exact Hall.
Qed.

End StatisticsFacts.

(** ** Admission: tasks that are rate limited together *)

Section LimiterStuckFacts.
Import Limiter LimiterStates.
Local Open Scope nat_scope.

Lemma nth_error_middle {A : Type} (pre : list A) (x : A) (post : list A) :
  nth_error (pre ++ x :: post) (List.length pre) = Some x.
Proof. induction pre; cbn; auto. Qed.

Lemma update_nth_middle {A : Type} (pre : list A) (x y : A) (post : list A) :
  update_nth (List.length pre) y (pre ++ x :: post) = pre ++ y :: post.
Proof. induction pre as [|z pre IH]; cbn; [reflexivity | now rewrite IH]. Qed.

Lemma repeat_snoc {A : Type} (x : A) (j : nat) (l : list A) :
  repeat x j ++ x :: l = repeat x (S j) ++ l.
Proof. induction j as [|j IH]; cbn; [reflexivity | f_equal; exact IH]. Qed.

Lemma run_app (a b : list action) (s : state) : run (a ++ b) s = run b (run a s).
Proof. unfold run. apply fold_left_app. Qed.

(** What one move does to the task it names. *)
Lemma step_admit (v h a r : nat) (pre post : list task) :
  step (State (S v) (pre ++ Task Acquiring h a r :: post)) (Admit (List.length pre))
  = State v (pre ++ Task InFlight (S h) (S a) r :: post).
Proof.
  unfold step, try_step. cbn [tasks value].
  rewrite nth_error_middle, update_nth_middle. reflexivity.
Qed.

Lemma step_answer_429 (v h a r : nat) (pre post : list task) :
  step (State v (pre ++ Task InFlight h a r :: post)) (Answer (List.length pre) true)
  = State v (pre ++ Task Sleeping h a r :: post).
Proof.
  unfold step, try_step. cbn [tasks value].
  rewrite nth_error_middle, update_nth_middle. reflexivity.
Qed.

Lemma step_wake (v h a r : nat) (pre post : list task) :
  step (State v (pre ++ Task Sleeping h a r :: post)) (Wake (List.length pre))
  = State v (pre ++ Task Acquiring h a r :: post).
Proof.
  unfold step, try_step. cbn [tasks value].
  rewrite nth_error_middle, update_nth_middle. reflexivity.
Qed.

(** The same move made for the tasks [j], [j+1], ..., [j+m-1] in turn, the
    semaphore's counter being [val m] while [m] of them are left. *)
Lemma sweep (act : nat -> action) (x y : task) (val : nat -> nat) :
  (forall (m : nat) (pre post : list task),
     step (State (val (S m)) (pre ++ x :: post)) (act (List.length pre))
     = State (val m) (pre ++ y :: post)) ->
  forall m j : nat,
  run (map act (seq j m)) (State (val m) (repeat y j ++ repeat x m))
  = State (val 0) (repeat y (j + m)).
Proof.
  intros Hstep. induction m as [|m IH]; intros j.
  - cbn [seq map repeat]. rewrite app_nil_r, Nat.add_0_r. reflexivity.
  - cbn [seq map repeat]. unfold run. cbn [fold_left].
    pose proof (Hstep m (repeat y j) (repeat x m)) as H.
    rewrite repeat_length in H. rewrite H. rewrite repeat_snoc.
    change (run (map act (seq (S j) m)) (State (val m) (repeat y (S j) ++ repeat x m))
            = State (val 0) (repeat y (j + S m))).
    rewrite IH. f_equal. f_equal. lia.
Qed.

Lemma all_waiting_step (s : state) (a : action) : all_waiting s -> step s a = s.
Proof.
  intros (Hv & Hne & Hall). unfold step, try_step.
  destruct a as [k | i | i rl | i | i].
  - destruct (tasks s) as [|t ts] eqn:E; [contradiction|].
    inversion Hall as [|t0 ts0 Ht _]; subst.
    unfold all_finished. cbn [forallb]. rewrite Ht. reflexivity.
  - rewrite Hv. destruct (nth_error (tasks s) i) as [[[] h a r]|]; reflexivity.
  - destruct (nth_error (tasks s) i) as [[p h a r]|] eqn:E; [|reflexivity].
    apply nth_error_In in E. rewrite Forall_forall in Hall.
    specialize (Hall _ E). cbn in Hall. subst p. reflexivity.
  - destruct (nth_error (tasks s) i) as [[p h a r]|] eqn:E; [|reflexivity].
    apply nth_error_In in E. rewrite Forall_forall in Hall.
    specialize (Hall _ E). cbn in Hall. subst p. reflexivity.
  - destruct (nth_error (tasks s) i) as [[p h a r]|] eqn:E; [|reflexivity].
    apply nth_error_In in E. rewrite Forall_forall in Hall.
    specialize (Hall _ E). cbn in Hall. subst p. reflexivity.
Qed.

Lemma all_waiting_run (more : list action) (s : state) : all_waiting s -> run more s = s.
Proof.
  intros Hs. unfold run. induction more as [|a more IH]; cbn [fold_left].
  - reflexivity.
  - rewrite (all_waiting_step s a Hs). exact IH.
Qed.

(** X22. When max_concurrent >= 1 tasks of a batch have all been admitted and
    are all answered 429, each of them, after its sleep, calls itself from
    inside its [async with self.semaphore] block and awaits a slot while it
    holds one: the semaphore's counter is 0, every task is waiting, and no
    further move of the event loop changes anything. No task ever finishes. *)
Theorem rate_limited_together_wait_forever (max_concurrent : nat) :
  1 <= max_concurrent ->
  let s := run (StartBatch max_concurrent
                :: map Admit (seq 0 max_concurrent)
                ++ map (fun i => Answer i true) (seq 0 max_concurrent)
                ++ map Wake (seq 0 max_concurrent))
             (init max_concurrent) in
  s = State 0 (repeat (Task Acquiring 1 1 0) max_concurrent)
  /\ in_flight s = 0
  /\ forall more : list action, run more s = s.
Proof.
  intros HN s.
  assert (Hs : s = State 0 (repeat (Task Acquiring 1 1 0) max_concurrent)).
  { subst s.
    change (run (StartBatch max_concurrent :: ?l) ?st)
      with (run l (step st (StartBatch max_concurrent))).
    rewrite !run_app.
    change (step (init max_concurrent) (StartBatch max_concurrent))
      with (State ((fun m => m) max_concurrent)
              (repeat (Task InFlight 1 1 0) 0 ++ repeat (Task Acquiring 0 0 0) max_concurrent)).
    rewrite (sweep Admit (Task Acquiring 0 0 0) (Task InFlight 1 1 0) (fun m => m)
               (fun m pre post => step_admit m 0 0 0 pre post)).
    change (State 0 (repeat (Task InFlight 1 1 0) (0 + max_concurrent)))
      with (State ((fun _ => 0) max_concurrent)
              (repeat (Task Sleeping 1 1 0) 0 ++ repeat (Task InFlight 1 1 0) max_concurrent)).
    rewrite (sweep (fun i => Answer i true) (Task InFlight 1 1 0) (Task Sleeping 1 1 0)
               (fun _ => 0) (fun m pre post => step_answer_429 0 1 1 0 pre post)).
    change (State 0 (repeat (Task Sleeping 1 1 0) (0 + max_concurrent)))
      with (State ((fun _ => 0) max_concurrent)
              (repeat (Task Acquiring 1 1 0) 0 ++ repeat (Task Sleeping 1 1 0) max_concurrent)).
    rewrite (sweep Wake (Task Sleeping 1 1 0) (Task Acquiring 1 1 0)
               (fun _ => 0) (fun m pre post => step_wake 0 1 1 0 pre post)).
    reflexivity. }
  split; [exact Hs|].
  assert (Hw : all_waiting s).
  { rewrite Hs. split; [reflexivity|]. split.
    - destruct max_concurrent; [lia | discriminate].
    - apply Forall_forall. intros t Ht. apply repeat_spec in Ht. subst t. reflexivity. }
  split.
  - rewrite Hs. unfold in_flight. cbn [tasks].
    clear. induction max_concurrent as [|n IH]; cbn; auto.
  - intros more. now apply all_waiting_run.
Qed.

End LimiterStuckFacts.

(** ** The further theorems at concrete inputs *)

Section ResilientRuns.
Import Resilient Suite.

(** The resilient client with max_retries = 3, answered 503 and then 200:
    two attempts, one of them a retry. *)
Lemma one_retry_after_a_503 :
  let s := initial_stats in
  let s' := fst (make_resilient_request decimal_int reset_network 3
                   (Scenario.resilient_once 503 None) s) in
  0 <= 3
  /\ total_attempts s' - total_attempts s = 1 + (retries_performed s' - retries_performed s)
  /\ 0 <= retries_performed s' - retries_performed s <= 3
  /\ 0 <= successful_requests s' - successful_requests s
     <= total_attempts s' - total_attempts s
  /\ 0 <= failed_requests s' - failed_requests s <= 1.
Proof.
  intros s s'.
  assert (H0 : 0 <= 3) by lia.
  split; [exact H0|].
  exact (every_attempt_after_the_first_is_a_retry decimal_int reset_network 3
           (Scenario.resilient_once 503 None) s H0).
Defined.

(** Two events on a network without faults, each answered 200 with an empty
    object. *)
Lemma two_events_both_counted :
  let env := fun _ : nat => Scenario.resilient_answers 200 None in
  let s := initial_stats in
  let out := run_test decimal_int reset_network 2 env s in
  (0 < 2)%nat
  /\ total_events (snd out) = Z.of_nat 2
  /\ 0 <= successful_events (snd out)
  /\ 0 <= failed_requests (fst out) - failed_requests s
  /\ successful_events (snd out) + (failed_requests (fst out) - failed_requests s)
     <= Z.of_nat 2
  /\ (0 <= success_rate (snd out))%Q
  /\ (success_rate (snd out) <= 100)%Q
  /\ Z.of_nat 2 <= total_attempts (fst out) - total_attempts s <= 4 * Z.of_nat 2.
Proof.
  intros env s out.
  assert (Hn : (0 < 2)%nat) by lia.
  split; [exact Hn|].
  exact (suite_test_counts_every_event decimal_int reset_network 2 env s Hn).
Defined.

(** The resilient client with max_retries = 3, answered 503 on every
    attempt, the jitter being 1/2: four attempts, three waits of 1.5, 2.5 and
    4.5 seconds, one failure. *)
Lemma three_backoffs_after_503s :
  let env := Scenario.resilient_answers 503 None in
  let s := initial_stats in
  0 <= 3
  /\ (forall k, transient reset_network (env k))
  /\ exists s' last',
       make_resilient_request decimal_int reset_network 3 env s
       = (s', Returned (failure_dict 3 last'))
       /\ total_attempts s' = total_attempts s + (3 + 1)
       /\ retries_performed s' = retries_performed s + 3
       /\ failed_requests s' = failed_requests s + 1
       /\ successful_requests s' = successful_requests s
       /\ waits_at Backoff (sleeps s')
          = waits_at Backoff (sleeps s)
            ++ map (fun k => backoff_time k (jitter (env k))) (seq 0 (Z.to_nat 3)).
Proof.
  intros env s.
  assert (H0 : 0 <= 3) by lia.
  assert (Ht : forall k, transient reset_network (env k)).
  { intros k. right. split; [intros s0; reflexivity|].
    right. exists (Scenario.answer 503 None), ""%string.
    split; [reflexivity|]. split; [cbn; lia | reflexivity]. }
  split; [exact H0|]. split; [exact Ht|].
  exact (transient_failures_back_off_exponentially decimal_int reset_network 3 env s H0 Ht).
Defined.

End ResilientRuns.

Section DemoClientRuns.
Import Demo DemoRuns.

(** The demo client, every attempt timing out. *)
Lemma three_timeouts_wait_one_and_two_seconds :
  let env := fun _ : nat => @Raised response (Exn TimeoutError "timed out") in
  let s := initial_stats in
  let out := make_request decimal_int env s in
  (forall k, exists e, env k = Raised e
                       /\ (exn_cls e = ClientError \/ exn_cls e = TimeoutError))
  /\ snd out = Returned [("error"%string, PStr "Request failed after 3 attempts")]
  /\ sleeps (fst out) = sleeps s ++ [Sleep Backoff (inject_Z 1); Sleep Backoff (inject_Z 2)]
  /\ failed_requests (fst out) = failed_requests s + 1
  /\ successful_requests (fst out) = successful_requests s.
Proof.
  intros env s out.
  assert (He : forall k, exists e, env k = Raised e
                         /\ (exn_cls e = ClientError \/ exn_cls e = TimeoutError)).
  { intros k. eexists. split; [reflexivity | right; reflexivity]. }
  split; [exact He|].
  exact (demo_client_waits_one_then_two_seconds decimal_int env s He).
Defined.

(** The demo client, every attempt answered 429 with Retry-After: 2. *)
Lemma three_rate_limits_wait_two_seconds_each :
  let env := fun _ : nat => Returned (Scenario.answer 429 (Some "2"%string)) in
  let s := initial_stats in
  let out := make_request decimal_int env s in
  (forall k, exists r, env k = Returned r /\ status r = 429
                       /\ retry_after_of decimal_int r = Returned 2)
  /\ snd out = Returned [("error"%string, PStr "Request failed after 3 attempts")]
  /\ sleeps (fst out) = sleeps s ++ repeat (Sleep RateLimitWait (inject_Z 2)) 3
  /\ failed_requests (fst out) = failed_requests s + 1
  /\ successful_requests (fst out) = successful_requests s.
Proof.
  intros env s out.
  assert (Hr : forall k, exists r, env k = Returned r /\ status r = 429
                         /\ retry_after_of decimal_int r = Returned 2).
  { intros k. eexists. repeat split; reflexivity. }
  split; [exact Hr|].
  exact (demo_client_is_rate_limited_three_times decimal_int env 2 s Hr).
Defined.

(** The demo client, answered 404 and then 200: the second attempt follows
    at once and its body is returned. *)
Lemma not_found_is_retried_at_once :
  let env := Scenario.demo_once 404 None in
  let s := initial_stats in
  let out := make_request decimal_int env s in
  (1 <= 3)%nat
  /\ (forall k, (k < 1)%nat ->
                exists r txt, env k = Returned r /\ status r <> 200 /\ status r <> 429
                              /\ text r = Returned txt)
  /\ ((1 < 3)%nat -> exists r, env 1%nat = Returned r /\ status r = 200
                               /\ json r = Returned [])
  /\ sleeps (fst out) = sleeps s
  /\ ((1 < 3)%nat ->
      snd out = Returned []
      /\ failed_requests (fst out) = failed_requests s
      /\ successful_requests (fst out) = successful_requests s + 1)
  /\ (1%nat = 3%nat ->
      snd out = Returned [("error"%string, PStr "Request failed after 3 attempts")]
      /\ failed_requests (fst out) = failed_requests s + 1
      /\ successful_requests (fst out) = successful_requests s).
Proof.
  intros env s out.
  assert (Hj : (1 <= 3)%nat) by lia.
  assert (He : forall k, (k < 1)%nat ->
               exists r txt, env k = Returned r /\ status r <> 200 /\ status r <> 429
                             /\ text r = Returned txt).
  { intros k Hk. assert (k = 0%nat) by lia. subst k.
    exists (Scenario.answer 404 None), ""%string.
    split; [reflexivity|]. split; [discriminate|]. split; [discriminate | reflexivity]. }
  assert (Hs : (1 < 3)%nat -> exists r, env 1%nat = Returned r /\ status r = 200
                                        /\ json r = Returned []).
  { intros _. exists (Scenario.answer 200 None). repeat split; reflexivity. }
  split; [exact Hj|]. split; [exact He|]. split; [exact Hs|].
  exact (demo_client_retries_error_statuses_at_once decimal_int env 1 [] s Hj He Hs).
Defined.

End DemoClientRuns.

Section PerfRuns.
Import Perf PerfReport.

(** Ten events with batch size -5: nothing is attempted. *)
Lemma ten_events_in_batches_of_minus_five :
  -5 < 0
  /\ exists t',
       run_performance_test decimal_int 1 Scenario.three_successes_two_failures
         Scenario.no_readings 10 (-5) Scenario.fresh_tester = Returned (Some t')
       /\ total_events (metrics t') = Z.max 0 10
       /\ successful_events (metrics t') = 0
       /\ failed_events (metrics t') = 0
       /\ rate_limited_requests (metrics t') = 0
       /\ response_times t' = [].
Proof.
  assert (Hb : -5 < 0) by lia.
  split; [exact Hb|].
  exact (negative_batch_size_attempts_nothing decimal_int
           Scenario.three_successes_two_failures 1 Scenario.no_readings 10 (-5)
           Scenario.fresh_tester Hb).
Defined.

(** No events, batch size 5: the run returns and the report raises. *)
Lemma no_events_no_report :
  0 <= 0
  /\ 5 <> 0
  /\ exists t',
       run_performance_test decimal_int 1 Scenario.three_successes_two_failures
         Scenario.no_readings 0 5 Scenario.fresh_tester = Returned (Some t')
       /\ total_events (metrics t') = 0
       /\ response_times t' = []
       /\ print_performance_report (metrics t')
          = Raised (Exn OtherException "division by zero").
Proof.
  assert (Hc : 0 <= 0) by lia.
  assert (Hb : 5 <> 0) by lia.
  split; [exact Hc|]. split; [exact Hb|].
  exact (empty_run_cannot_be_reported decimal_int Scenario.three_successes_two_failures 1
           Scenario.no_readings 0 5 Scenario.fresh_tester Hc Hb).
Defined.

(** Of twenty events, the first and the ninth start together. *)
Lemma first_and_ninth_event_collide :
  (0 mod 20 < 12)%nat
  /\ Z.of_nat 0 + 8 < 20
  /\ exists e1 e2 : event,
       nth_error (generate_test_events 20) 0 = Some e1
       /\ nth_error (generate_test_events 20) (0 + 8) = Some e2
       /\ number e2 = number e1 + 8
       /\ start_minutes e1 = start_minutes e2
       /\ duration_minutes e1 = duration_minutes e2.
Proof.
  assert (Hd : (0 mod 20 < 12)%nat) by (cbn; lia).
  assert (Hi : Z.of_nat 0 + 8 < 20) by (cbn; lia).
  split; [exact Hd|]. split; [exact Hi|].
  exact (generated_events_collide 20 0 Hd Hi).
Defined.

(** The five-item scenario: latencies of 10 to 50 ms, with average 30 ms. *)
Lemma five_latencies_in_order :
  let run := run_performance_test decimal_int 1 Scenario.three_successes_two_failures
               Scenario.no_readings 5 5 Scenario.fresh_tester in
  let m := metrics_of run in
  (min_response_time m <= avg_response_time m)%Q
  /\ (avg_response_time m <= max_response_time m)%Q
  /\ (min_response_time m == 10 # 1000)%Q
  /\ (avg_response_time m == 30 # 1000)%Q
  /\ (max_response_time m == 50 # 1000)%Q.
Proof.
  intros run m. subst m run.
  destruct (run_performance_test decimal_int 1 Scenario.three_successes_two_failures
              Scenario.no_readings 5 5 Scenario.fresh_tester) as [[t'|]|e] eqn:E;
    [|discriminate E|discriminate E].
  assert (Hne : response_times t' <> []).
  { pose proof E as E'. vm_compute in E'. inversion E'. discriminate. }
  destruct (average_lies_between_min_and_max decimal_int
              Scenario.three_successes_two_failures 1 Scenario.no_readings 5 5
              Scenario.fresh_tester t' E Hne) as (H1 & H2 & _).
  cbn [metrics_of].
  split; [exact H1|]. split; [exact H2|].
  vm_compute in E. inversion E. vm_compute. repeat split; reflexivity.
Defined.

End PerfRuns.

Section LimiterRuns.
Import Limiter.
Local Open Scope nat_scope.

(** Fifty slots and fifty tasks, all answered 429. *)
Lemma fifty_tasks_wait_forever :
  let s := run (StartBatch 50
                :: map Admit (seq 0 50)
                ++ map (fun i => Answer i true) (seq 0 50)
                ++ map Wake (seq 0 50))
             (init 50) in
  1 <= 50
  /\ s = State 0 (repeat (Task Acquiring 1 1 0) 50)
  /\ in_flight s = 0
  /\ forall more : list action, run more s = s.
Proof.
  intros s.
  assert (H : 1 <= 50) by lia.
  split; [exact H|].
  exact (rate_limited_together_wait_forever 50 H).
Defined.

End LimiterRuns.

(** ** The performance tester: an item that is always rate limited *)

Section RateLimitedItemFacts.
Import Perf PerfReport Limiter LimiterStates.

Variable py_int : string -> option Z.

Lemma schedule_of_one_event (e : event) (batch_size : Z) :
  0 < batch_size -> schedule [e] batch_size = [Gather 0 [e]].
Proof.
  intros HB. unfold schedule.
  assert (Hnb : total_batches (len [e]) batch_size = 1).
  { unfold total_batches. change (len [e]) with 1.
    replace (1 + batch_size - 1) with batch_size by lia. apply Z.div_same. lia. }
  rewrite Hnb. change (Z.to_nat 1) with 1%nat. cbn [seq map flat_map app].
  unfold batch_steps. rewrite Hnb.
  change (Z.of_nat 0) with 0.
  rewrite (batch_slice [e] batch_size 0 HB ltac:(lia)).
  change (len [e]) with 1. change (0 * batch_size) with 0.
  replace (Z.min batch_size (1 - 0)) with 1 by lia.
  reflexivity.
Qed.

(** One task and [j] more slots than [v]: after [j] rate-limited attempts
    the task holds [j] slots more and asks for another. *)
Lemma rate_limited_attempts (j : nat) :
  forall v h a r : nat,
  run (List.concat (repeat (rate_limited_attempt 0) j))
      (State (j + v) [Task Acquiring h a r])
  = State v [Task Acquiring (j + h) (j + a) r].
Proof.
  induction j as [|j IH]; intros v h a r.
  - reflexivity.
  - cbn [repeat List.concat]. rewrite run_app.
    change (run (rate_limited_attempt 0) (State (S j + v) [Task Acquiring h a r]))
      with (State (j + v) [Task Acquiring (S h) (S a) r]).
    rewrite IH. rewrite !Nat.add_succ_r. reflexivity.
Qed.

(** C2 (the failing run). In the performance tester, an item whose every
    attempt is answered 429 with a Retry-After of R seconds is neither
    retried max_retries times nor retried once, and it is never recorded as
    failed. [create_single_event] calls itself after every 429, from inside
    its [async with self.semaphore] block: run with max_concurrent free
    slots, it makes max_concurrent attempts, each followed by a sleep of R
    seconds, counts max_concurrent rate-limited requests, no failure and no
    success, and then awaits a slot that only its own callers could release.
    It does not return, so that a run over this one event does not end. In
    the interleaving model the task ends up holding every slot, and no move
    of the event loop is left. *)
Theorem rate_limited_item_is_never_given_up (env : nat -> attempt_io) (R : Z)
  (max_concurrent : nat) (event_data : event) (event_id : Z) (t : tester) :
  (forall k, (k < max_concurrent)%nat ->
             exists r, post (env k) = Returned r /\ status r = 429
                       /\ retry_after_of py_int r = Returned R) ->
  let out := create_single_event py_int max_concurrent env 0 event_data event_id t in
  snd out = None
  /\ rate_limited_requests (metrics (fst out))
     = rate_limited_requests (metrics t) + Z.of_nat max_concurrent
  /\ len (response_times (fst out)) = len (response_times t) + Z.of_nat max_concurrent
  /\ sleeps (fst out)
     = sleeps t ++ repeat (Sleep RateLimitWait (inject_Z R)) max_concurrent
  /\ failed_events (metrics (fst out)) = failed_events (metrics t)
  /\ successful_events (metrics (fst out)) = successful_events (metrics t)
  /\ (forall (items : Z -> nat -> attempt_io) (rd : readings) (batch_size : Z),
        items 0 = env -> 0 < batch_size ->
        run_performance_test py_int max_concurrent items rd 1 batch_size t
        = Returned None)
  /\ (let s := run (StartBatch 1
                    :: List.concat (repeat (rate_limited_attempt 0) max_concurrent))
                 (init max_concurrent) in
      s = State 0 [Task Acquiring max_concurrent max_concurrent 0]
      /\ forall more : list action, run more s = s).
Proof.
  intros H429 out.
  assert (Hall : forall (ev : event) (id : Z) (t0 : tester),
             let o := create_single_event py_int max_concurrent env 0 ev id t0 in
             snd o = None
             /\ rate_limited_requests (metrics (fst o))
                = rate_limited_requests (metrics t0) + Z.of_nat max_concurrent
             /\ failed_events (metrics (fst o)) = failed_events (metrics t0)
             /\ successful_events (metrics (fst o)) = successful_events (metrics t0)
             /\ sleeps (fst o)
                = sleeps t0 ++ repeat (Sleep RateLimitWait (inject_Z R)) max_concurrent
             /\ len (response_times (fst o))
                = len (response_times t0) + Z.of_nat max_concurrent).
  { intros ev id t0.
    apply (create_single_event_rate_limited py_int env R max_concurrent 0 ev id t0).
    intros k Hk. apply H429. lia. }
  destruct (Hall event_data event_id t) as (H1 & H2 & H3 & H4 & H5 & H6).
  fold out in H1, H2, H3, H4, H5, H6.
  split; [exact H1|]. split; [exact H2|]. split; [exact H6|]. split; [exact H5|].
  split; [exact H3|]. split; [exact H4|]. split.
  - intros items rd batch_size Hitems HB. unfold run_performance_test.
    replace (batch_size =? 0) with false by (symmetry; apply Z.eqb_neq; lia).
    change (generate_test_events 1) with [test_event 0].
    rewrite schedule_of_one_event by exact HB.
    cbn [run_steps gather]. change (0 + Z.of_nat 0) with 0. rewrite Hitems.
    match goal with |- context [create_single_event _ _ _ _ ?ev ?id ?t0] =>
      destruct (Hall ev id t0) as (Hn & _);
      destruct (create_single_event py_int max_concurrent env 0 ev id t0) as [t1 o]
    end.
    cbn [snd] in Hn. subst o. reflexivity.
  - intros s.
    assert (Hs : s = State 0 [Task Acquiring max_concurrent max_concurrent 0]).
    { subst s.
      change (run (StartBatch 1 :: ?l) (init max_concurrent))
        with (run l (State max_concurrent [Task Acquiring 0 0 0])).
      pose proof (rate_limited_attempts max_concurrent 0 0 0 0) as H.
      rewrite !Nat.add_0_r in H. exact H. }
    split; [exact Hs|].
    intros more. apply all_waiting_run. rewrite Hs.
    split; [reflexivity|]. split; [discriminate|].
    repeat constructor.
Qed.

End RateLimitedItemFacts.

(** ** The batch loop at work *)

Section BatchRunFacts.
Import Perf PerfReport.

Variable py_int : string -> option Z.

(** A call whose first attempt ends the item: one sample, no sleep, one
    increment of successful_events or of failed_events. *)
Lemma create_single_event_ends (env : nat -> attempt_io) (slots attempt : nat)
  (event_data : event) (event_id : Z) (t : tester) :
  ends_the_item (env attempt) = true ->
  exists t' d,
    create_single_event py_int (S slots) env attempt event_data event_id t = (t', Some d)
    /\ response_times t' = response_times t ++ [latency (env attempt)]
    /\ sleeps t' = sleeps t
    /\ successful_events (metrics t') + failed_events (metrics t')
       = successful_events (metrics t) + failed_events (metrics t) + 1
    /\ rate_limited_requests (metrics t') = rate_limited_requests (metrics t)
    /\ total_events (metrics t') = total_events (metrics t).
Proof.
  unfold ends_the_item, readable, latency. cbn [create_single_event].
  unfold except_clause.
  destruct (post (env attempt)) as [r|e].
  - destruct (status r =? 200) eqn:E200.
    + destruct (status r =? 429); cbn [negb andb]; [discriminate|].
      destruct (json r); [|discriminate]. intros _.
      do 2 eexists. split; [reflexivity|]. cbn. repeat split; lia.
    + destruct (status r =? 429); cbn [negb andb]; [discriminate|].
      destruct (text r); [|discriminate]. intros _.
      do 2 eexists. split; [reflexivity|]. cbn. repeat split; lia.
  - intros _. do 2 eexists. split; [reflexivity|]. cbn. repeat split; lia.
Qed.

Lemma gather_ends (env : Z -> nat -> attempt_io) (slots : nat) (start_idx : Z)
  (batch_events : list event) :
  (0 < slots)%nat ->
  (forall i, ends_the_item (env i 0%nat) = true) ->
  forall (i : nat) (t : tester),
  exists t',
    gather py_int slots env start_idx i batch_events t = Some t'
    /\ response_times t'
       = response_times t
         ++ map (fun j => latency (env (start_idx + Z.of_nat j) 0%nat))
              (seq i (List.length batch_events))
    /\ sleeps t' = sleeps t
    /\ successful_events (metrics t') + failed_events (metrics t')
       = successful_events (metrics t) + failed_events (metrics t) + len batch_events
    /\ rate_limited_requests (metrics t') = rate_limited_requests (metrics t)
    /\ total_events (metrics t') = total_events (metrics t).
Proof.
  intros Hslots Hends. destruct slots as [|slots]; [lia|]. clear Hslots.
  induction batch_events as [|ev rest IH]; intros i t; cbn [gather].
  - exists t. split; [reflexivity|]. cbn [List.length seq map]. rewrite app_nil_r.
    unfold len. cbn [List.length]. repeat split; lia.
  - destruct (create_single_event_ends (env (start_idx + Z.of_nat i)) slots 0 ev
                (start_idx + Z.of_nat i) t (Hends _))
      as (t1 & d & Hc & Hr1 & Hs1 & Hm1 & Hl1 & Ht1).
    rewrite Hc.
    destruct (IH (S i) t1) as (t2 & Hg & Hr2 & Hs2 & Hm2 & Hl2 & Ht2).
    exists t2. split; [exact Hg|].
    split; [rewrite Hr2, Hr1, <- app_assoc; reflexivity|].
    split; [congruence|].
    unfold len in *. cbn [List.length]. repeat split; lia.
Qed.

Lemma map_seq_shift {A : Type} (len0 : nat) :
  forall (f : nat -> A) (start : nat),
  map f (seq start len0) = map (fun j => f (start + j)%nat) (seq 0 len0).
Proof.
  induction len0 as [|n IH]; intros f start; cbn [seq map].
  - reflexivity.
  - rewrite Nat.add_0_r. f_equal.
    rewrite (IH f (S start)), (IH (fun j => f (start + j)%nat) 1%nat).
    apply map_ext. intros j. f_equal. lia.
Qed.

(** The first [m] iterations of the batch loop, when every item is settled
    by its first attempt: the items of the first [m] batches have been
    attempted, in their order, and the loop has paused after each of these
    batches but the last of all. *)
Lemma run_steps_prefix (env : Z -> nat -> attempt_io) (slots : nat)
  (events : list event) (batch_size : Z) (t : tester) :
  0 < batch_size ->
  (0 < slots)%nat ->
  (forall i, ends_the_item (env i 0%nat) = true) ->
  forall m : nat,
  exists t',
    run_steps py_int slots env
      (flat_map (batch_steps events batch_size) (map Z.of_nat (seq 0 m))) t = Some t'
    /\ response_times t'
       = response_times t
         ++ map (fun i => latency (env (Z.of_nat i) 0%nat))
              (seq 0 (Z.to_nat (Z.min (Z.of_nat m * batch_size) (len events))))
    /\ sleeps t'
       = sleeps t
         ++ repeat (Sleep BatchPause (1 # 10))
              (Nat.min m (Z.to_nat (total_batches (len events) batch_size - 1)))
    /\ successful_events (metrics t') + failed_events (metrics t')
       = successful_events (metrics t) + failed_events (metrics t)
         + Z.min (Z.of_nat m * batch_size) (len events)
    /\ rate_limited_requests (metrics t') = rate_limited_requests (metrics t)
    /\ total_events (metrics t') = total_events (metrics t).
Proof.
  intros HB Hslots Hends.
  assert (Hn : 0 <= len events) by (unfold len; lia).
  induction m as [|m IH].
  - exists t. split; [reflexivity|].
    change (Z.of_nat 0 * batch_size) with 0.
    replace (Z.min 0 (len events)) with 0 by lia.
    cbn [Z.to_nat seq map Nat.min repeat]. rewrite !app_nil_r. repeat split; lia.
  - destruct IH as (t1 & Hrun & Hr1 & Hs1 & Hm1 & Hl1 & Ht1).
    rewrite seq_S, map_app, flat_map_app, run_steps_app, Hrun.
    cbn [Nat.add map flat_map app]. unfold batch_steps at 1.
    rewrite batch_slice by lia.
    set (slice := firstn (Z.to_nat (Z.min batch_size (len events - Z.of_nat m * batch_size)))
                    (skipn (Z.to_nat (Z.of_nat m * batch_size)) events)).
    assert (Hslice : List.length slice
                     = (Z.to_nat (Z.min (Z.of_nat (S m) * batch_size) (len events))
                        - Z.to_nat (Z.min (Z.of_nat m * batch_size) (len events)))%nat).
    { unfold slice. rewrite length_firstn, length_skipn. unfold len in *. nia. }
    destruct (gather_ends env slots (Z.of_nat m * batch_size) slice Hslots Hends 0 t1)
      as (t2 & Hg & Hr2 & Hs2 & Hm2 & Hl2 & Ht2).
    assert (Hsamples :
              response_times t2
              = response_times t
                ++ map (fun i => latency (env (Z.of_nat i) 0%nat))
                     (seq 0 (Z.to_nat (Z.min (Z.of_nat (S m) * batch_size) (len events))))).
    { rewrite Hr2, Hr1, <- app_assoc. f_equal.
      replace (Z.to_nat (Z.min (Z.of_nat (S m) * batch_size) (len events)))
        with (Z.to_nat (Z.min (Z.of_nat m * batch_size) (len events))
              + List.length slice)%nat by (rewrite Hslice; nia).
      rewrite seq_app, map_app. f_equal. cbn [Nat.add].
      rewrite (map_seq_shift (List.length slice)
                 (fun i => latency (env (Z.of_nat i) 0%nat))).
      apply map_ext_in. intros j Hj. apply in_seq in Hj.
      assert (Hpos : (0 < List.length slice)%nat) by lia.
      do 2 f_equal. rewrite Hslice in Hpos. nia. }
    assert (Hcount : successful_events (metrics t2) + failed_events (metrics t2)
                     = successful_events (metrics t) + failed_events (metrics t)
                       + Z.min (Z.of_nat (S m) * batch_size) (len events)).
    { unfold len in Hm2. rewrite Hslice in Hm2. unfold len in *. nia. }
    rewrite app_nil_r. cbn [run_steps]. rewrite Hg.
    destruct (Z.of_nat m <? total_batches (len events) batch_size - 1) eqn:E;
      [apply Z.ltb_lt in E | apply Z.ltb_ge in E]; cbn [run_steps app].
    + eexists. split; [reflexivity|].
      cbn [response_times sleeps metrics asyncio_sleep].
      split; [exact Hsamples|]. split.
      * rewrite Hs2, Hs1, <- app_assoc. f_equal.
        replace (Nat.min (S m) (Z.to_nat (total_batches (len events) batch_size - 1)))
          with (S (Nat.min m (Z.to_nat (total_batches (len events) batch_size - 1))))
          by lia.
        rewrite <- repeat_cons. reflexivity.
      * split; [exact Hcount|]. split; lia.
    + exists t2. split; [reflexivity|]. split; [exact Hsamples|]. split.
      * rewrite Hs2, Hs1. do 2 f_equal. lia.
      * split; [exact Hcount|]. split; lia.
Qed.

End BatchRunFacts.

Section BatchLoopFacts.
Import Perf PerfReport.

(** C5. For a batch size B > 0 the batch loop forms exactly ceil(n/B)
    batches out of n events: every batch but the last holds B events and the
    last holds the remaining ones (between 1 and B); the batches are, end to
    end, the events in their order; a pause of 100 ms follows every batch
    but the last; and the steps run strictly one after the other. The loop
    at work, when every item is settled by its first attempt and the
    semaphore has a slot: after its first m iterations exactly the items of
    the first m batches have been attempted, each once, and m pauses have
    been slept (one fewer after the last batch), and it is from this state
    that the rest of the loop runs; the completed run has attempted every
    event once, has paused ceil(n/B) - 1 times and has counted n successes
    and failures. The batch loop of the bulk demo, with B = 10, requests
    every event once and pauses between its batches in the same way. *)
Theorem batches_partition_the_events (events : list event) (batch_size : Z) :
  0 < batch_size ->
  let n := len events in
  let nb := total_batches n batch_size in
  (n <= nb * batch_size < n + batch_size)
  /\ len (batches_of (schedule events batch_size)) = nb
  /\ List.concat (batches_of (schedule events batch_size)) = events
  /\ outline (schedule events batch_size)
     = flat_map (fun k => inl (Z.min batch_size (n - k * batch_size))
                          :: (if k <? nb - 1 then [inr (1 # 10)] else []))
         (map Z.of_nat (seq 0 (Z.to_nat nb)))
  /\ (forall k, 0 <= k < nb - 1 -> Z.min batch_size (n - k * batch_size) = batch_size)
  /\ (0 < nb -> 0 < Z.min batch_size (n - (nb - 1) * batch_size) <= batch_size)
  /\ (forall py_int slots env steps1 steps2 t,
        run_steps py_int slots env (steps1 ++ steps2) t
        = match run_steps py_int slots env steps1 t with
          | Some t1 => run_steps py_int slots env steps2 t1
          | None => None
          end)
  /\ (forall py_int slots env t,
        (0 < slots)%nat ->
        (forall i, ends_the_item (env i 0%nat) = true) ->
        forall m : nat,
        Z.of_nat m <= nb ->
        exists t_m,
          run_steps py_int slots env
            (flat_map (batch_steps events batch_size) (map Z.of_nat (seq 0 m))) t
          = Some t_m
          /\ Permutation (response_times t_m)
               (response_times t
                ++ map (fun i => latency (env (Z.of_nat i) 0%nat))
                     (seq 0 (Z.to_nat (Z.min (Z.of_nat m * batch_size) n))))
          /\ sleeps t_m
             = sleeps t
               ++ repeat (Sleep BatchPause (1 # 10)) (Nat.min m (Z.to_nat (nb - 1)))
          /\ run_steps py_int slots env (schedule events batch_size) t
             = run_steps py_int slots env
                 (flat_map (batch_steps events batch_size)
                    (map Z.of_nat (seq m (Z.to_nat nb - m)))) t_m)
  /\ (forall py_int max_concurrent env rd event_count t,
        events = generate_test_events event_count ->
        (0 < max_concurrent)%nat ->
        (forall i, ends_the_item (env i 0%nat) = true) ->
        exists t',
          run_performance_test py_int max_concurrent env rd event_count batch_size t
          = Returned (Some t')
          /\ Permutation (response_times t')
               (map (fun i => latency (env (Z.of_nat i) 0%nat)) (seq 0 (Z.to_nat n)))
          /\ sleeps t'
             = sleeps t ++ repeat (Sleep BatchPause (1 # 10)) (Z.to_nat (nb - 1))
          /\ total_events (metrics t') = n
          /\ successful_events (metrics t') + failed_events (metrics t') = n
          /\ rate_limited_requests (metrics t') = 0)
  /\ (forall py_int net first event_count s,
        let count := Z.to_nat event_count in
        let out := DemoRuns.demo_bulk_event_creation py_int net first event_count s in
        fst (fst out)
        = fst (DemoRuns.gather_create_events py_int
                 (map (fun i => net (first + i)%nat) (seq 0 count)) s)
        /\ snd (fst out)
           = repeat (1 # 10)%Q (Z.to_nat (total_batches (Z.of_nat count) 10 - 1))).
Proof.
  intros HB n nb.
  destruct (schedule_partition events batch_size HB) as (H1 & H2 & H3 & H4 & H5 & H6 & H7).
  fold n in H1, H2, H3, H4, H5, H6. fold nb in H1, H2, H3, H4, H5, H6.
  assert (Hn : 0 <= n) by (unfold n, len; lia).
  assert (Hnb : 0 <= nb) by (apply total_batches_nonneg; assumption).
  split; [exact H1|]. split; [exact H2|]. split; [exact H3|]. split; [exact H4|].
  split; [exact H5|]. split; [exact H6|]. split; [exact H7|].
  split; [|split].
  - intros py_int slots env t Hslots Hends m Hm.
    destruct (run_steps_prefix py_int env slots events batch_size t HB Hslots Hends m)
      as (t_m & Hrun & Hr & Hs & _).
    exists t_m. split; [exact Hrun|]. split; [rewrite Hr; apply Permutation_refl|].
    split; [exact Hs|].
    unfold schedule. fold n. fold nb.
    replace (Z.to_nat nb) with (m + (Z.to_nat nb - m))%nat at 1 by lia.
    rewrite seq_app, map_app, flat_map_app, H7, Hrun. reflexivity.
  - intros py_int max_concurrent env rd event_count t Hev Hslots Hends.
    unfold run_performance_test. cbv zeta.
    replace (batch_size =? 0) with false by (symmetry; apply Z.eqb_neq; lia).
    rewrite <- Hev.
    destruct (run_steps_prefix py_int env max_concurrent events batch_size
                (Tester (set_total_events (len events) default_metrics) [] (sleeps t))
                HB Hslots Hends (Z.to_nat nb))
      as (t1 & Hrun & Hr & Hs & Hc & Hl & Ht).
    unfold schedule. fold n. fold nb. fold n in Hrun. fold nb in Hrun. rewrite Hrun.
    eexists. split; [reflexivity|].
    cbn [response_times sleeps metrics final_metrics total_events successful_events
         failed_events rate_limited_requests].
    fold n in Hr, Hs, Hc. fold nb in Hs.
    rewrite Z2Nat.id in Hr, Hc by lia.
    replace (Z.min (nb * batch_size) n) with n in Hr, Hc by lia.
    replace (Nat.min (Z.to_nat nb) (Z.to_nat (nb - 1))) with (Z.to_nat (nb - 1)) in Hs by lia.
    cbn [response_times sleeps metrics app] in Hr, Hs.
    split; [rewrite Hr; apply Permutation_refl|].
    split; [exact Hs|].
    cbn in Hc, Hl, Ht. repeat split; lia.
  - intros py_int net first event_count s count out.
    destruct (bulk_creation_facts py_int net first event_count s)
      as (Hb1 & _ & _ & _ & _ & Hb2).
    split; [exact Hb1 | exact Hb2].
Qed.

End BatchLoopFacts.

(** ** The resilient client: what a call returns, and when *)

Section ReturnFacts.
Import Resilient Suite.

Variable py_int : string -> option Z.
Variable sim : NetworkConditionSimulator.
Variable max_retries : Z.







End ReturnFacts.

Section ReturnTheorem.
Import Resilient Suite.


End ReturnTheorem.

(** ** The wait before a retry, in the two clients *)

Section RetryWaitFacts.
Import Resilient.

(** C6 (amended). In the resilient client, when the attempt number
    [attempt] (0-based) ends in a timeout, a network error or a 5xx status
    and a retry follows (attempt < max_retries), the wait before that retry
    is 1 * 2^attempt + jitter seconds, where jitter is the number drawn by
    random.uniform(0, 1), 0 <= jitter < 1. The wait lies in the closed
    interval [2^attempt, 2^attempt + 1], and so does the sum as the code
    computes it, rounded to a double: rounding is monotone and leaves
    2^attempt and 2^attempt + 1 as they are; the rounded sum can be
    2^attempt + 1 itself. The demo client has no jitter and no wait for a
    server error: after a ClientError or a TimeoutError it waits exactly
    2^0 and then 2^1 seconds, and it retries a 5xx status at once. *)
Theorem retry_waits_of_the_two_clients (py_int : string -> option Z) :
  (forall (sim : NetworkConditionSimulator) (max_retries : Z) (attempt : nat)
          (a : attempt_io) (s : stats) (last : option exn),
      (0 <= jitter a)%Q -> (jitter a < 1)%Q ->
      Z.of_nat attempt < max_retries ->
      (exists s1 e,
          try_body py_int sim max_retries attempt a (incr_total_attempts s) = (s1, Raised e)
          /\ (exn_cls e = TimeoutError \/ exn_cls e = ClientError
              \/ exn_cls e = ConnectionError))
      \/ (exists s1 r txt,
             apply_conditions sim (conditions a) (incr_total_attempts s) = (s1, None)
             /\ request a = Returned r /\ 500 <= status r /\ text r = Returned txt) ->
      exists s' last' before wait,
        iteration py_int sim max_retries attempt a s last = (s', last', Returned Continue)
        /\ retries_performed s' = retries_performed s + 1
        /\ sleeps s' = before ++ [Sleep Backoff wait]
        /\ waits_at Backoff (sleeps s') = waits_at Backoff (sleeps s) ++ [wait]
        /\ (wait == 1 * inject_Z (2 ^ Z.of_nat attempt) + jitter a)%Q
        /\ (inject_Z (2 ^ Z.of_nat attempt) <= wait)%Q
        /\ (wait <= inject_Z (2 ^ Z.of_nat attempt) + 1)%Q
        /\ (forall fl : Q -> Q,
              (forall x y, (x <= y)%Q -> (fl x <= fl y)%Q) ->
              (fl (inject_Z (2 ^ Z.of_nat attempt)) == inject_Z (2 ^ Z.of_nat attempt))%Q ->
              (fl (inject_Z (2 ^ Z.of_nat attempt) + 1)
               == inject_Z (2 ^ Z.of_nat attempt) + 1)%Q ->
              (inject_Z (2 ^ Z.of_nat attempt) <= fl wait)%Q
              /\ (fl wait <= inject_Z (2 ^ Z.of_nat attempt) + 1)%Q))
  /\ (forall (env : nat -> result response) (s : Demo.stats),
        (forall k, exists e, env k = Raised e
                             /\ (exn_cls e = ClientError \/ exn_cls e = TimeoutError)) ->
        Demo.sleeps (fst (Demo.make_request py_int env s))
        = Demo.sleeps s ++ [Demo.Sleep Demo.Backoff (inject_Z (2 ^ 0));
                            Demo.Sleep Demo.Backoff (inject_Z (2 ^ 1))])
  /\ (forall (env : nat -> result response) (j : nat) (d : dict) (s : Demo.stats),
        (j <= 3)%nat ->
        (forall k, (k < j)%nat ->
                   exists r txt, env k = Returned r /\ 500 <= status r
                                 /\ text r = Returned txt) ->
        ((j < 3)%nat ->
         exists r, env j = Returned r /\ status r = 200 /\ json r = Returned d) ->
        Demo.sleeps (fst (Demo.make_request py_int env s)) = Demo.sleeps s).
Proof.
  split; [|split].
  - intros sim max_retries attempt a s last Hj0 Hj1 Hk Hout.
    destruct (resilient_retry_wait py_int sim max_retries attempt a s last Hj0 Hj1 Hk Hout)
      as (s' & last' & before & wait & Hit & Hr & Hs & Hw & Heq & Hlo & Hhi).
    exists s', last', before, wait.
    split; [exact Hit|]. split; [exact Hr|]. split; [exact Hs|]. split; [exact Hw|].
    split; [exact Heq|]. split; [exact Hlo|].
    assert (Hhi' : (wait <= inject_Z (2 ^ Z.of_nat attempt) + 1)%Q)
      by (apply Qlt_le_weak; exact Hhi).
    split; [exact Hhi'|].
    intros fl Hmono Hfix0 Hfix1. split.
    + rewrite <- Hfix0. apply Hmono. exact Hlo.
    + rewrite <- Hfix1. apply Hmono. exact Hhi'.
  - intros env s Hfail.
    destruct (demo_failures_spec py_int env s Hfail) as (_ & Hs & _). exact Hs.
  - intros env j d s Hj Herr Hok.
    assert (Herr' : forall k, (k < j)%nat ->
                    exists r txt, env k = Returned r /\ status r <> 200
                                  /\ status r <> 429 /\ text r = Returned txt).
    { intros k Hk. destruct (Herr k Hk) as (r & txt & Hreq & Hst & Htxt).
      exists r, txt. split; [exact Hreq|]. split; [lia|]. split; [lia | exact Htxt]. }
    destruct (demo_error_statuses_spec py_int env j d s Hj Herr' Hok) as (Hs & _).
    exact Hs.
Qed.

End RetryWaitFacts.

(** ** More concrete inputs *)

(** C6 (counterexample). The demo client, answered 503 and then 200: the
    server error is retried, and the retry follows without any wait. *)
Lemma server_error_is_retried_without_a_wait :
  let out := Demo.make_request decimal_int (Scenario.demo_once 503 None)
               Demo.initial_stats in
  snd out = Returned []
  /\ Demo.total_requests (fst out) = 1
  /\ Demo.successful_requests (fst out) = 1
  /\ Demo.failed_requests (fst out) = 0
  /\ Demo.sleeps (fst out) = [].
Proof. vm_compute. repeat split; reflexivity. Qed.

(** The resilient client with max_retries = 3, answered 503 on its second
    attempt (attempt 1) with a jitter of 1/2: the wait before the retry is
    5/2 seconds, within [2, 3]. *)
Lemma backoff_after_503_on_attempt_1 :
  let a := Scenario.resilient_answers 503 None 1 in
  (0 <= Resilient.jitter a)%Q
  /\ (Resilient.jitter a < 1)%Q
  /\ Z.of_nat 1 < 3
  /\ exists s' last' before wait,
       Resilient.iteration decimal_int Resilient.reset_network 3 1 a
         Resilient.initial_stats None = (s', last', Returned Resilient.Continue)
       /\ Resilient.retries_performed s' = 1
       /\ Resilient.sleeps s' = before ++ [Resilient.Sleep Resilient.Backoff wait]
       /\ (wait == 5 # 2)%Q
       /\ (inject_Z 2 <= wait)%Q
       /\ (wait <= inject_Z 2 + 1)%Q.
Proof.
  intros a.
  assert (Hj0 : (0 <= Resilient.jitter a)%Q) by (unfold Qle; cbn; lia).
  assert (Hj1 : (Resilient.jitter a < 1)%Q) by (unfold Qlt; cbn; lia).
  assert (Hk : Z.of_nat 1 < 3) by lia.
  split; [exact Hj0|]. split; [exact Hj1|]. split; [exact Hk|].
  destruct (retry_waits_of_the_two_clients decimal_int) as (Hres & _).
  destruct (Hres Resilient.reset_network 3 1%nat a Resilient.initial_stats None Hj0 Hj1 Hk)
    as (s' & last' & before & wait & Hit & Hr & Hs & _ & Heq & Hlo & Hhi & _).
  { right. do 3 eexists. split; [reflexivity|]. split; [reflexivity|].
    split; [cbn; lia | reflexivity]. }
  exists s', last', before, wait.
  split; [exact Hit|]. split; [exact Hr|]. split; [exact Hs|].
  split; [rewrite Heq; reflexivity|]. split; [exact Hlo | exact Hhi].
Defined.

(** Twelve events in batches of five, every event answered 200 after 10 ms:
    three batches of 5, 5 and 2 events, with a pause after the first and
    after the second; the run makes twelve attempts and sleeps twice. *)
Lemma batches_of_twelve_by_five :
  let env := fun (_ : Z) => Scenario.perf_answers 200 None in
  0 < 5
  /\ Perf.total_batches (Perf.len (Perf.generate_test_events 12)) 5 = 3
  /\ Perf.outline (Perf.schedule (Perf.generate_test_events 12) 5)
     = [inl 5; inr (1 # 10); inl 5; inr (1 # 10); inl 2]
  /\ List.concat (Perf.batches_of (Perf.schedule (Perf.generate_test_events 12) 5))
     = Perf.generate_test_events 12
  /\ exists t',
       Perf.run_performance_test decimal_int 50 env Scenario.no_readings 12 5
         Scenario.fresh_tester = Returned (Some t')
       /\ List.length (Perf.response_times t') = 12%nat
       /\ Perf.sleeps t'
          = [Perf.Sleep Perf.BatchPause (1 # 10); Perf.Sleep Perf.BatchPause (1 # 10)]
       /\ Perf.successful_events (Perf.metrics t') + Perf.failed_events (Perf.metrics t')
          = 12.
Proof.
  intros env.
  assert (HB : 0 < 5) by lia.
  split; [exact HB|].
  destruct (batches_partition_the_events (Perf.generate_test_events 12) 5 HB)
    as (_ & _ & Hcat & Hout & _ & _ & _ & _ & Hrun & _).
  split; [reflexivity|]. split; [rewrite Hout; reflexivity|]. split; [exact Hcat|].
  destruct (Hrun decimal_int 50%nat env Scenario.no_readings 12 Scenario.fresh_tester
              eq_refl ltac:(lia) ltac:(intros i; reflexivity))
    as (t' & Ht' & Hperm & Hs & _ & Hc & _).
  exists t'. split; [exact Ht'|].
  split; [rewrite (Permutation_length Hperm), length_map, length_seq; reflexivity|].
  split; [exact Hs | exact Hc].
Defined.

(** The performance tester with fifty slots, one event, every attempt
    answered 429 with Retry-After: 2: fifty attempts, fifty waits of two
    seconds, no failure recorded, and the run does not end. *)
Lemma fifty_attempts_and_no_failure :
  let env := Scenario.always_rate_limited_perf in
  let out := Perf.create_single_event decimal_int 50 env 0 (Perf.test_event 0) 0
               Scenario.fresh_tester in
  (forall k, (k < 50)%nat ->
             exists r, Perf.post (env k) = Returned r /\ status r = 429
                       /\ retry_after_of decimal_int r = Returned 2)
  /\ snd out = None
  /\ Perf.rate_limited_requests (Perf.metrics (fst out)) = 50
  /\ Perf.failed_events (Perf.metrics (fst out)) = 0
  /\ Perf.sleeps (fst out) = repeat (Perf.Sleep Perf.RateLimitWait (inject_Z 2)) 50
  /\ Perf.run_performance_test decimal_int 50 (fun _ => env) Scenario.no_readings 1 50
       Scenario.fresh_tester = Returned None.
Proof.
  intros env out.
  assert (H429 : forall k, (k < 50)%nat ->
             exists r, Perf.post (env k) = Returned r /\ status r = 429
                       /\ retry_after_of decimal_int r = Returned 2)
    by (intros; eexists; repeat split; reflexivity).
  split; [exact H429|].
  destruct (rate_limited_item_is_never_given_up decimal_int env 2 50 (Perf.test_event 0) 0
              Scenario.fresh_tester H429)
    as (Hn & Hr & _ & Hs & Hf & _ & Hrun & _).
  split; [exact Hn|]. split; [exact Hr|]. split; [exact Hf|]. split; [exact Hs|].
  exact (Hrun (fun _ => env) Scenario.no_readings 50 eq_refl ltac:(lia)).
Defined.

